(** * Jira MCP server: dispatcher and aggregation handlers

    A shallow embedding of the tool dispatcher ([handleCallTool]), the
    role/member aggregation ([listProjectMembers], [checkUserIssues]) and the
    board/sprint aggregation ([listSprints]), with the properties the
    specification states about them.

    Conventions of the embedding:
    - a JavaScript string is a [string]; an optional or possibly undefined
      string is an [option string], and it is truthy when it is present and
      not empty;
    - a [Map] is an association list in insertion order ([Js.Map]);
    - an [async] function is a computation in the monad [M]: it threads the
      log of upstream requests and of console warnings, and it either returns
      a value or throws a [Js.Error];
    - the upstream service, the process environment and the parts of the
      JavaScript runtime and of the yup library that the code calls are
      parameters of the handlers ([Gateway], [ProcessEnv], [Platform]); a
      reference instance of each is given to run the handlers on examples. *)

From Stdlib Require Import ZArith Ascii String List Permutation Sorted Lia.
From stdpp Require Import base option list strings pretty gmap sets.

Open Scope string_scope.
Open Scope Z_scope.

(** ** JavaScript values and string primitives *)

Module Js.

(** Truthiness of a possibly undefined string: [undefined] and the empty
    string are falsy. *)
Definition truthy (v : option string) : bool :=
  match v with
  | Some s => negb (String.eqb s "")
  | None => false
  end.

(** [a || b] on possibly undefined strings. *)
Definition or (a b : option string) : option string :=
  if truthy a then a else b.

(** [a || 'lit'] where the right operand is a string literal. *)
Definition orLit (a : option string) (lit : string) : string :=
  match a with
  | Some s => if String.eqb s "" then lit else s
  | None => lit
  end.

(** The string a truthy value holds. *)
Definition asTruthy (v : option string) : option string :=
  match v with
  | Some s => if String.eqb s "" then None else Some s
  | None => None
  end.

(** [s.includes(sub)] *)
Fixpoint includes (s sub : string) : bool :=
  if String.prefix sub s then true
  else match s with
       | EmptyString => false
       | String _ s' => includes s' sub
       end.

(** Lower case of an ASCII letter, as the [i] flag of a regular
    expression without the [u] flag folds it. *)
Definition lowerAscii (c : ascii) : ascii :=
  let n := nat_of_ascii c in
  if (Nat.leb 65 n && Nat.leb n 90)%bool then ascii_of_nat (n + 32) else c.

Definition upperAscii (c : ascii) : ascii :=
  let n := nat_of_ascii c in
  if (Nat.leb 97 n && Nat.leb n 122)%bool then ascii_of_nat (n - 32) else c.

Fixpoint mapChars (f : ascii → ascii) (s : string) : string :=
  match s with
  | EmptyString => EmptyString
  | String c s' => String (f c) (mapChars f s')
  end.

(** The line feed and the double quote of a template literal. *)
Definition nl : string := String (ascii_of_nat 10) EmptyString.
Definition dq : string := String (ascii_of_nat 34) EmptyString.

(** [`${v}`] for a possibly undefined string. *)
Definition template (v : option string) : string :=
  match v with
  | Some s => s
  | None => "undefined"
  end.

(** [xs.join(sep)] *)
Definition join (sep : string) (xs : list string) : string :=
  String.concat sep xs.

(** [s.split('/').pop()]: the part of [s] after its last slash. *)
Fixpoint lastSegmentFrom (acc s : string) : string :=
  match s with
  | EmptyString => acc
  | String c s' =>
      if Ascii.eqb c "/"%char then lastSegmentFrom "" s'
      else lastSegmentFrom (acc +:+ String c "") s'
  end.

Definition lastSegment (s : string) : string := lastSegmentFrom "" s.

(** Concatenation of the pieces appended to a response text. *)
Definition concatAll (xs : list string) : string := String.concat "" xs.

(** A value of a JSON object whose type the code tests with [typeof]. *)
Inductive Value :=
| VString (s : string)
| VNumber (n : Z)
| VOther.

(** A thrown [Error]: its message and, for an upstream rejection that
    carried a response, the status and the JSON text of the body. *)
Record Error := mkError {
  message : string;
  response : option (Z * string)
}.

Definition newError (msg : string) : Error :=
  {| message := msg; response := None |}.

(** The [TypeError] of reading property [prop] of [undefined]. *)
Definition undefinedRead (prop : string) : Error :=
  newError ("Cannot read properties of undefined (reading '" +:+ prop +:+ "')").

(** A loop whose body may throw. *)
Fixpoint foldThrow {A B : Type} (f : B → A → Error + B) (l : list A) (b : B)
  : Error + B :=
  match l with
  | [] => inr b
  | a :: l' =>
      match f b a with
      | inl e => inl e
      | inr b' => foldThrow f l' b'
      end
  end.

(** [xs.sort(compareFn)]. The sort of an array is stable, and for a
    comparator that is a consistent ordering every stable sort returns
    the same array; it is written here as an insertion sort. *)
Fixpoint insertSorted {A : Type} (compareFn : A → A → Z) (x : A) (l : list A)
  : list A :=
  match l with
  | [] => [x]
  | y :: l' =>
      if compareFn x y <=? 0 then x :: y :: l'
      else y :: insertSorted compareFn x l'
  end.

Definition sort {A : Type} (compareFn : A → A → Z) (l : list A) : list A :=
  foldr (insertSorted compareFn) [] l.

(** [s.charAt(0).toUpperCase() + s.slice(1)] *)
Definition capitalize (toUpperCase : string → string) (s : string) : string :=
  match s with
  | EmptyString => EmptyString
  | String c s' => toUpperCase (String c EmptyString) +:+ s'
  end.

(** A [Map] with string keys, in insertion order. *)
Definition Map (V : Type) := list (string * V).

Section MapOps.
Context {V : Type}.

Fixpoint get (m : Map V) (k : string) : option V :=
  match m with
  | [] => None
  | (k', v) :: m' => if String.eqb k' k then Some v else get m' k
  end.

Definition has (m : Map V) (k : string) : bool :=
  match get m k with Some _ => true | None => false end.

(** [m.set(k, v)]: replaces the value of an existing key in place, and
    appends a new key. *)
Fixpoint set (m : Map V) (k : string) (v : V) : Map V :=
  match m with
  | [] => [(k, v)]
  | (k', v') :: m' =>
      if String.eqb k' k then (k', v) :: m' else (k', v') :: set m' k v
  end.

(** Mutation of the object stored under [k] (the map holds a reference
    to it, so the change is seen by later reads of the map). *)
Fixpoint mutate (m : Map V) (k : string) (f : V → V) : Map V :=
  match m with
  | [] => []
  | (k', v') :: m' =>
      if String.eqb k' k then (k', f v') :: m' else (k', v') :: mutate m' k f
  end.

Definition keys (m : Map V) : list string := m.*1.
Definition values (m : Map V) : list V := m.*2.
End MapOps.

End Js.

(** ** Data model *)

(** The uniform result envelope. *)
Record ContentItem := mkContent {
  ctype : string;
  text : string
}.

Record ToolResult := mkResult {
  content : list ContentItem;
  isError : bool
}.

Definition textResult (t : string) (err : bool) : ToolResult :=
  {| content := [ {| ctype := "text"; text := t |} ]; isError := err |}.

(** The text of the first content item (every result of this server has
    exactly one). *)
Definition resultText (r : ToolResult) : string :=
  match content r with
  | c :: _ => text c
  | [] => ""
  end.

(** Tool arguments: an object whose fields are strings. *)
Abbreviation Args := (gmap string string).

(** [RoleActor] and [ProjectRole] of [types/index], as the handlers read
    them. *)
Record RoleActor := mkActor {
  actor_displayName : option string;
  actor_type : string;
  actor_emailAddress : option string
}.

Record ProjectRole := mkRole {
  actors : option (list RoleActor)
}.

(** The record kept per display name by the member aggregation. *)
Record Member := mkMember {
  displayName : string;
  type : string;
  email : string;
  roles : list string
}.

(** An issue of a search result, with the fields the handlers render. *)
Record Issue := mkIssue {
  issue_key : string;
  issue_summary : option string;
  issue_status : option string;
  issue_type : option string;
  issue_assignee : option string;
  issue_created : string
}.

Record SearchResults := mkSearch {
  issues : option (list Issue)
}.

(** A page of boards ([data.values], each with its [id]). *)
Record BoardPage := mkBoards {
  board_values : option (list string)
}.

Record Sprint := mkSprint {
  sprint_id : string;
  sprint_name : string;
  sprint_state : string;
  startDate : option string;
  endDate : option string;
  goal : option string;
  boardId : option string
}.

Record SprintPage := mkSprints {
  sprint_values : option (list Sprint)
}.

(** ** Effects: upstream requests, console warnings, exceptions *)

(** An [axios.get(url, {params, headers})] call. *)
Record Request := mkRequest {
  url : string;
  params : list (string * Js.Value);
  headers : list (string * string)
}.

(** How a request settles: rejected with an error, or resolved with
    [response.data]. *)
Definition Settled (T : Type) : Type := Js.Error + T.

(** The upstream service, one typed endpoint per resource the handlers
    read, and the order in which concurrently issued requests settle:
    [arrival n] lists the positions of [n] in-flight requests in completion
    order. *)
Record Gateway := mkGateway {
  gw_roles : Request → Settled (list (string * Js.Value));
  gw_roleDetail : Request → Settled ProjectRole;
  gw_search : Request → Settled SearchResults;
  gw_boards : Request → Settled BoardPage;
  gw_sprints : Request → Settled SprintPage;
  gw_sprintIssues : Request → Settled SearchResults;
  arrival : nat → list nat
}.

Record ProcessEnv := mkEnv {
  JIRA_HOST : option string;
  JIRA_LOGIN_NAME : option string;
  JIRA_LOGIN_TOKEN : option string
}.

(** The validation schemas of [validators/index]. *)
Inductive Schema :=
| JiraApiRequestSchema
| JiraIssueRequestSchema
| JiraSearchIssuesRequestSchema
| JiraProjectMembersRequestSchema
| JiraCheckUserIssuesRequestSchema
| JiraCreateIssueRequestSchema
| JiraSprintRequestSchema.

(** What the handlers use of the JavaScript runtime and of yup. *)
Record Platform := mkPlatform {
  toLowerCase : string → string;
  toUpperCase : string → string;
  (** [new Date(s).getTime()], for a string [s] that holds a date *)
  getTime : string → Z;
  (** [new Date(s).toLocaleDateString()] and [.toLocaleString()] *)
  toLocaleDateString : string → string;
  toLocaleString : string → string;
  (** [Buffer.from(s).toString('base64')] *)
  base64 : string → string;
  (** [schema.validate(args)]: the validated arguments, or the
      validation error it rejects with. *)
  validate : Schema → Args → Settled Args
}.

(** The observable state a call changes: the requests sent upstream and
    the warnings written to the console, both oldest first. *)
Record World := mkWorld {
  requests : list Request;
  warnings : list string
}.

Definition emptyWorld : World := {| requests := []; warnings := [] |}.

Inductive Outcome (A : Type) :=
| Ok (a : A)
| Throw (e : Js.Error).

Arguments Ok {A} a.
Arguments Throw {A} e.

Definition M (A : Type) : Type := World → Outcome A * World.

Definition ret {A} (a : A) : M A := fun w => (Ok a, w).

Definition throw {A} (e : Js.Error) : M A := fun w => (Throw e, w).

Definition bind {A B} (m : M A) (k : A → M B) : M B :=
  fun w =>
    match m w with
    | (Ok a, w') => k a w'
    | (Throw e, w') => (Throw e, w')
    end.

(** [try { m } catch (error) { h error }] *)
Definition tryCatch {A} (m : M A) (h : Js.Error → M A) : M A :=
  fun w =>
    match m w with
    | (Ok a, w') => (Ok a, w')
    | (Throw e, w') => h e w'
    end.

Declare Scope js_scope.
Delimit Scope js_scope with js.
Notation "'let*' x ':=' m 'in' k" := (bind m (fun x => k))
  (at level 10, x name, m at level 100, k at level 200) : js_scope.
Notation "m '>>' k" := (bind m (fun _ => k))
  (at level 100, k at level 200, right associativity) : js_scope.
Open Scope js_scope.

(** Lifting of a settled value: [await] of a promise. *)
Definition await {A} (s : Settled A) : M A :=
  match s with
  | inl e => throw e
  | inr a => ret a
  end.

Definition logRequest (req : Request) : M unit :=
  fun w => (Ok tt, {| requests := (requests w ++ [req])%list; warnings := warnings w |}).

(** [console.warn(msg)] *)
Definition consoleWarn (msg : string) : M unit :=
  fun w => (Ok tt, {| requests := requests w; warnings := (warnings w ++ [msg])%list |}).

(** [axios.get(...)] without [await]: the request is sent, and the promise
    it returns is represented by how it will settle. *)
Definition axiosGetAsync {T} (endpoint : Request → Settled T) (req : Request)
  : M (Settled T) :=
  logRequest req >> ret (endpoint req).

(** [await axios.get(...)] *)
Definition axiosGet {T} (endpoint : Request → Settled T) (req : Request) : M T :=
  let* p := axiosGetAsync endpoint req in await p.

(** [Promise.all(ps)]: rejects with the first rejection in completion
    order; when every promise resolves, the values are in the order of
    [ps], whatever the completion order. [order] lists positions of [ps] in
    completion order. *)
Section PromiseAll.
Context {T : Type}.

Fixpoint firstRejection (order : list nat) (ps : list (Settled T))
  : option Js.Error :=
  match order with
  | [] => None
  | i :: order' =>
      match ps !! i with
      | Some (inl e) => Some e
      | _ => firstRejection order' ps
      end
  end.

Fixpoint collect (ps : list (Settled T)) : Settled (list T) :=
  match ps with
  | [] => inr []
  | inl e :: _ => inl e
  | inr v :: ps' =>
      match collect ps' with
      | inl e => inl e
      | inr vs => inr (v :: vs)
      end
  end.

Definition promiseAll (order : list nat) (ps : list (Settled T)) : M (list T) :=
  match firstRejection order ps with
  | Some e => throw e
  | None => await (collect ps)
  end.
End PromiseAll.

(** ** The handlers *)

Section Handlers.
Context (P : Platform) (env : ProcessEnv) (gw : Gateway).

(** *** utils/auth *)

Definition createAuthHeader (loginName loginToken : string) : string :=
  "Basic " +:+ base64 P (loginName +:+ ":" +:+ loginToken).

Definition validateCredentials (jiraHost loginName loginToken : option string)
  : M unit :=
  if (negb (Js.truthy jiraHost) || negb (Js.truthy loginName)
      || negb (Js.truthy loginToken))%bool
  then throw (Js.newError
    "Missing required Jira credentials. Please provide them in the request or set them in the .env file.")
  else ret tt.

(** The test [/^https?:\/\//i] of [normalizeJiraHost]. *)
Definition hasProtocol (jiraHost : string) : bool :=
  let h := Js.mapChars Js.lowerAscii jiraHost in
  (String.prefix "http://" h || String.prefix "https://" h)%bool.

Definition normalizeJiraHost (jiraHost : string) : string :=
  if hasProtocol jiraHost then jiraHost else "https://" +:+ jiraHost.

(** The credential check every handler starts with, after validation:
    it returns the host and the authorization header. *)
Definition handlerCredentials (validatedArgs : Args) : M (string * string) :=
  let jiraHost := Js.or (validatedArgs !! "jiraHost") (JIRA_HOST env) in
  let loginName := Js.or (validatedArgs !! "loginName") (JIRA_LOGIN_NAME env) in
  let loginToken := Js.or (validatedArgs !! "loginToken") (JIRA_LOGIN_TOKEN env) in
  if (negb (Js.truthy jiraHost) || negb (Js.truthy loginName)
      || negb (Js.truthy loginToken))%bool
  then throw (Js.newError
    "Missing required authentication credentials. Please provide jiraHost, loginName, and loginToken.")
  else
    validateCredentials jiraHost loginName loginToken >>
    ret (Js.template jiraHost,
         createAuthHeader (Js.template loginName) (Js.template loginToken)).

Definition jsonHeaders (authHeader : string) : list (string * string) :=
  [("Authorization", authHeader); ("Accept", "application/json")].

(** *** Role and member aggregation *)

Definition rolesRequest (jiraHost authHeader projectKey : string) : Request :=
  {| url := normalizeJiraHost jiraHost +:+ "/rest/api/3/project/"
            +:+ projectKey +:+ "/role";
     params := [];
     headers := jsonHeaders authHeader |}.

Definition roleDetailRequest (jiraHost authHeader projectKey roleUrl : string)
  : Request :=
  {| url := normalizeJiraHost jiraHost +:+ "/rest/api/3/project/"
            +:+ projectKey +:+ "/role/" +:+ Js.lastSegment roleUrl;
     params := [];
     headers := jsonHeaders authHeader |}.

(** The loop over [Object.entries(projectRoles)]: one request per role
    whose locator is a string, sent without waiting for the previous
    ones; the promises are kept in the order of the entries. *)
Fixpoint roleDetailsPromises (jiraHost authHeader projectKey : string)
    (entries : list (string * Js.Value))
  : M (list (Settled (string * ProjectRole))) :=
  match entries with
  | [] => ret []
  | (roleName, Js.VString roleUrl) :: rest =>
      let* p := axiosGetAsync (gw_roleDetail gw)
                  (roleDetailRequest jiraHost authHeader projectKey roleUrl) in
      let* ps := roleDetailsPromises jiraHost authHeader projectKey rest in
      ret (sum_map id (pair roleName) p :: ps)
  | (_, _) :: rest =>
      roleDetailsPromises jiraHost authHeader projectKey rest
  end.

Definition pushRole (roleName : string) (member : Member) : Member :=
  {| displayName := displayName member;
     type := type member;
     email := email member;
     roles := (roles member ++ [roleName])%list |}.

(** The body of [data.actors.forEach] in [listProjectMembers]. *)
Definition addActor (roleName : string) (allMembers : Js.Map Member)
    (actor : RoleActor) : Js.Map Member :=
  match Js.asTruthy (actor_displayName actor) with
  | Some name =>
      if negb (Js.has allMembers name) then
        Js.set allMembers name
          {| displayName := name;
             type := actor_type actor;
             email := Js.orLit (actor_emailAddress actor) "N/A";
             roles := [roleName] |}
      else Js.mutate allMembers name (pushRole roleName)
  | None => allMembers
  end.

(** One iteration of [for (const {roleName, data} of roleDetails)]. *)
Definition addRole (allMembers : Js.Map Member) (detail : string * ProjectRole)
  : Js.Map Member :=
  let '(roleName, data) := detail in
  match actors data with
  | Some (a :: l) => fold_left (addActor roleName) (a :: l) allMembers
  | _ => allMembers
  end.

Definition mergeRoles (roleDetails : list (string * ProjectRole))
  : Js.Map Member :=
  fold_left addRole roleDetails [].

Definition memberRow (member : Member) : string :=
  "| " +:+ displayName member +:+ " | " +:+ type member +:+ " | "
  +:+ email member +:+ " | " +:+ Js.join ", " (roles member) +:+ " |" +:+ Js.nl.

Definition listProjectMembers (args : Args) : M ToolResult :=
  let* validatedArgs := await (validate P JiraProjectMembersRequestSchema args) in
  let* cred := handlerCredentials validatedArgs in
  let '(jiraHost, authHeader) := cred in
  let projectKey := Js.template (validatedArgs !! "projectKey") in
  let* projectRoles := axiosGet (gw_roles gw)
                         (rolesRequest jiraHost authHeader projectKey) in
  let formattedResponse :=
    "# Project Members for " +:+ projectKey +:+ Js.nl +:+ Js.nl in
  match projectRoles with
  | _ :: _ =>
      let* promises :=
        roleDetailsPromises jiraHost authHeader projectKey projectRoles in
      let* roleDetails :=
        promiseAll (arrival gw (length promises)) promises in
      let allMembers := mergeRoles roleDetails in
      ret (textResult
             (formattedResponse +:+
              match allMembers with
              | _ :: _ =>
                  "| Name | Type | Email | Roles |" +:+ Js.nl
                  +:+ "|------|------|-------|-------|" +:+ Js.nl
                  +:+ Js.concatAll (memberRow <$> Js.values allMembers)
              | [] => "No project members found."
              end)
             false)
  | [] =>
      ret (textResult (formattedResponse +:+ "No project roles found.") false)
  end.

(** *** Membership check *)

(** The body of [data.actors.forEach] in [checkUserIssues]: the same
    update of [allMembers], then the case-insensitive comparison with the
    requested user, which reads [userName.toLowerCase]. *)
Definition checkActor (userName : option string) (roleName : string)
    (st : Js.Map Member * bool) (actor : RoleActor)
  : Js.Error + (Js.Map Member * bool) :=
  let '(allMembers, userFound) := st in
  match Js.asTruthy (actor_displayName actor) with
  | Some name =>
      let allMembers' := addActor roleName allMembers actor in
      match userName with
      | Some u =>
          if String.eqb (toLowerCase P name) (toLowerCase P u)
          then inr (allMembers', true)
          else inr (allMembers', userFound)
      | None => inl (Js.undefinedRead "toLowerCase")
      end
  | None => inr st
  end.

Definition checkRole (userName : option string) (st : Js.Map Member * bool)
    (detail : string * ProjectRole) : Js.Error + (Js.Map Member * bool) :=
  let '(roleName, data) := detail in
  match actors data with
  | Some (a :: l) => Js.foldThrow (checkActor userName roleName) (a :: l) st
  | _ => inr st
  end.

Definition checkRoles (userName : option string)
    (roleDetails : list (string * ProjectRole))
  : Js.Error + (Js.Map Member * bool) :=
  Js.foldThrow (checkRole userName) roleDetails ([], false).

Definition issueFields : string :=
  "summary,status,assignee,created,issuetype,priority".

Definition userIssuesRequest (jiraHost authHeader projectKey userName : string)
  : Request :=
  {| url := normalizeJiraHost jiraHost +:+ "/rest/api/3/search";
     params := [("jql", Js.VString
                   ("project = " +:+ Js.dq +:+ projectKey +:+ Js.dq
                    +:+ " AND assignee = " +:+ Js.dq +:+ userName +:+ Js.dq
                    +:+ " ORDER BY created DESC"));
                ("maxResults", Js.VNumber 50);
                ("fields", Js.VString issueFields)];
     headers := jsonHeaders authHeader |}.

Definition userIssueRow (issue : Issue) : string :=
  "| " +:+ issue_key issue
  +:+ " | " +:+ Js.orLit (issue_summary issue) "No summary"
  +:+ " | " +:+ Js.orLit (issue_status issue) "Unknown"
  +:+ " | " +:+ Js.orLit (issue_type issue) "Unknown"
  +:+ " | " +:+ toLocaleDateString P (issue_created issue)
  +:+ " |" +:+ Js.nl.

(** The filter of the listing of available members. *)
Definition listed (member : Member) : bool :=
  (negb (String.eqb (type member) "atlassian-user-role-actor")
   || (negb (Js.includes (displayName member) "for Jira")
       && negb (Js.includes (displayName member) "Atlassian")))%bool.

Definition availableRow (member : Member) : string :=
  "| " +:+ displayName member +:+ " | " +:+ Js.join ", " (roles member)
  +:+ " |" +:+ Js.nl.

Definition foundLine (userName : string) (userInfo : option Member) : string :=
  "✅ User " +:+ Js.dq +:+ userName +:+ Js.dq
  +:+ " found in project with the following roles: "
  +:+ match userInfo with
      | Some m => Js.join ", " (roles m)
      | None => "undefined"
      end
  +:+ Js.nl +:+ Js.nl.

Definition notMemberLine (userName projectKey : string) : string :=
  "❌ User " +:+ Js.dq +:+ userName +:+ Js.dq
  +:+ " is NOT a member of project " +:+ Js.dq +:+ projectKey +:+ Js.dq
  +:+ ". No issues will be fetched." +:+ Js.nl +:+ Js.nl.

Definition noRolesLine : string :=
  "⚠️ No project roles found. Unable to determine project membership.".

Definition checkHeading (userName projectKey : string) : string :=
  "# Checking User " +:+ Js.dq +:+ userName +:+ Js.dq +:+ " in Project "
  +:+ Js.dq +:+ projectKey +:+ Js.dq +:+ Js.nl +:+ Js.nl.

Definition stepOneHeading (userName projectKey : string) : string :=
  "## Step 1: Checking if user " +:+ Js.dq +:+ userName +:+ Js.dq
  +:+ " is a member of project " +:+ Js.dq +:+ projectKey +:+ Js.dq
  +:+ Js.nl +:+ Js.nl.

Definition stepTwoHeading (userName projectKey : string) : string :=
  "## Step 2: Fetching issues assigned to " +:+ Js.dq +:+ userName
  +:+ Js.dq +:+ " in project " +:+ Js.dq +:+ projectKey +:+ Js.dq
  +:+ Js.nl +:+ Js.nl.

(** [allMembers.get(Array.from(allMembers.keys()).find(...) || "")] *)
Definition lookupUser (allMembers : Js.Map Member) (userName : string)
  : option Member :=
  Js.get allMembers
    (Js.orLit
       (find (fun name => String.eqb (toLowerCase P name)
                                     (toLowerCase P userName))
             (Js.keys allMembers))
       "").

Definition userIssuesTable (searchResults : SearchResults) : string :=
  match issues searchResults with
  | Some (i :: l) =>
      "| Issue Key | Summary | Status | Type | Created |" +:+ Js.nl
      +:+ "|-----------|---------|--------|------|--------|" +:+ Js.nl
      +:+ Js.concatAll (userIssueRow <$> (i :: l))
  | _ => "No issues found assigned to this user in the project."
  end.

Definition availableMembers (allMembers : Js.Map Member) : string :=
  "### Available Project Members:" +:+ Js.nl +:+ Js.nl
  +:+ "| Name | Roles |" +:+ Js.nl
  +:+ "|------|-------|" +:+ Js.nl
  +:+ Js.concatAll
        (availableRow <$> filter (fun m => listed m = true)
                                 (Js.values allMembers)).

Definition checkUserIssues (args : Args) : M ToolResult :=
  let* validatedArgs :=
    await (validate P JiraCheckUserIssuesRequestSchema args) in
  let* cred := handlerCredentials validatedArgs in
  let '(jiraHost, authHeader) := cred in
  let projectKey := Js.template (validatedArgs !! "projectKey") in
  let userName := Js.template (validatedArgs !! "userName") in
  let* projectRoles := axiosGet (gw_roles gw)
                         (rolesRequest jiraHost authHeader projectKey) in
  let formattedResponse := checkHeading userName projectKey in
  match projectRoles with
  | _ :: _ =>
      let* promises :=
        roleDetailsPromises jiraHost authHeader projectKey projectRoles in
      let* roleDetails :=
        promiseAll (arrival gw (length promises)) promises in
      let* merged :=
        await (checkRoles (validatedArgs !! "userName") roleDetails) in
      let '(allMembers, userFound) := merged in
      let formattedResponse :=
        formattedResponse +:+ stepOneHeading userName projectKey in
      if userFound then
        let userInfo := lookupUser allMembers userName in
        let formattedResponse :=
          formattedResponse +:+ foundLine userName userInfo
          +:+ stepTwoHeading userName projectKey in
        let* searchResults :=
          axiosGet (gw_search gw)
            (userIssuesRequest jiraHost authHeader projectKey userName) in
        ret (textResult (formattedResponse +:+ userIssuesTable searchResults)
                        false)
      else
        ret (textResult
               (formattedResponse +:+ notMemberLine userName projectKey
                +:+ availableMembers allMembers)
               false)
  | [] =>
      ret (textResult (formattedResponse +:+ noRolesLine) false)
  end.

(** *** Board and sprint aggregation *)

Definition boardsRequest (jiraHost authHeader : string)
    (projectKey : option string) : Request :=
  {| url := normalizeJiraHost jiraHost +:+ "/rest/agile/1.0/board";
     params := match projectKey with
               | Some k => [("projectKeyOrId", Js.VString k)]
               | None => []
               end;
     headers := jsonHeaders authHeader |}.

Definition noBoardsForProject (projectKey : string) : ToolResult :=
  textResult ("# No Boards Found" +:+ Js.nl +:+ Js.nl
              +:+ "No boards were found for project key: " +:+ projectKey)
             false.

Definition noBoardsAtAll : ToolResult :=
  textResult ("# No Boards Found" +:+ Js.nl +:+ Js.nl
              +:+ "No boards were found in your Jira instance.")
             false.

(** The first block of the [try] of [listSprints]: the board ids to
    query ([inr]), or the result the block returns at once ([inl]). *)
Definition resolveBoards (jiraHost authHeader : string)
    (boardId projectKey : option string) : M (ToolResult + list string) :=
  match Js.asTruthy boardId with
  | Some b => ret (inr [b])
  | None =>
      match Js.asTruthy projectKey with
      | Some k =>
          let* boardResponse :=
            axiosGet (gw_boards gw) (boardsRequest jiraHost authHeader (Some k)) in
          match board_values boardResponse with
          | Some (b :: l) => ret (inr (b :: l))
          | _ => ret (inl (noBoardsForProject k))
          end
      | None =>
          let* boardResponse :=
            axiosGet (gw_boards gw) (boardsRequest jiraHost authHeader None) in
          match board_values boardResponse with
          | Some (b :: l) => ret (inr (take 5 (b :: l)))
          | _ => ret (inl noBoardsAtAll)
          end
      end
  end.

Definition sprintsRequest (jiraHost authHeader state bId : string) : Request :=
  {| url := normalizeJiraHost jiraHost +:+ "/rest/agile/1.0/board/" +:+ bId
            +:+ "/sprint";
     params := if negb (String.eqb state "all")
               then [("state", Js.VString state)] else [];
     headers := jsonHeaders authHeader |}.

(** [{...sprint, boardId: bId}] *)
Definition withBoard (bId : string) (sprint : Sprint) : Sprint :=
  {| sprint_id := sprint_id sprint;
     sprint_name := sprint_name sprint;
     sprint_state := sprint_state sprint;
     startDate := startDate sprint;
     endDate := endDate sprint;
     goal := goal sprint;
     boardId := Some bId |}.

Definition skipWarning (bId : string) : string :=
  "Could not fetch sprints for board " +:+ bId.

(** [for (const bId of boardIds) { try { ... } catch { console.warn } }] *)
Fixpoint fetchSprints (jiraHost authHeader state : string)
    (boardIds : list string) (allSprints : list Sprint) : M (list Sprint) :=
  match boardIds with
  | [] => ret allSprints
  | bId :: rest =>
      let* allSprints' :=
        tryCatch
          (let* sprintResponse :=
             axiosGet (gw_sprints gw)
               (sprintsRequest jiraHost authHeader state bId) in
           match sprint_values sprintResponse with
           | Some (s :: l) => ret (allSprints ++ (withBoard bId <$> (s :: l)))%list
           | _ => ret allSprints
           end)
          (fun _ => consoleWarn (skipWarning bId) >> ret allSprints) in
      fetchSprints jiraHost authHeader state rest allSprints'
  end.

Definition noSprintsMessage (state : string) (boardId projectKey : option string)
  : string :=
  "# No Sprints Found" +:+ Js.nl +:+ Js.nl
  +:+ (if negb (String.eqb state "all")
       then "No " +:+ state +:+ " sprints were found"
       else "No sprints were found")
  +:+ match Js.asTruthy boardId with
      | Some b => " for board ID: " +:+ b
      | None =>
          match Js.asTruthy projectKey with
          | Some k => " for project key: " +:+ k
          | None => ""
          end
      end.

(** [a.startDate ? new Date(a.startDate).getTime() : 0] *)
Definition sprintTime (a : Sprint) : Z :=
  match Js.asTruthy (startDate a) with
  | Some d => getTime P d
  | None => 0
  end.

Definition compareSprints (a b : Sprint) : Z := sprintTime b - sprintTime a.

Definition sortSprints (allSprints : list Sprint) : list Sprint :=
  Js.sort compareSprints allSprints.

Definition sprintRow (sprint : Sprint) : string :=
  "| " +:+ sprint_id sprint +:+ " | " +:+ sprint_name sprint
  +:+ " | " +:+ Js.template (boardId sprint)
  +:+ " | " +:+ Js.capitalize (toUpperCase P) (sprint_state sprint)
  +:+ " | " +:+ match Js.asTruthy (startDate sprint) with
                | Some d => toLocaleDateString P d
                | None => "Not started"
                end
  +:+ " | " +:+ match Js.asTruthy (endDate sprint) with
                | Some d => toLocaleDateString P d
                | None => "Not set"
                end
  +:+ " |" +:+ Js.nl.

Definition sprintHeading (jiraHost : string) (projectKey : option string)
    (sprint : Sprint) : string :=
  "### " +:+ sprint_name sprint +:+ " (ID: " +:+ sprint_id sprint +:+ ")"
  +:+ Js.nl +:+ Js.nl
  +:+ "**Board ID:** " +:+ Js.template (boardId sprint) +:+ Js.nl
  +:+ "**Status:** " +:+ Js.capitalize (toUpperCase P) (sprint_state sprint)
  +:+ Js.nl
  +:+ match Js.asTruthy (startDate sprint) with
      | Some d => "**Start Date:** " +:+ toLocaleString P d +:+ Js.nl
      | None => ""
      end
  +:+ match Js.asTruthy (endDate sprint) with
      | Some d => "**End Date:** " +:+ toLocaleString P d +:+ Js.nl
      | None => ""
      end
  +:+ match Js.asTruthy (goal sprint) with
      | Some g => "**Goal:** " +:+ g +:+ Js.nl
      | None => ""
      end
  +:+ "**View in Jira:** " +:+ normalizeJiraHost jiraHost
  +:+ "/jira/software/projects/" +:+ Js.orLit projectKey "browse"
  +:+ "/boards/" +:+ Js.template (boardId sprint)
  +:+ "/sprints/" +:+ sprint_id sprint +:+ Js.nl +:+ Js.nl.

Definition sprintIssuesRequest (jiraHost authHeader : string) (sprint : Sprint)
  : Request :=
  {| url := normalizeJiraHost jiraHost +:+ "/rest/agile/1.0/sprint/"
            +:+ sprint_id sprint +:+ "/issue";
     params := [("fields", Js.VString "summary,status,assignee,issuetype")];
     headers := jsonHeaders authHeader |}.

Definition sprintIssueRow (jiraHost : string) (issue : Issue) : string :=
  "| [" +:+ issue_key issue +:+ "](" +:+ normalizeJiraHost jiraHost
  +:+ "/browse/" +:+ issue_key issue +:+ ") | "
  +:+ Js.template (issue_summary issue)
  +:+ " | " +:+ default "Task" (issue_type issue)
  +:+ " | " +:+ default "Unknown" (issue_status issue)
  +:+ " | " +:+ default "Unassigned" (issue_assignee issue)
  +:+ " |" +:+ Js.nl.

Definition sprintIssuesTable (jiraHost : string) (issuesResponse : SearchResults)
  : string :=
  match issues issuesResponse with
  | Some (i :: l) =>
      "#### Issues (" +:+ pretty (length (i :: l)) +:+ ")" +:+ Js.nl +:+ Js.nl
      +:+ "| Key | Summary | Type | Status | Assignee |" +:+ Js.nl
      +:+ "|-----|---------|------|--------|----------|" +:+ Js.nl
      +:+ Js.concatAll (sprintIssueRow jiraHost <$> (i :: l))
  | _ => "No issues found in this sprint." +:+ Js.nl
  end.

(** [for (const sprint of allSprints)]: the details of each sprint, with
    its issues fetched inside a [try] of its own. *)
Fixpoint sprintDetails (jiraHost authHeader : string) (projectKey : option string)
    (sprints : list Sprint) (formattedResponse : string) : M string :=
  match sprints with
  | [] => ret formattedResponse
  | sprint :: rest =>
      let formattedResponse :=
        formattedResponse +:+ sprintHeading jiraHost projectKey sprint in
      let* formattedResponse :=
        tryCatch
          (let* issuesResponse :=
             axiosGet (gw_sprintIssues gw)
               (sprintIssuesRequest jiraHost authHeader sprint) in
           ret (formattedResponse +:+ sprintIssuesTable jiraHost issuesResponse))
          (fun _ =>
             ret (formattedResponse +:+ "Could not fetch issues for this sprint."
                  +:+ Js.nl)) in
      sprintDetails jiraHost authHeader projectKey rest
        (formattedResponse +:+ Js.nl +:+ "---" +:+ Js.nl +:+ Js.nl)
  end.

Definition sprintsTable (state : string) (allSprints : list Sprint) : string :=
  "# " +:+ Js.capitalize (toUpperCase P) state +:+ " Sprints" +:+ Js.nl +:+ Js.nl
  +:+ "| ID | Name | Board | Status | Start Date | End Date |" +:+ Js.nl
  +:+ "|----|------|-------|--------|------------|----------|" +:+ Js.nl
  +:+ Js.concatAll (sprintRow <$> allSprints)
  +:+ Js.nl +:+ "## Sprint Details" +:+ Js.nl +:+ Js.nl.

(** The [catch] of [listSprints]. *)
Definition sprintsError (error : Js.Error) : ToolResult :=
  let errorMsg :=
    match Js.response error with
    | Some (status, body) =>
        "Error " +:+ pretty status +:+ ": "
        +:+ Js.orLit (Some body) (Js.message error)
    | None =>
        Js.orLit (Some (Js.message error))
                 "An error occurred while retrieving sprints."
    end in
  textResult ("# Error" +:+ Js.nl +:+ Js.nl +:+ errorMsg) true.

Definition listSprints (args : Args) : M ToolResult :=
  let* validatedArgs := await (validate P JiraSprintRequestSchema args) in
  let* cred := handlerCredentials validatedArgs in
  let '(jiraHost, authHeader) := cred in
  let boardId := validatedArgs !! "boardId" in
  let projectKey := validatedArgs !! "projectKey" in
  let state := Js.orLit (validatedArgs !! "state") "active" in
  tryCatch
    (let* boards := resolveBoards jiraHost authHeader boardId projectKey in
     match boards with
     | inl early => ret early
     | inr boardIds =>
         let* allSprints :=
           fetchSprints jiraHost authHeader state boardIds [] in
         match allSprints with
         | [] => ret (textResult (noSprintsMessage state boardId projectKey) false)
         | _ :: _ =>
             let allSprints := sortSprints allSprints in
             let* formattedResponse :=
               sprintDetails jiraHost authHeader projectKey allSprints
                 (sprintsTable state allSprints) in
             ret (textResult formattedResponse false)
         end
     end)
    (fun error => ret (sprintsError error)).

End Handlers.

(** ** The dispatcher *)

Section Dispatcher.
Context (P : Platform) (env : ProcessEnv) (gw : Gateway).

(** The handlers of the tools that do no aggregation. *)
Context (listProjects getIssue searchIssues createIssue : Args → M ToolResult).

Record ToolConfig := mkToolConfig {
  schema : Schema;
  handler : Args → M ToolResult
}.

(** The own properties of the object literal [toolConfigs]. *)
Definition toolConfigs : Js.Map ToolConfig :=
  [ ("jira_list_projects",
      {| schema := JiraApiRequestSchema; handler := listProjects |});
    ("jira_get_issue",
      {| schema := JiraIssueRequestSchema; handler := getIssue |});
    ("jira_search_issues",
      {| schema := JiraSearchIssuesRequestSchema; handler := searchIssues |});
    ("jira_list_project_members",
      {| schema := JiraProjectMembersRequestSchema;
         handler := listProjectMembers P env gw |});
    ("jira_check_user_issues",
      {| schema := JiraCheckUserIssuesRequestSchema;
         handler := checkUserIssues P env gw |});
    ("jira_create_issue",
      {| schema := JiraCreateIssueRequestSchema; handler := createIssue |});
    ("jira_list_sprints",
      {| schema := JiraSprintRequestSchema; handler := listSprints P env gw |}) ].

(** The properties an object literal inherits from [Object.prototype];
    each holds a function or an object, none of which has a [schema]. *)
Definition objectPrototype : list string :=
  [ "constructor"; "__defineGetter__"; "__defineSetter__"; "hasOwnProperty";
    "__lookupGetter__"; "__lookupSetter__"; "isPrototypeOf";
    "propertyIsEnumerable"; "toString"; "valueOf"; "__proto__";
    "toLocaleString" ].

(** What [toolConfigs[name]] evaluates to: the property access looks
    among the own properties, then along the prototype chain. *)
Inductive Property :=
| OwnConfig (toolConfig : ToolConfig)
| Inherited
| Undefined.

Definition toolConfigsAt (name : string) : Property :=
  match Js.get toolConfigs name with
  | Some toolConfig => OwnConfig toolConfig
  | None =>
      if existsb (String.eqb name) objectPrototype then Inherited else Undefined
  end.

Definition validateAndGetCredentials (args : Args) : M Args :=
  let jiraHost := Js.or (args !! "jiraHost") (JIRA_HOST env) in
  let loginName := Js.or (args !! "loginName") (JIRA_LOGIN_NAME env) in
  let loginToken := Js.or (args !! "loginToken") (JIRA_LOGIN_TOKEN env) in
  validateCredentials jiraHost loginName loginToken >> ret args.

Definition unknownTool (name : string) : ToolResult :=
  textResult ("Unknown tool: " +:+ name) true.

Definition dispatchError (error : Js.Error) : ToolResult :=
  textResult ("Error: " +:+ Js.message error) true.

(** [handleCallTool], for a request whose [params] hold [name] and
    [arguments]. *)
Definition handleCallTool (name : string) (args : Args) : M ToolResult :=
  tryCatch
    (match toolConfigsAt name with
     | Undefined => ret (unknownTool name)
     | Inherited =>
         (* [!toolConfig] is false, and [toolConfig.schema] is undefined *)
         throw (Js.undefinedRead "validate")
     | OwnConfig toolConfig =>
         let* validatedArgs := await (validate P (schema toolConfig) args) in
         let* argsWithCredentials := validateAndGetCredentials validatedArgs in
         handler toolConfig argsWithCredentials
     end)
    (fun error => ret (dispatchError error)).

End Dispatcher.

(** ** Reference instances *)

Module Ref.

(** *** Strings *)

Definition asciiLower (s : string) : string := Js.mapChars Js.lowerAscii s.
Definition asciiUpper (s : string) : string := Js.mapChars Js.upperAscii s.

Definition isSpace (c : ascii) : bool :=
  let n := nat_of_ascii c in
  (Nat.eqb n 32 || (Nat.leb 9 n && Nat.leb n 13))%bool.

Definition isUpper (c : ascii) : bool :=
  let n := nat_of_ascii c in (Nat.leb 65 n && Nat.leb n 90)%bool.

Definition isDigit (c : ascii) : bool :=
  let n := nat_of_ascii c in (Nat.leb 48 n && Nat.leb n 57)%bool.

Fixpoint allChars (f : ascii → bool) (s : string) : bool :=
  match s with
  | EmptyString => true
  | String c s' => (f c && allChars f s')%bool
  end.

(** A string holds the UTF-8 encoding of the JavaScript string. The white
    space [trim] removes has, beside the ASCII one, U+00A0 in two bytes and
    U+1680, U+2000 to U+200A, U+2028, U+2029, U+202F, U+205F, U+3000 and
    U+FEFF in three. *)
Definition isSpace2 (a b : ascii) : bool :=
  (Nat.eqb (nat_of_ascii a) 194 && Nat.eqb (nat_of_ascii b) 160)%bool.

Definition isSpace3 (a b c : ascii) : bool :=
  let x := nat_of_ascii a in
  let y := nat_of_ascii b in
  let z := nat_of_ascii c in
  ((Nat.eqb x 225 && Nat.eqb y 154 && Nat.eqb z 128)
   || (Nat.eqb x 226 && Nat.eqb y 128
       && ((Nat.leb 128 z && Nat.leb z 138) || Nat.eqb z 168 || Nat.eqb z 169
           || Nat.eqb z 175))
   || (Nat.eqb x 226 && Nat.eqb y 129 && Nat.eqb z 159)
   || (Nat.eqb x 227 && Nat.eqb y 128 && Nat.eqb z 128)
   || (Nat.eqb x 239 && Nat.eqb y 187 && Nat.eqb z 191))%bool.

Fixpoint allSpace (s : string) : bool :=
  match s with
  | EmptyString => true
  | String a s1 =>
      if isSpace a then allSpace s1
      else match s1 with
           | String b s2 =>
               if isSpace2 a b then allSpace s2
               else match s2 with
                    | String c s3 =>
                        if isSpace3 a b c then allSpace s3 else false
                    | EmptyString => false
                    end
           | EmptyString => false
           end
  end.

(** [!!value && value.trim().length > 0] *)
Definition notBlank (value : string) : bool := negb (allSpace value).

(** [value.length]: the number of UTF-16 code units, one per character of
    one to three bytes and two per character of four. *)
Fixpoint utf16Length (s : string) : nat :=
  match s with
  | EmptyString => 0
  | String c s' =>
      let n := nat_of_ascii c in
      ((if Nat.ltb n 128 then 1
        else if Nat.ltb n 192 then 0
        else if Nat.ltb n 240 then 1
        else 2) + utf16Length s')%nat
  end.

(** [/^[A-Z][A-Z0-9_]+$/] *)
Definition isProjectKey (s : string) : bool :=
  match s with
  | String c (String c' s') =>
      (isUpper c
       && allChars (fun x => isUpper x || isDigit x || Ascii.eqb x "_"%char)
                   (String c' s'))%bool
  | _ => false
  end.

(** [/^\d+$/] *)
Definition isNumeric (s : string) : bool :=
  match s with
  | EmptyString => false
  | _ => allChars isDigit s
  end.

(** [/^[A-Z][A-Z0-9_]+-[1-9][0-9]*$/]: the project key has no dash, so the
    first dash of the string is the one of the pattern. *)
Fixpoint splitDash (s : string) : option (string * string) :=
  match s with
  | EmptyString => None
  | String c s' =>
      if Ascii.eqb c "-"%char then Some (EmptyString, s')
      else match splitDash s' with
           | Some (a, b) => Some (String c a, b)
           | None => None
           end
  end.

Definition isIssueNumber (s : string) : bool :=
  match s with
  | String c s' =>
      (isDigit c && negb (Ascii.eqb c "0"%char) && allChars isDigit s')%bool
  | EmptyString => false
  end.

Definition isIssueKey (s : string) : bool :=
  match splitDash s with
  | Some (k, n) => (isProjectKey k && isIssueNumber n)%bool
  | None => false
  end.

(** *** Dates: ISO dates [YYYY-MM-DD], at midnight UTC *)

Fixpoint digits (s : string) (acc : Z) : option Z :=
  match s with
  | EmptyString => Some acc
  | String c s' =>
      if isDigit c then digits s' (10 * acc + (Z.of_nat (nat_of_ascii c) - 48))
      else None
  end.

(** Days from 1970-01-01 to the given civil date. *)
Definition daysFromCivil (y m d : Z) : Z :=
  let y' := if m <=? 2 then y - 1 else y in
  let era := y' / 400 in
  let yoe := y' - era * 400 in
  let mp := (m + 9) mod 12 in
  let doy := (153 * mp + 2) / 5 + d - 1 in
  let doe := yoe * 365 + yoe / 4 - yoe / 100 + doy in
  era * 146097 + doe - 719468.

Definition isoTime (s : string) : Z :=
  match digits (substring 0 4 s) 0, digits (substring 5 2 s) 0,
        digits (substring 8 2 s) 0 with
  | Some y, Some m, Some d => daysFromCivil y m d * 86400000
  | _, _, _ => 0
  end.

Definition isoDate (s : string) : string := substring 0 10 s.

(** *** Base64 *)

Definition base64Alphabet : string :=
  "ABCDEFGHIJKLMNOPQRSTUVWXYZabcdefghijklmnopqrstuvwxyz0123456789+/".

Definition sextet (n : nat) : string :=
  match String.get n base64Alphabet with
  | Some c => String c EmptyString
  | None => "="
  end.

Fixpoint base64Bytes (fuel : nat) (bs : list nat) : string :=
  match fuel with
  | O => EmptyString
  | S fuel' =>
      match bs with
      | [] => EmptyString
      | [a] =>
          sextet (a / 4) +:+ sextet ((a mod 4) * 16) +:+ "=="
      | [a; b] =>
          sextet (a / 4) +:+ sextet ((a mod 4) * 16 + b / 16)
          +:+ sextet ((b mod 16) * 4) +:+ "="
      | a :: b :: c :: rest =>
          sextet (a / 4) +:+ sextet ((a mod 4) * 16 + b / 16)
          +:+ sextet ((b mod 16) * 4 + c / 64) +:+ sextet (c mod 64)
          +:+ base64Bytes fuel' rest
      end
  end%nat.

Definition toBase64 (s : string) : string :=
  let bs := nat_of_ascii <$> list_ascii_of_string s in
  base64Bytes (S (length bs)) bs.

(** *** The schemas of [validators/index], for string fields

    The fields are checked in the order written here; when several fields
    are invalid, the properties below do not depend on which of the
    messages the rejection carries. *)

Definition invalid (msg : string) : Settled Args := inl (Js.newError msg).

(** A field with [.default(process.env.X || "")] and the non-blank test. *)
Definition credentialField (field : string) (envValue : option string)
    (msg : string) (args : Args) : Settled Args :=
  let value := default (Js.orLit envValue "") (args !! field) in
  if notBlank value then inr (<[field := value]> args) else invalid msg.

Definition andThen (r : Settled Args) (k : Args → Settled Args) : Settled Args :=
  match r with
  | inl e => inl e
  | inr a => k a
  end.

Definition apiRequest (env : ProcessEnv) (args : Args) : Settled Args :=
  andThen (credentialField "jiraHost" (JIRA_HOST env)
    ("Jira host is required and must be a valid domain (e.g., " +:+ Js.dq
     +:+ "company.atlassian.net" +:+ Js.dq +:+ ")")
    args) (fun args =>
  andThen (credentialField "loginName" (JIRA_LOGIN_NAME env)
    "Login name is required for Jira 8.1.0 authentication" args) (fun args =>
  credentialField "loginToken" (JIRA_LOGIN_TOKEN env)
    "Login token is required for Jira 8.1.0 authentication" args)).

(** [.required(msg).matches(/^[A-Z][A-Z0-9_]+$/, ...)] *)
Definition requiredProjectKey (args : Args) : Settled Args :=
  match Js.asTruthy (args !! "projectKey") with
  | None => invalid "Project key is required"
  | Some k =>
      if isProjectKey k then inr args
      else invalid
        "Invalid project key format. Only uppercase letters, numbers, and underscores are allowed"
  end.

(** [.required(msg).min(2, ...)] *)
Definition requiredUserName (args : Args) : Settled Args :=
  match Js.asTruthy (args !! "userName") with
  | None => invalid "Username is required"
  | Some u =>
      if (2 <=? utf16Length u)%nat then inr args
      else invalid "Username must be at least 2 characters long"
  end.

(** [.required(msg).matches(/^[A-Z][A-Z0-9_]+-[1-9][0-9]*$/, ...)] *)
Definition requiredIssueKey (args : Args) : Settled Args :=
  match Js.asTruthy (args !! "issueKey") with
  | None => invalid "Issue key is required"
  | Some k =>
      if isIssueKey k then inr args
      else invalid
        "Invalid issue key format. The correct format is PROJECT-123"
  end.

(** [.optional().min(2, msg)]: only an absent value skips the test. *)
Definition optionalName (field msg : string) (args : Args) : Settled Args :=
  match args !! field with
  | Some name => if (2 <=? utf16Length name)%nat then inr args else invalid msg
  | None => inr args
  end.

(** [.required(msg).min(3, ...).max(255, ...)] *)
Definition requiredSummary (args : Args) : Settled Args :=
  match Js.asTruthy (args !! "summary") with
  | None => invalid "Issue summary/title is required"
  | Some t =>
      if negb (3 <=? utf16Length t)%nat
      then invalid "Issue title must be at least 3 characters long"
      else if negb (utf16Length t <=? 255)%nat
      then invalid "Issue title must be at most 255 characters long"
      else inr args
  end.

(** [.oneOf(['Task', 'Bug', 'Story', 'Epic'], msg).default("Task")] *)
Definition issueTypeField (args : Args) : Settled Args :=
  match args !! "issueType" with
  | None => inr (<["issueType" := "Task"]> args)
  | Some t =>
      if existsb (String.eqb t) ["Task"; "Bug"; "Story"; "Epic"]
      then inr args
      else invalid "Issue type must be one of: Task, Bug, Story, Epic"
  end.

(** [.optional().test(..., (value) => !value || /^\d+$/.test(value))] *)
Definition optionalSprintId (args : Args) : Settled Args :=
  match Js.asTruthy (args !! "sprintId") with
  | Some i => if isNumeric i then inr args else invalid "Sprint ID must be numeric"
  | None => inr args
  end.

(** The string fields of [JiraCreateIssueRequestSchema]. Its [description]
    is an object, which [Args] does not hold. *)
Definition createFields (args : Args) : Settled Args :=
  andThen (requiredProjectKey args) (fun args =>
  andThen (requiredSummary args) (fun args =>
  andThen (issueTypeField args) (fun args =>
  andThen (optionalName "assigneeName"
             "Assignee name must be at least 2 characters long" args) (fun args =>
  andThen (optionalName "reporterName"
             "Reporter name must be at least 2 characters long" args)
    optionalSprintId)))).

Definition sprintFields (args : Args) : Settled Args :=
  if negb (match Js.asTruthy (args !! "boardId") with
           | Some b => isNumeric b
           | None => true
           end)
  then invalid "Board ID must be numeric"
  else if negb (match args !! "projectKey" with
                | Some k => isProjectKey k
                | None => true
                end)
  then invalid
    "Invalid project key format. Only uppercase letters, numbers, and underscores are allowed"
  else
    match args !! "state" with
    | None => inr (<["state" := "active"]> args)
    | Some s =>
        if existsb (String.eqb s) ["active"; "future"; "closed"; "all"]
        then inr args
        else invalid "Sprint state must be one of: active, future, closed, all"
    end.

Definition yupValidate (env : ProcessEnv) (schema : Schema) (args : Args)
  : Settled Args :=
  andThen (apiRequest env args) (fun args =>
    match schema with
    | JiraApiRequestSchema => inr args
    | JiraIssueRequestSchema => requiredIssueKey args
    | JiraSearchIssuesRequestSchema =>
        andThen (requiredProjectKey args)
          (optionalName "assigneeName"
             "Assignee name must be at least 2 characters long")
    | JiraProjectMembersRequestSchema => requiredProjectKey args
    | JiraCheckUserIssuesRequestSchema =>
        andThen (requiredProjectKey args) requiredUserName
    | JiraCreateIssueRequestSchema => createFields args
    | JiraSprintRequestSchema => sprintFields args
    end).

Definition platform (env : ProcessEnv) : Platform :=
  {| toLowerCase := asciiLower;
     toUpperCase := asciiUpper;
     getTime := isoTime;
     toLocaleDateString := isoDate;
     toLocaleString := isoDate;
     base64 := toBase64;
     validate := yupValidate env |}.

End Ref.

(** ** Definitions used to state the properties *)

(** The world after more requests. *)
Definition sent (w : World) (reqs : list Request) : World :=
  {| requests := (requests w ++ reqs)%list; warnings := warnings w |}.

(** The requests and the promises of the fan-out over the role map. *)
Definition roleRequests (jiraHost authHeader projectKey : string)
    (entries : list (string * Js.Value)) : list Request :=
  omap (fun entry =>
          match entry.2 with
          | Js.VString roleUrl =>
              Some (roleDetailRequest jiraHost authHeader projectKey roleUrl)
          | _ => None
          end) entries.

Definition rolePromises (gw : Gateway) (jiraHost authHeader projectKey : string)
    (entries : list (string * Js.Value)) : list (Settled (string * ProjectRole)) :=
  omap (fun entry =>
          match entry.2 with
          | Js.VString roleUrl =>
              Some (sum_map id (pair entry.1)
                      (gw_roleDetail gw
                         (roleDetailRequest jiraHost authHeader projectKey roleUrl)))
          | _ => None
          end) entries.

(** The values of the promises that resolved. *)
Definition resolvedValues {T} (ps : list (Settled T)) : list T :=
  omap (fun p => match p with inr v => Some v | inl _ => None end) ps.

(** The same upstream with another completion order of concurrent
    requests. *)
Definition withArrival (gw : Gateway) (order : nat → list nat) : Gateway :=
  {| gw_roles := gw_roles gw;
     gw_roleDetail := gw_roleDetail gw;
     gw_search := gw_search gw;
     gw_boards := gw_boards gw;
     gw_sprints := gw_sprints gw;
     gw_sprintIssues := gw_sprintIssues gw;
     arrival := order |}.

(** The actors of a role detail, the display names among them, and the
    roles the merge is expected to record for a name. *)
Definition actorsOf (data : ProjectRole) : list RoleActor := default [] (actors data).

Definition actorNames (detail : string * ProjectRole) : list string :=
  omap (fun actor => Js.asTruthy (actor_displayName actor)) (actorsOf detail.2).

Definition occurrences (name : string) (names : list string) : nat :=
  length (filter (fun n => n = name) names).

Definition rolesSeen (name : string) (roleDetails : list (string * ProjectRole))
  : list string :=
  detail ← roleDetails; replicate (occurrences name (actorNames detail)) detail.1.

Definition rolesOf (allMembers : Js.Map Member) (name : string) : list string :=
  match Js.get allMembers name with
  | Some member => roles member
  | None => []
  end.

Definition memberRoleSets (allMembers : Js.Map Member) : gset (string * gset string) :=
  list_to_set ((fun member => (displayName member, list_to_set (roles member)))
                 <$> Js.values allMembers).

Definition wellKeyed (allMembers : Js.Map Member) : Prop :=
  NoDup (Js.keys allMembers)
  ∧ Forall (fun entry => displayName entry.2 = entry.1 ∧ roles entry.2 ≠ []
                          ∧ entry.1 ≠ "")
           allMembers.

(** Whether the requested user matches one of the actors, as
    [checkUserIssues] computes it along the merge. *)
Definition userMatches (P : Platform) (userName : string)
    (roleDetails : list (string * ProjectRole)) : bool :=
  existsb (fun name => String.eqb (toLowerCase P name) (toLowerCase P userName))
          (roleDetails ≫= actorNames).

(** The sprints [fetchSprints] gets from one board, and whether the request
    for them is rejected. *)
Definition boardSprints (gw : Gateway) (jiraHost authHeader state bId : string)
  : list Sprint :=
  match gw_sprints gw (sprintsRequest jiraHost authHeader state bId) with
  | inr page => withBoard bId <$> default [] (sprint_values page)
  | inl _ => []
  end.

Definition boardFailed (gw : Gateway) (jiraHost authHeader state bId : string)
  : bool :=
  match gw_sprints gw (sprintsRequest jiraHost authHeader state bId) with
  | inr _ => false
  | inl _ => true
  end.

(** The text [sprintDetails] appends for a list of sprints. *)
Fixpoint detailsText (P : Platform) (gw : Gateway) (jiraHost authHeader : string)
    (projectKey : option string) (sprints : list Sprint) : string :=
  match sprints with
  | [] => ""
  | sprint :: rest =>
      sprintHeading P jiraHost projectKey sprint
      +:+ match gw_sprintIssues gw
                  (sprintIssuesRequest jiraHost authHeader sprint) with
          | inr issuesResponse => sprintIssuesTable jiraHost issuesResponse
          | inl _ => "Could not fetch issues for this sprint." +:+ Js.nl
          end
      +:+ (Js.nl +:+ "---" +:+ Js.nl +:+ Js.nl)
      +:+ detailsText P gw jiraHost authHeader projectKey rest
  end.

(** The requests of [listSprints] after the boards are resolved. *)
Definition sprintTrace (P : Platform) (gw : Gateway)
    (jiraHost authHeader state : string) (boardIds : list string) : list Request :=
  ((sprintsRequest jiraHost authHeader state <$> boardIds)
   ++ (sprintIssuesRequest jiraHost authHeader
         <$> sortSprints P (boardIds ≫= boardSprints gw jiraHost authHeader state)))%list.

(** ** An upstream and arguments to run the handlers on *)

Module Fixture.
Definition env : ProcessEnv :=
  {| JIRA_HOST := Some "jira.example.com";
     JIRA_LOGIN_NAME := Some "agent";
     JIRA_LOGIN_TOKEN := Some "secret" |}.

Definition platform : Platform := Ref.platform env.

Definition user (name : string) : RoleActor :=
  {| actor_displayName := Some name;
     actor_type := "atlassian-user-role-actor";
     actor_emailAddress := None |}.

Definition group (name : string) : RoleActor :=
  {| actor_displayName := Some name;
     actor_type := "atlassian-group-role-actor";
     actor_emailAddress := None |}.

Definition roleMap : list (string * Js.Value) :=
  [ ("Administrators",
     Js.VString "https://jira.example.com/rest/api/3/project/ABC/role/10002");
    ("Developers",
     Js.VString "https://jira.example.com/rest/api/3/project/ABC/role/10003") ].

Definition administrators : ProjectRole :=
  {| actors := Some [user "Jane Doe"; user "Jane Doe"; user "Slack for Jira"] |}.

Definition developers : ProjectRole :=
  {| actors := Some [user "Bob"; user "Jane Doe"; group "dev-team"] |}.

Definition sprint (id : string) (start : option string) : Sprint :=
  {| sprint_id := id; sprint_name := "Sprint " +:+ id; sprint_state := "active";
     startDate := start; endDate := None; goal := None; boardId := None |}.

Definition unavailable : Js.Error :=
  {| Js.message := "Request failed with status code 503";
     Js.response := Some (503, "{}") |}.

(** An upstream where every request resolves. *)
Definition gateway : Gateway :=
  {| gw_roles := fun _ => inr roleMap;
     gw_roleDetail := fun req =>
       if Js.includes (url req) "/role/10002" then inr administrators
       else inr developers;
     gw_search := fun _ => inr {| issues := None |};
     gw_boards := fun req =>
       match params req with
       | [] => inr {| board_values := Some ["1"; "2"; "3"; "4"; "5"; "6"; "7"] |}
       | _ => inr {| board_values := Some ["1"; "2"; "3"] |}
       end;
     gw_sprints := fun req =>
       if Js.includes (url req) "/board/1/" then
         inr {| sprint_values := Some [sprint "11" None;
                                       sprint "12" (Some "2024-01-10")] |}
       else if Js.includes (url req) "/board/3/" then
         inr {| sprint_values := Some [sprint "31" (Some "2024-03-01")] |}
       else inr {| sprint_values := Some [] |};
     gw_sprintIssues := fun _ => inr {| issues := None |};
     arrival := fun n => seq 0 n |}.

(** The same upstream, where the detail of role 10003 is rejected. *)
Definition roleFails : Gateway :=
  {| gw_roles := gw_roles gateway;
     gw_roleDetail := fun req =>
       if Js.includes (url req) "/role/10003" then inl unavailable
       else gw_roleDetail gateway req;
     gw_search := gw_search gateway;
     gw_boards := gw_boards gateway;
     gw_sprints := gw_sprints gateway;
     gw_sprintIssues := gw_sprintIssues gateway;
     arrival := fun n => rev (seq 0 n) |}.

(** The same upstream, where the sprints of board 2 are rejected. *)
Definition boardFails : Gateway :=
  {| gw_roles := gw_roles gateway;
     gw_roleDetail := gw_roleDetail gateway;
     gw_search := gw_search gateway;
     gw_boards := gw_boards gateway;
     gw_sprints := fun req =>
       if Js.includes (url req) "/board/2/" then inl unavailable
       else gw_sprints gateway req;
     gw_sprintIssues := gw_sprintIssues gateway;
     arrival := arrival gateway |}.

(** The same upstream, without any board. *)
Definition noBoards : Gateway :=
  {| gw_roles := gw_roles gateway;
     gw_roleDetail := gw_roleDetail gateway;
     gw_search := gw_search gateway;
     gw_boards := fun _ => inr {| board_values := Some [] |};
     gw_sprints := gw_sprints gateway;
     gw_sprintIssues := gw_sprintIssues gateway;
     arrival := arrival gateway |}.

Definition membersArgs : Args := {[ "projectKey" := "ABC" ]}.

(** The arguments of a sprint listing, and what the reference schema
    returns for them. *)
Definition sprintArgs (boardId projectKey : option string) : Args :=
  match boardId, projectKey with
  | Some b, Some k => {[ "boardId" := b; "projectKey" := k ]}
  | Some b, None => {[ "boardId" := b ]}
  | None, Some k => {[ "projectKey" := k ]}
  | None, None => ∅
  end.

Definition sprintValidated (boardId projectKey : option string) : Args :=
  <[ "state" := "active" ]>
    (<[ "loginToken" := "secret" ]>
       (<[ "loginName" := "agent" ]>
          (<[ "jiraHost" := "jira.example.com" ]> (sprintArgs boardId projectKey)))).

Definition checkArgs (userName : string) : Args :=
  <[ "userName" := userName ]> membersArgs.

(** What the reference schemas return for these arguments. *)
Definition validated (args : Args) : Args :=
  <[ "loginToken" := "secret" ]>
    (<[ "loginName" := "agent" ]> (<[ "jiraHost" := "jira.example.com" ]> args)).

Definition host : string := "jira.example.com".
Definition auth : string := "Basic YWdlbnQ6c2VjcmV0".
End Fixture.

(** ** Further inputs to run the handlers on *)

Module Scenario.

(** A process environment without credentials. *)
Definition bare : ProcessEnv :=
  {| JIRA_HOST := None; JIRA_LOGIN_NAME := None; JIRA_LOGIN_TOKEN := None |}.

(** Arguments that name the host and the token, and no login name. *)
Definition noLogin : Args :=
  {[ "jiraHost" := "jira.example.com"; "loginToken" := "secret" ]}.

(** The upstream of [Fixture], where the board query is rejected. *)
Definition boardsDown : Gateway :=
  {| gw_roles := gw_roles Fixture.gateway;
     gw_roleDetail := gw_roleDetail Fixture.gateway;
     gw_search := gw_search Fixture.gateway;
     gw_boards := fun _ => inl Fixture.unavailable;
     gw_sprints := gw_sprints Fixture.gateway;
     gw_sprintIssues := gw_sprintIssues Fixture.gateway;
     arrival := arrival Fixture.gateway |}.

(** The same upstream, where the issues of sprint 12 are rejected. *)
Definition issuesDown : Gateway :=
  {| gw_roles := gw_roles Fixture.gateway;
     gw_roleDetail := gw_roleDetail Fixture.gateway;
     gw_search := gw_search Fixture.gateway;
     gw_boards := gw_boards Fixture.gateway;
     gw_sprints := gw_sprints Fixture.gateway;
     gw_sprintIssues := fun req =>
       if Js.includes (url req) "/sprint/12/" then inl Fixture.unavailable
       else gw_sprintIssues Fixture.gateway req;
     arrival := arrival Fixture.gateway |}.

(** The same upstream, where the search is rejected. *)
Definition searchDown : Gateway :=
  {| gw_roles := gw_roles Fixture.gateway;
     gw_roleDetail := gw_roleDetail Fixture.gateway;
     gw_search := fun _ => inl Fixture.unavailable;
     gw_boards := gw_boards Fixture.gateway;
     gw_sprints := gw_sprints Fixture.gateway;
     gw_sprintIssues := gw_sprintIssues Fixture.gateway;
     arrival := arrival Fixture.gateway |}.

End Scenario.

(** ** Definitions used to state the further properties *)

(** A credential is missing for the schemas: the value of the argument, or
    without it the value of the process environment, has no character that
    is not white space. *)
Definition credentialValue (envValue arg : option string) : string :=
  default (Js.orLit envValue "") arg.

Definition blankCredential (env : ProcessEnv) (args : Args) : Prop :=
  Ref.notBlank (credentialValue (JIRA_HOST env) (args !! "jiraHost")) = false
  ∨ Ref.notBlank
      (credentialValue (JIRA_LOGIN_NAME env) (args !! "loginName")) = false
  ∨ Ref.notBlank
      (credentialValue (JIRA_LOGIN_TOKEN env) (args !! "loginToken")) = false.

(** The names of a list in the order of their first occurrence. *)
Definition seeName (seen : list string) (n : string) : list string :=
  if bool_decide (n ∈ seen) then seen else (seen ++ [n])%list.

Definition firstSeen (names : list string) : list string :=
  fold_left seeName names [].

(** The actors of all the role details, in the order they are merged, and
    the first of them that has a given display name. *)
Definition allActors (roleDetails : list (string * ProjectRole)) : list RoleActor :=
  roleDetails ≫= (fun detail => actorsOf detail.2).

Definition firstActor (name : string) (actors : list RoleActor) : option RoleActor :=
  find (fun actor =>
          bool_decide (Js.asTruthy (actor_displayName actor) = Some name))
       actors.

(** The record of a name, if any, has the type and the email of the first
    of the actors seen so far that has that name. *)
Definition firstObserved (seen : list RoleActor) (allMembers : Js.Map Member)
  : Prop :=
  ∀ name,
    match Js.get allMembers name with
    | Some member =>
        ∃ actor, firstActor name seen = Some actor
                 ∧ type member = actor_type actor
                 ∧ email member = Js.orLit (actor_emailAddress actor) "N/A"
    | None => firstActor name seen = None
    end.

(** The world after more warnings. *)
Definition warned (w : World) (msgs : list string) : World :=
  {| requests := requests w; warnings := (warnings w ++ msgs)%list |}.

(** ** The handlers that do no aggregation *)

(** A project of [GET project], with the fields [listProjects] renders. *)
Record Project := mkProject {
  project_key : string;
  project_name : string;
  projectTypeKey : option string;
  project_lead : option string
}.

(** The [TypeError] of reading property [prop] of [null]. *)
Definition nullRead (prop : string) : Js.Error :=
  Js.newError ("Cannot read properties of null (reading '" +:+ prop +:+ "')").

(** The [author] of a comment, an attachment, a work log or a change:
    absent, [null], or an object with its [displayName], if it has one. *)
Inductive Author :=
| AuthorAbsent
| AuthorNull
| AuthorObject (author_displayName : option string).

(** [`${entry.author.displayName}`] *)
Definition authorName (author : Author) : Settled string :=
  match author with
  | AuthorAbsent => inl (Js.undefinedRead "displayName")
  | AuthorNull => inl (nullRead "displayName")
  | AuthorObject name => inr (Js.template name)
  end.

(** The issue of [GET issue/{key}], with the fields [getIssue] and
    [createIssue] render. A field read with [?.] that holds an object with
    a name is given by that name. *)
Record IssueComment := mkComment {
  comment_created : string;
  comment_author : Author;
  comment_body : string
}.

Record Attachment := mkAttachment {
  filename : string;
  attachment_size : Z;
  attachment_author : Author;
  attachment_created : string
}.

Record Worklog := mkWorklog {
  worklog_author : Author;
  timeSpent : string;
  started : string;
  worklog_comment : option string
}.

(** An item of a change. [toString] is the own property of that name, if
    the item has one ([null] is [Some None]): an item without it inherits
    the method of [Object.prototype]. *)
Record ChangeItem := mkChange {
  change_field : string;
  fromString : option string;
  toString : option (option string)
}.

Record History := mkHistory {
  history_created : string;
  history_author : Author;
  history_items : list ChangeItem
}.

Record IssueDetail := mkDetail {
  detail_key : string;
  detail_summary : option string;
  detail_created : string;
  detail_updated : option string;
  detail_status : option string;
  detail_issuetype : option string;
  detail_priority : option string;
  detail_assignee : option string;
  detail_reporter : option string;
  duedate : option string;
  labels : option (list string);
  components : option (list string);
  fixVersions : option (list string);
  detail_description : option string;
  renderedDescription : option string;
  comments : option (list IssueComment);
  attachment : option (list Attachment);
  worklogs : option (list Worklog);
  histories : option (list History)
}.

(** A candidate of [GET user/search]. *)
Record JiraUser := mkUser {
  user_displayName : string;
  accountId : string
}.

(** An ADF document as [createIssue] reads it: the type of the document and
    its blocks, each with its type and the texts of its inline nodes. *)
Record AdfBlock := mkBlock {
  block_type : string;
  block_content : option (list (option string))
}.

Record AdfDoc := mkDoc {
  adf_type : string;
  adf_content : option (list AdfBlock)
}.

(** The body of [POST issue]. *)
Record IssuePayload := mkPayload {
  payload_project : option string;
  payload_summary : option string;
  payload_description : option AdfDoc;
  payload_issuetype : string;
  payload_assignee : option string;
  payload_reporter : option string
}.

(** The answer of [POST issue]. *)
Record CreatedIssue := mkCreated {
  created_id : option string;
  created_key : string
}.

(** The endpoints these handlers use beside those of [Gateway]. The body
    of a [POST] is given to its endpoint; the log of requests keeps its url
    and its headers. *)
Record IssueGateway := mkIssueGateway {
  gw_projects : Request → Settled (list Project);
  gw_issue : Request → Settled IssueDetail;
  gw_userSearch : Request → Settled (option (list JiraUser));
  gw_createIssue : IssuePayload → Request → Settled CreatedIssue;
  gw_addToSprint : list string → Request → Settled unit
}.

(** The fields of a thrown object that [Js.Error] does not hold, as the
    [catch] blocks read them: [error.name], whether [error.request] is set,
    [error.response.data.errorMessages], whether [data.errors.assignee] or
    [data.errors.reporter] is set, [JSON.stringify(data.errors, null, 2)],
    whether [data] is an object, [JSON.stringify(data, null, 2)], and [data]
    itself when it is a string. *)
Record ErrorDetail := mkErrorDetail {
  error_name : string;
  error_request : bool;
  error_errorMessages : option (list string);
  error_userErrors : bool;
  error_errorsJson : string;
  error_dataIsObject : bool;
  error_dataPretty : string;
  error_dataText : option string
}.

Section PlainHandlers.
Context (P : Platform) (env : ProcessEnv) (gw : Gateway) (ig : IssueGateway).
Context (detail : Js.Error → ErrorDetail).

(** [error.response.data?.errorMessages?.join(', ') || error.message] *)
Definition errorMessagesOr (error : Js.Error) : string :=
  Js.orLit (Js.join ", " <$> error_errorMessages (detail error))
           (Js.message error).

(** *** listProjects *)

Definition projectsRequest (jiraHost authHeader : string) : Request :=
  {| url := normalizeJiraHost jiraHost +:+ "/rest/api/3/project";
     params := [];
     headers := jsonHeaders authHeader |}.

Definition projectRow (project : Project) : string :=
  "| " +:+ project_key project +:+ " | " +:+ project_name project
  +:+ " | " +:+ Js.orLit (projectTypeKey project) "N/A"
  +:+ " | " +:+ Js.orLit (project_lead project) "Unknown" +:+ " |" +:+ Js.nl.

Definition projectsText (projects : list Project) : string :=
  "# Jira Projects" +:+ Js.nl +:+ Js.nl
  +:+ "Total projects: " +:+ pretty (length projects) +:+ Js.nl +:+ Js.nl
  +:+ match projects with
      | _ :: _ =>
          "| Project Key | Name | Type | Lead |" +:+ Js.nl
          +:+ "|------------|------|------|------|" +:+ Js.nl
          +:+ Js.concatAll (projectRow <$> projects)
      | [] => "No projects found or you don't have access to any projects."
      end.

(** The [catch] of [listProjects]. *)
Definition projectsError (error : Js.Error) : ToolResult :=
  let errorMsg :=
    match Js.response error with
    | Some (status, _) =>
        "Error " +:+ pretty status +:+ ": " +:+ errorMessagesOr error
    | None =>
        Js.orLit (Some (Js.message error))
                 "An error occurred while listing projects."
    end in
  textResult ("# Error" +:+ Js.nl +:+ Js.nl +:+ errorMsg) true.

Definition listProjects (args : Args) : M ToolResult :=
  let* validatedArgs := await (validate P JiraApiRequestSchema args) in
  let* cred := handlerCredentials P env validatedArgs in
  let '(jiraHost, authHeader) := cred in
  tryCatch
    (let* projects :=
       axiosGet (gw_projects ig) (projectsRequest jiraHost authHeader) in
     ret (textResult (projectsText projects) false))
    (fun error => ret (projectsError error)).

(** *** searchIssues *)

Definition searchJql (projectKey : string) (assigneeName : option string)
  : string :=
  "project = " +:+ Js.dq +:+ projectKey +:+ Js.dq
  +:+ match Js.asTruthy assigneeName with
      | Some name => " AND assignee ~ " +:+ Js.dq +:+ name +:+ Js.dq
      | None => ""
      end
  +:+ " ORDER BY created DESC".

Definition searchRequest (jiraHost authHeader projectKey : string)
    (assigneeName : option string) : Request :=
  {| url := normalizeJiraHost jiraHost +:+ "/rest/api/3/search";
     params := [("jql", Js.VString (searchJql projectKey assigneeName));
                ("maxResults", Js.VNumber 50);
                ("fields", Js.VString issueFields)];
     headers := jsonHeaders authHeader |}.

Definition searchRow (issue : Issue) : string :=
  "| " +:+ issue_key issue
  +:+ " | " +:+ Js.orLit (issue_summary issue) "No summary"
  +:+ " | " +:+ Js.orLit (issue_status issue) "Unknown"
  +:+ " | " +:+ Js.orLit (issue_type issue) "Unknown"
  +:+ " | " +:+ Js.orLit (issue_assignee issue) "Unassigned"
  +:+ " | " +:+ toLocaleDateString P (issue_created issue)
  +:+ " |" +:+ Js.nl.

Definition searchText (projectKey : string) (assigneeName : option string)
    (searchResults : SearchResults) : string :=
  "# Issues for Project: " +:+ projectKey
  +:+ match Js.asTruthy assigneeName with
      | Some name => " assigned to " +:+ name
      | None => ""
      end
  +:+ Js.nl +:+ Js.nl
  +:+ match issues searchResults with
      | Some (i :: l) =>
          "| Issue Key | Summary | Status | Type | Assignee | Created |" +:+ Js.nl
          +:+ "|-----------|---------|--------|------|----------|--------|"
          +:+ Js.nl
          +:+ Js.concatAll (searchRow <$> (i :: l))
      | _ => "No issues found matching the specified criteria."
      end.

Definition searchIssues (args : Args) : M ToolResult :=
  let* validatedArgs := await (validate P JiraSearchIssuesRequestSchema args) in
  let* cred := handlerCredentials P env validatedArgs in
  let '(jiraHost, authHeader) := cred in
  let projectKey := Js.template (validatedArgs !! "projectKey") in
  let assigneeName := validatedArgs !! "assigneeName" in
  let* searchResults :=
    axiosGet (gw_search gw)
      (searchRequest jiraHost authHeader projectKey assigneeName) in
  ret (textResult (searchText projectKey assigneeName searchResults) false).

End PlainHandlers.

Section IssueHandlers.
Context (P : Platform) (env : ProcessEnv) (gw : Gateway) (ig : IssueGateway).
Context (detail : Js.Error → ErrorDetail).

(** What [toADF(validatedArgs.description)] returns: the description is an
    object, which the string fields of [Args] do not hold, and [toADF] is
    imported from [utils/adfUtils]. *)
Context (adfDescription : Args → option AdfDoc).

(** [new Date().toLocaleString()] at the time of the call. *)
Context (now : string).

(** *** getIssue *)

Definition issueRequest (jiraHost authHeader issueKey : string) : Request :=
  {| url := normalizeJiraHost jiraHost +:+ "/rest/api/3/issue/" +:+ issueKey;
     params :=
       [("expand", Js.VString "renderedFields,names,changelog,operations");
        ("fields", Js.VString
           "summary,status,assignee,issuetype,priority,created,creator,reporter,description,comment,attachment,worklog,updated,labels,fixVersions,components,duedate")];
     headers := jsonHeaders authHeader |}.

(** [Math.round(size / 1024)]: the division by 1024 is exact on doubles,
    and [Math.round] rounds a half up. *)
Definition sizeInKb (size : Z) : Z := (size + 512) / 1024.

Definition optionalRow (label : string) (values : option (list string)) : string :=
  match values with
  | Some (v :: l) =>
      "| " +:+ label +:+ " | " +:+ Js.join ", " (v :: l) +:+ " |" +:+ Js.nl
  | _ => ""
  end.

(** The text appended by statements that may throw: the text of both, or
    the first exception. *)
Definition appendRows (text rows : Settled string) : Settled string :=
  match text with
  | inl error => inl error
  | inr t =>
      match rows with
      | inl error => inl error
      | inr r => inr (t +:+ r)
      end
  end.

(** [forEach] over entries whose row may throw. *)
Definition concatRows (rows : list (Settled string)) : Settled string :=
  foldr (fun row rest => appendRows row rest) (inr "") rows.

Definition commentText (index : nat) (comment : IssueComment) : Settled string :=
  match authorName (comment_author comment) with
  | inl error => inl error
  | inr author =>
      inr ("### Comment " +:+ pretty (S index) +:+ " - " +:+ author
           +:+ " (" +:+ toLocaleString P (comment_created comment) +:+ ")"
           +:+ Js.nl +:+ Js.nl
           +:+ comment_body comment +:+ Js.nl +:+ Js.nl)
  end.

Definition attachmentRow (a : Attachment) : Settled string :=
  match authorName (attachment_author a) with
  | inl error => inl error
  | inr author =>
      inr ("| " +:+ filename a +:+ " | "
           +:+ pretty (sizeInKb (attachment_size a))
           +:+ " KB | " +:+ author
           +:+ " | " +:+ toLocaleString P (attachment_created a) +:+ " |"
           +:+ Js.nl)
  end.

Definition worklogRow (worklog : Worklog) : Settled string :=
  match authorName (worklog_author worklog) with
  | inl error => inl error
  | inr author =>
      inr ("| " +:+ author +:+ " | " +:+ timeSpent worklog
           +:+ " | " +:+ toLocaleString P (started worklog)
           +:+ " | " +:+ Js.orLit (worklog_comment worklog) "No comment"
           +:+ " |" +:+ Js.nl)
  end.

(** [`${Object.prototype.toString}`] *)
Definition inheritedToString : string := "function toString() { [native code] }".

Definition changeText (item : ChangeItem) : string :=
  change_field item +:+ " changed from " +:+ Js.dq
  +:+ Js.orLit (fromString item) "none" +:+ Js.dq +:+ " to " +:+ Js.dq
  +:+ match toString item with
      | Some own => Js.orLit own "none"
      | None => inheritedToString
      end
  +:+ Js.dq.

Definition historyRow (history : History) : Settled string :=
  match authorName (history_author history) with
  | inl error => inl error
  | inr author =>
      inr ("| " +:+ toLocaleString P (history_created history)
           +:+ " | " +:+ author
           +:+ " | " +:+ Js.join "; " (changeText <$> history_items history)
           +:+ " |" +:+ Js.nl)
  end.

(** The part of the report that reads no author. *)
Definition issueSummary (issue : IssueDetail) : string :=
  "# Issue: " +:+ detail_key issue +:+ " - "
  +:+ Js.template (detail_summary issue) +:+ Js.nl +:+ Js.nl
  +:+ "## Basic Information" +:+ Js.nl +:+ Js.nl
  +:+ "| Field | Value |" +:+ Js.nl
  +:+ "|-------|-------|" +:+ Js.nl
  +:+ "| Status | " +:+ Js.orLit (detail_status issue) "Unknown" +:+ " |" +:+ Js.nl
  +:+ "| Type | " +:+ Js.orLit (detail_issuetype issue) "Unknown" +:+ " |"
  +:+ Js.nl
  +:+ "| Priority | " +:+ Js.orLit (detail_priority issue) "Not set" +:+ " |"
  +:+ Js.nl
  +:+ "| Assignee | " +:+ Js.orLit (detail_assignee issue) "Unassigned" +:+ " |"
  +:+ Js.nl
  +:+ "| Reporter | " +:+ Js.orLit (detail_reporter issue) "Unknown" +:+ " |"
  +:+ Js.nl
  +:+ "| Created | " +:+ toLocaleString P (detail_created issue) +:+ " |"
  +:+ Js.nl
  +:+ "| Updated | "
  +:+ match Js.asTruthy (detail_updated issue) with
      | Some d => toLocaleString P d
      | None => "Not updated"
      end +:+ " |" +:+ Js.nl
  +:+ match Js.asTruthy (duedate issue) with
      | Some d => "| Due Date | " +:+ toLocaleString P d +:+ " |" +:+ Js.nl
      | None => ""
      end
  +:+ optionalRow "Labels" (labels issue)
  +:+ optionalRow "Components" (components issue)
  +:+ optionalRow "Fix Versions" (fixVersions issue)
  +:+ match Js.asTruthy (detail_description issue) with
      | Some d =>
          Js.nl +:+ "## Description" +:+ Js.nl +:+ Js.nl
          +:+ Js.orLit (renderedDescription issue) d +:+ Js.nl
      | None => ""
      end.

Definition commentsSection (issue : IssueDetail) : Settled string :=
  match comments issue with
  | Some (c :: l) =>
      appendRows
        (inr (Js.nl +:+ "## Comments (" +:+ pretty (length (c :: l)) +:+ ")"
              +:+ Js.nl +:+ Js.nl))
        (concatRows (imap commentText (c :: l)))
  | _ => inr ""
  end.

Definition attachmentsSection (issue : IssueDetail) : Settled string :=
  match attachment issue with
  | Some (a :: l) =>
      appendRows
        (inr (Js.nl +:+ "## Attachments (" +:+ pretty (length (a :: l)) +:+ ")"
              +:+ Js.nl +:+ Js.nl
              +:+ "| Filename | Size | Uploaded by | Date |" +:+ Js.nl
              +:+ "|----------|------|-------------|------|" +:+ Js.nl))
        (concatRows (attachmentRow <$> (a :: l)))
  | _ => inr ""
  end.

Definition worklogsSection (issue : IssueDetail) : Settled string :=
  match worklogs issue with
  | Some (x :: l) =>
      appendRows
        (inr (Js.nl +:+ "## Work Log (" +:+ pretty (length (x :: l)) +:+ ")"
              +:+ Js.nl +:+ Js.nl
              +:+ "| User | Time Spent | Date | Comment |" +:+ Js.nl
              +:+ "|------|------------|------|--------|" +:+ Js.nl))
        (concatRows (worklogRow <$> (x :: l)))
  | _ => inr ""
  end.

Definition historiesSection (issue : IssueDetail) : Settled string :=
  match histories issue with
  | Some (h :: l) =>
      appendRows
        (inr (Js.nl +:+ "## Change History" +:+ Js.nl +:+ Js.nl
              +:+ "| Date | User | Changes |" +:+ Js.nl
              +:+ "|------|------|--------|" +:+ Js.nl))
        (concatRows (historyRow <$> (h :: l)))
  | _ => inr ""
  end.

(** The report of [getIssue], or the [TypeError] a comment, an attachment,
    a work log or a change without author ends it with. *)
Definition issueText (issue : IssueDetail) : Settled string :=
  appendRows
    (appendRows
       (appendRows
          (appendRows (inr (issueSummary issue)) (commentsSection issue))
          (attachmentsSection issue))
       (worklogsSection issue))
    (historiesSection issue).

(** The [catch] of [getIssue]. *)
Definition issueError (issueKey : string) (error : Js.Error) : ToolResult :=
  let errorMsg :=
    match Js.response error with
    | Some (status, _) =>
        if status =? 404 then
          "Issue " +:+ issueKey
          +:+ " not found or you don't have permission to view it."
        else "Error " +:+ pretty status +:+ ": " +:+ errorMessagesOr detail error
    | None =>
        Js.orLit (Some (Js.message error))
                 "An error occurred while retrieving the issue."
    end in
  textResult ("# Error" +:+ Js.nl +:+ Js.nl +:+ errorMsg) true.

Definition getIssue (args : Args) : M ToolResult :=
  let* validatedArgs := await (validate P JiraIssueRequestSchema args) in
  let* cred := handlerCredentials P env validatedArgs in
  let '(jiraHost, authHeader) := cred in
  let issueKey := Js.template (validatedArgs !! "issueKey") in
  tryCatch
    (let* issue :=
       axiosGet (gw_issue ig) (issueRequest jiraHost authHeader issueKey) in
     let* formattedResponse := await (issueText issue) in
     ret (textResult formattedResponse false))
    (fun error => ret (issueError issueKey error)).

(** *** createIssue *)

Definition postHeaders (authHeader : string) : list (string * string) :=
  [("Authorization", authHeader); ("Accept", "application/json");
   ("Content-Type", "application/json")].

Definition userSearchRequest (jiraHost authHeader name : string) : Request :=
  {| url := normalizeJiraHost jiraHost +:+ "/rest/api/3/user/search";
     params := [("query", Js.VString name)];
     headers := jsonHeaders authHeader |}.

Definition createRequest (jiraHost authHeader : string) : Request :=
  {| url := normalizeJiraHost jiraHost +:+ "/rest/api/3/issue";
     params := [];
     headers := postHeaders authHeader |}.

Definition sprintAttachRequest (jiraHost authHeader sprintId : string) : Request :=
  {| url := normalizeJiraHost jiraHost +:+ "/rest/agile/1.0/sprint/" +:+ sprintId
            +:+ "/issue";
     params := [];
     headers := postHeaders authHeader |}.

Definition createdIssueRequest (jiraHost authHeader key : string) : Request :=
  {| url := normalizeJiraHost jiraHost +:+ "/rest/api/3/issue/" +:+ key;
     params := [];
     headers := jsonHeaders authHeader |}.

(** [axios.post(url, data, config)] *)
Definition axiosPost {B T} (endpoint : B → Request → Settled T) (data : B)
    (req : Request) : M T :=
  logRequest req >> await (endpoint data req).

(** [data.find(user => user.displayName.toLowerCase() ===
    name.toLowerCase()) || data[0]] *)
Definition pickUser (name : string) (data : list JiraUser) : option JiraUser :=
  match find (fun user => String.eqb (toLowerCase P (user_displayName user))
                                     (toLowerCase P name)) data with
  | Some user => Some user
  | None => head data
  end.

(** The lookup of the account of an assignee or of a reporter, in its own
    [try]: the account id to put in the payload, if any. *)
Definition lookupAccount (jiraHost authHeader what : string) (name : option string)
  : M (option string) :=
  match Js.asTruthy name with
  | Some name =>
      tryCatch
        (let* data :=
           axiosGet (gw_userSearch ig)
             (userSearchRequest jiraHost authHeader name) in
         match data with
         | Some (u :: l) => ret (accountId <$> pickUser name (u :: l))
         | _ => ret None
         end)
        (fun _ => consoleWarn ("Could not find " +:+ what +:+ ": " +:+ name)
                  >> ret None)
  | None => ret None
  end.

(** The addition of the created issue to the sprint, in its own [try]. *)
Definition attachToSprint (jiraHost authHeader : string) (sprintId : option string)
    (createdIssue : CreatedIssue) : M unit :=
  match Js.asTruthy sprintId, Js.asTruthy (created_id createdIssue) with
  | Some sprint, Some id =>
      tryCatch
        (axiosPost (gw_addToSprint ig) [id]
           (sprintAttachRequest jiraHost authHeader sprint))
        (fun _ => consoleWarn ("Could not add issue to sprint: " +:+ sprint))
  | _, _ => ret tt
  end.

Definition descriptionPreview (adf : option AdfDoc) : string :=
  match adf with
  | Some doc =>
      match String.eqb (adf_type doc) "doc", adf_content doc with
      | true, Some blocks =>
          Js.join Js.nl
            ((fun block =>
                match String.eqb (block_type block) "paragraph",
                      block_content block with
                | true, Some texts => Js.join "" (default "" <$> texts)
                | _, _ => ""
                end) <$> blocks)
      | _, _ => "[ADF description provided]"
      end
  | None => "[ADF description provided]"
  end.

(** The row of the assignee or of the reporter: the name the created
    issue has, else the name that was asked for. *)
Definition personRow (label what : string) (found : option string)
    (asked : option string) : string :=
  match found with
  | Some displayName =>
      "| " +:+ label +:+ " | " +:+ displayName +:+ " |" +:+ Js.nl
  | None =>
      match Js.asTruthy asked with
      | Some name =>
          "| " +:+ label +:+ " | " +:+ name +:+ " (" +:+ what
          +:+ " may not have been found) |" +:+ Js.nl
      | None => ""
      end
  end.

Definition createdText (jiraHost : string) (projectKey : option string)
    (issueType : string) (assigneeName reporterName sprintId : option string)
    (adf : option AdfDoc) (issue : IssueDetail) : string :=
  "# Issue Created Successfully" +:+ Js.nl +:+ Js.nl
  +:+ "## Issue Details" +:+ Js.nl +:+ Js.nl
  +:+ "| Field | Value |" +:+ Js.nl
  +:+ "|-------|-------|" +:+ Js.nl
  +:+ "| Key | [" +:+ detail_key issue +:+ "](" +:+ normalizeJiraHost jiraHost
  +:+ "/browse/" +:+ detail_key issue +:+ ") |" +:+ Js.nl
  +:+ "| Summary | " +:+ Js.template (detail_summary issue) +:+ " |" +:+ Js.nl
  +:+ "| Type | " +:+ Js.orLit (detail_issuetype issue) issueType +:+ " |"
  +:+ Js.nl
  +:+ "| Project | " +:+ Js.template projectKey +:+ " |" +:+ Js.nl
  +:+ "| Created | " +:+ now +:+ " |" +:+ Js.nl
  +:+ personRow "Assignee" "assignee" (detail_assignee issue) assigneeName
  +:+ personRow "Reporter" "reporter" (detail_reporter issue) reporterName
  +:+ match Js.asTruthy sprintId with
      | Some sprint => "| Sprint | " +:+ sprint +:+ " |" +:+ Js.nl
      | None => ""
      end
  +:+ Js.nl +:+ "## Description" +:+ Js.nl +:+ Js.nl
  +:+ descriptionPreview adf +:+ Js.nl +:+ Js.nl
  +:+ Js.nl +:+ "**Issue link:** [" +:+ detail_key issue +:+ "]("
  +:+ normalizeJiraHost jiraHost +:+ "/browse/" +:+ detail_key issue +:+ ")"
  +:+ Js.nl.

(** The title, the message, the details and the solution the [catch] of
    [createIssue] chooses, by the first test that holds. *)
Definition classifyError (projectKey : option string) (error : Js.Error)
  : string * string * string * string :=
  let d := detail error in
  let status := fst <$> Js.response error in
  let message := Js.message error in
  let messagesOr (fallback : string) :=
    Js.orLit (Js.join Js.nl <$> error_errorMessages d) fallback in
  if String.eqb (error_name d) "ValidationError" then
    ("Validation Error",
     "The provided data does not meet the requirements for creating a Jira issue.",
     message,
     "Please check the field requirements and provide all necessary information.")
  else if Js.includes message "credentials" then
    ("Authentication Error", "Failed to authenticate with Jira.", message,
     "Please verify your Jira host, email, and API token.")
  else if (bool_decide (status = Some 400) && error_userErrors d)%bool then
    ("User Not Found Error",
     "One or more specified users could not be found in Jira.",
     error_errorsJson d,
     "Check that the assignee and reporter names match existing users in your Jira instance.")
  else if (bool_decide (status = Some 404)
           && match error_errorMessages d with
              | Some msgs => existsb (fun msg => Js.includes msg "project") msgs
              | None => false
              end)%bool then
    ("Project Not Found Error",
     "Project with key '" +:+ Js.template projectKey +:+ "' could not be found.",
     messagesOr "Project not found or you don't have permission to access it.",
     "Verify the project key and ensure you have access to the project.")
  else if bool_decide (status = Some 403) then
    ("Permission Error",
     "You don't have permission to create issues in this project.",
     messagesOr message,
     "Contact your Jira administrator to request the necessary permissions.")
  else if bool_decide (status = Some 429) then
    ("Rate Limit Exceeded", "Too many requests sent to Jira API.",
     messagesOr message, "Please wait before trying again.")
  else if Js.includes message "sprint" then
    ("Sprint Error", "Failed to add issue to the specified sprint.", message,
     "Verify the sprint ID and ensure it is active and associated with the project.")
  else
    match status with
    | Some code =>
        ("API Error (" +:+ pretty code +:+ ")",
         "The Jira API returned an error with status code " +:+ pretty code
         +:+ ".",
         (if error_dataIsObject d then error_dataPretty d
          else Js.orLit (error_dataText d) message),
         "Check the error details and adjust your request accordingly.")
    | None =>
        if error_request d then
          ("Network Error", "Failed to connect to the Jira API.",
           Js.orLit (Some message) "No response received from the server.",
           "Check your internet connection and verify the Jira host URL.")
        else
          ("Error Creating Jira Issue",
           "An unexpected error occurred while creating the issue.",
           message, "")
    end.

Definition fence : string := "```".

Definition createIssueError (projectKey : option string) (error : Js.Error)
  : ToolResult :=
  let '(errorTitle, errorMsg, errorDetails, errorSolution) :=
    classifyError projectKey error in
  textResult
    ("# " +:+ errorTitle +:+ Js.nl +:+ Js.nl +:+ errorMsg +:+ Js.nl +:+ Js.nl
     +:+ (if String.eqb errorDetails "" then ""
          else "## Error Details" +:+ Js.nl +:+ Js.nl +:+ fence +:+ Js.nl
               +:+ errorDetails +:+ Js.nl +:+ fence +:+ Js.nl +:+ Js.nl)
     +:+ (if String.eqb errorSolution "" then ""
          else "## Solution" +:+ Js.nl +:+ Js.nl +:+ errorSolution))
    true.

Definition createIssue (args : Args) : M ToolResult :=
  let* validatedArgs := await (validate P JiraCreateIssueRequestSchema args) in
  let projectKey := validatedArgs !! "projectKey" in
  let summary := validatedArgs !! "summary" in
  let adf := adfDescription validatedArgs in
  let issueType := Js.orLit (validatedArgs !! "issueType") "Task" in
  let assigneeName := validatedArgs !! "assigneeName" in
  let reporterName := validatedArgs !! "reporterName" in
  let sprintId := validatedArgs !! "sprintId" in
  let* cred := handlerCredentials P env validatedArgs in
  let '(jiraHost, authHeader) := cred in
  tryCatch
    (let* assignee := lookupAccount jiraHost authHeader "assignee" assigneeName in
     let* reporter := lookupAccount jiraHost authHeader "reporter" reporterName in
     let issuePayload :=
       {| payload_project := projectKey;
          payload_summary := summary;
          payload_description := adf;
          payload_issuetype := issueType;
          payload_assignee := assignee;
          payload_reporter := reporter |} in
     let* createdIssue :=
       axiosPost (gw_createIssue ig) issuePayload
         (createRequest jiraHost authHeader) in
     let* _ := attachToSprint jiraHost authHeader sprintId createdIssue in
     let* issue :=
       axiosGet (gw_issue ig)
         (createdIssueRequest jiraHost authHeader (created_key createdIssue)) in
     ret (textResult
            (createdText jiraHost projectKey issueType assigneeName reporterName
               sprintId adf issue)
            false))
    (fun error => ret (createIssueError projectKey error)).

End IssueHandlers.

(** ** Definitions used to state the properties of [getIssue] *)

(** The authors [getIssue] reads in an issue, in the order it reads them. *)
Definition authors (issue : IssueDetail) : list Author :=
  ((comment_author <$> default [] (comments issue))
   ++ (attachment_author <$> default [] (attachment issue))
   ++ (worklog_author <$> default [] (worklogs issue))
   ++ (history_author <$> default [] (histories issue)))%list.

Definition isObject (author : Author) : bool :=
  match author with
  | AuthorObject _ => true
  | _ => false
  end.

(** ** The server: the dispatcher over the seven handlers *)

Section Server.
Context (P : Platform) (env : ProcessEnv) (gw : Gateway) (ig : IssueGateway).
Context (detail : Js.Error → ErrorDetail).
Context (adfDescription : Args → option AdfDoc) (now : string).

Definition callTool : string → Args → M ToolResult :=
  handleCallTool P env gw
    (listProjects P env ig detail)
    (getIssue P env ig detail)
    (searchIssues P env gw)
    (createIssue P env ig detail adfDescription now).

End Server.

(** ** handleListTools *)

(** A tool as [handleListTools] advertises it: its name, the names of the
    properties of its input schema and those it marks as required. *)
Record ToolDescription := mkTool {
  tool_name : string;
  tool_properties : list string;
  tool_required : list string
}.

Definition getCommonJiraProperties : list string :=
  ["jiraHost"; "loginName"; "loginToken"].

Definition handleListTools : list ToolDescription :=
  [ {| tool_name := "jira_list_projects";
       tool_properties := getCommonJiraProperties;
       tool_required := [] |};
    {| tool_name := "jira_get_issue";
       tool_properties := (getCommonJiraProperties ++ ["issueKey"])%list;
       tool_required := ["issueKey"] |};
    {| tool_name := "jira_search_issues";
       tool_properties :=
         (getCommonJiraProperties ++ ["projectKey"; "assigneeName"])%list;
       tool_required := ["projectKey"] |};
    {| tool_name := "jira_list_project_members";
       tool_properties := (getCommonJiraProperties ++ ["projectKey"])%list;
       tool_required := ["projectKey"] |};
    {| tool_name := "jira_check_user_issues";
       tool_properties :=
         (getCommonJiraProperties ++ ["projectKey"; "userName"])%list;
       tool_required := ["projectKey"; "userName"] |};
    {| tool_name := "jira_create_issue";
       tool_properties :=
         (getCommonJiraProperties
          ++ ["projectKey"; "summary"; "description"; "issueType";
              "assigneeName"; "reporterName"; "sprintId"])%list;
       tool_required := ["projectKey"; "summary"; "description"] |};
    {| tool_name := "jira_list_sprints";
       tool_properties :=
         (getCommonJiraProperties ++ ["boardId"; "projectKey"; "state"])%list;
       tool_required := [] |} ].

(** ** An issue tracker to run the handlers on *)

Module Tracker.

Definition project : Project :=
  {| project_key := "ABC"; project_name := "Alphabet";
     projectTypeKey := Some "software"; project_lead := None |}.

Definition issue : IssueDetail :=
  {| detail_key := "ABC-7";
     detail_summary := Some "Fix the login page";
     detail_created := "2024-02-01T09:00:00.000+0000";
     detail_updated := None;
     detail_status := Some "To Do";
     detail_issuetype := Some "Task";
     detail_priority := None;
     detail_assignee := None;
     detail_reporter := Some "Jane Doe";
     duedate := None;
     labels := Some ["web"];
     components := None;
     fixVersions := None;
     detail_description := None;
     renderedDescription := None;
     comments := None;
     attachment :=
       Some [ {| filename := "trace.log"; attachment_size := 1536;
                 attachment_author := AuthorObject (Some "Jane Doe");
                 attachment_created := "2024-02-01T09:05:00.000+0000" |} ];
     worklogs := None;
     histories := None |}.

(** The same issue with a comment whose author is [null]. *)
Definition orphaned : IssueDetail :=
  {| detail_key := detail_key issue;
     detail_summary := detail_summary issue;
     detail_created := detail_created issue;
     detail_updated := detail_updated issue;
     detail_status := detail_status issue;
     detail_issuetype := detail_issuetype issue;
     detail_priority := detail_priority issue;
     detail_assignee := detail_assignee issue;
     detail_reporter := detail_reporter issue;
     duedate := duedate issue;
     labels := labels issue;
     components := components issue;
     fixVersions := fixVersions issue;
     detail_description := detail_description issue;
     renderedDescription := renderedDescription issue;
     comments :=
       Some [ {| comment_created := "2024-02-02T10:00:00.000+0000";
                 comment_author := AuthorNull;
                 comment_body := "Seen on staging too." |} ];
     attachment := attachment issue;
     worklogs := worklogs issue;
     histories := histories issue |}.

Definition users : list JiraUser :=
  [ {| user_displayName := "Bobby Tables"; accountId := "u-1" |};
    {| user_displayName := "bob"; accountId := "u-2" |};
    {| user_displayName := "Bob"; accountId := "u-3" |} ].

Definition created : CreatedIssue :=
  {| created_id := Some "10007"; created_key := "ABC-7" |}.

Definition notFound : Js.Error :=
  {| Js.message := "Request failed with status code 404";
     Js.response := Some (404, "{}") |}.

(** The tracker, where the endpoints named in [down] reject; with
    ["author"] in [down], the issue read is the one with the comment
    without author. *)
Definition tracker (down : list string) : IssueGateway :=
  let up {T} (name : string) (answer : T) : Settled T :=
    if bool_decide (name ∈ down) then inl Fixture.unavailable else inr answer in
  {| gw_projects := fun _ => up "projects" [project];
     gw_issue := fun _ =>
       if bool_decide ("issue" ∈ down) then inl notFound
       else if bool_decide ("author" ∈ down) then inr orphaned
       else inr issue;
     gw_userSearch := fun _ => up "userSearch" (Some users);
     gw_createIssue := fun _ _ => up "createIssue" created;
     gw_addToSprint := fun _ _ => up "addToSprint" tt |}.

(** A thrown object without the fields an upstream rejection has beside
    its response. *)
Definition detail (error : Js.Error) : ErrorDetail :=
  {| error_name := "Error";
     error_request := false;
     error_errorMessages := None;
     error_userErrors := false;
     error_errorsJson := "";
     error_dataIsObject := true;
     error_dataPretty := "{}";
     error_dataText := None |}.

Definition paragraph : AdfDoc :=
  {| adf_type := "doc";
     adf_content :=
       Some [ {| block_type := "paragraph";
                 block_content := Some [Some "Steps to "; Some "reproduce"] |} ] |}.

Definition adfDescription (args : Args) : option AdfDoc := Some paragraph.

Definition now : string := "2024-02-01".

Definition issueArgs : Args := {[ "issueKey" := "ABC-7" ]}.

Definition searchArgs : Args := {[ "projectKey" := "ABC" ]}.

(** The arguments of an issue creation that names an assignee and a
    sprint. *)
Definition createArgs : Args :=
  {[ "projectKey" := "ABC"; "summary" := "Fix the login page";
     "assigneeName" := "BOB"; "sprintId" := "12" ]}.

(** The arguments of an issue creation that names an assignee only, and
    a sprint only. *)
Definition assigneeArgs : Args :=
  {[ "projectKey" := "ABC"; "summary" := "Fix the login page";
     "assigneeName" := "BOB" ]}.

Definition sprintIssueArgs : Args :=
  {[ "projectKey" := "ABC"; "summary" := "Fix the login page";
     "sprintId" := "12" ]}.

(** What the reference schema of the issue creation returns for its
    arguments. *)
Definition validatedCreate (args : Args) : Args :=
  <[ "issueType" := "Task" ]> (Fixture.validated args).

End Tracker.

(** ** Properties of the string primitives *)

Module JsFacts.

Lemma append_nil (b : string) : "" +:+ b = b.
Proof. reflexivity. Qed.

Lemma append_cons (x : ascii) (a b : string) :
  String x a +:+ b = String x (a +:+ b).
Proof. reflexivity. Qed.

Lemma append_nil_r (a : string) : a +:+ "" = a.
Proof. induction a as [|x a IH]; [done |]. by rewrite append_cons, IH. Qed.

Lemma append_assoc (a b c : string) : (a +:+ b) +:+ c = a +:+ (b +:+ c).
Proof.
  induction a as [|x a IH]; [done |]. by rewrite !append_cons, IH.
Qed.

Lemma prefix_nil (s : string) : String.prefix "" s = true.
Proof. by destruct s. Qed.

Lemma prefix_here (sub rest : string) : String.prefix sub (sub +:+ rest) = true.
Proof.
  induction sub as [|x sub IH]; [apply prefix_nil |].
  rewrite append_cons. simpl. destruct (ascii_dec x x); [done | congruence].
Qed.

Lemma prefix_app_l (sub a b : string) :
  String.prefix sub a = true → String.prefix sub (a +:+ b) = true.
Proof.
  revert a. induction sub as [|x sub IH]; intros a H; [apply prefix_nil |].
  destruct a as [|y a]; [done |]. rewrite append_cons. simpl in *.
  destruct (ascii_dec x y); [by apply IH | done].
Qed.

Lemma includes_unfold (s sub : string) :
  Js.includes s sub =
    if String.prefix sub s then true
    else match s with
         | EmptyString => false
         | String _ s' => Js.includes s' sub
         end.
Proof. by destruct s. Qed.

Lemma includes_here (sub rest : string) : Js.includes (sub +:+ rest) sub = true.
Proof. by rewrite includes_unfold, prefix_here. Qed.

Lemma includes_app_r (a b sub : string) :
  Js.includes b sub = true → Js.includes (a +:+ b) sub = true.
Proof.
  intros H. induction a as [|x a IH]; [done |].
  rewrite append_cons, includes_unfold, IH. by case_match.
Qed.

Lemma includes_app_l (a b sub : string) :
  Js.includes a sub = true → Js.includes (a +:+ b) sub = true.
Proof.
  induction a as [|x a IH]; rewrite includes_unfold.
  - destruct (String.prefix sub "") eqn:E; [| done].
    intros _. by rewrite includes_unfold, (prefix_app_l _ _ _ E).
  - destruct (String.prefix sub (String x a)) eqn:E.
    + intros _. by rewrite includes_unfold, (prefix_app_l _ _ _ E).
    + intros H. rewrite append_cons, includes_unfold, (IH H). by case_match.
Qed.

Lemma includes_middle (a sub b : string) :
  Js.includes (a +:+ sub +:+ b) sub = true.
Proof. apply includes_app_r, includes_here. Qed.

Lemma concatAll_cons (x : string) (l : list string) :
  Js.concatAll (x :: l) = x +:+ Js.concatAll l.
Proof.
  unfold Js.concatAll. destruct l; simpl; [by rewrite append_nil_r | done].
Qed.

Lemma includes_concatAll {A} (f : A → string) (l : list A) (x : A) :
  x ∈ l → Js.includes (Js.concatAll (f <$> l)) (f x) = true.
Proof.
  induction l as [|y l IH]; intros Hx; [by apply elem_of_nil in Hx |].
  rewrite fmap_cons, concatAll_cons.
  apply elem_of_cons in Hx as [->|Hx].
  - apply includes_here.
  - by apply includes_app_r, IH.
Qed.

Lemma includes_refl (s : string) : Js.includes s s = true.
Proof.
pose proof (includes_here s "") as H. by rewrite append_nil_r in H.
Qed.

End JsFacts.

(** ** Properties of the insertion-ordered map *)

Module MapFacts.
Section WithValue.
Context {V : Type}.
Implicit Types (m : Js.Map V) (k : string) (v : V).

Lemma eqb_decide (a b : string) : String.eqb a b = bool_decide (a = b).
Proof.
  destruct (String.eqb_spec a b); [by rewrite bool_decide_eq_true_2
                                  | by rewrite bool_decide_eq_false_2].
Qed.

Lemma get_None m k : Js.get m k = None ↔ k ∉ Js.keys m.
Proof.
  induction m as [|[k' v'] m IH]; simpl.
  - split; [intros _; apply not_elem_of_nil | done].
  - rewrite not_elem_of_cons. destruct (String.eqb_spec k' k) as [->|Hne].
    + split; [done | intros [? _]; done].
    + rewrite IH. naive_solver.
Qed.

Lemma has_false m k : Js.has m k = false ↔ k ∉ Js.keys m.
Proof.
  unfold Js.has. rewrite <- get_None. destruct (Js.get m k); naive_solver.
Qed.

Lemma get_elem_of m k v : Js.get m k = Some v → (k, v) ∈ m.
Proof.
  induction m as [|[k' v'] m IH]; simpl; [done |].
  destruct (String.eqb_spec k' k) as [->|Hne].
  - intros [= ->]. apply elem_of_cons; by left.
  - intros H. apply elem_of_cons; right; by apply IH.
Qed.

Lemma elem_of_get m k v : NoDup (Js.keys m) → (k, v) ∈ m → Js.get m k = Some v.
Proof.
  induction m as [|[k' v'] m IH]; simpl; intros Hnd Hin.
  - by apply elem_of_nil in Hin.
  - apply NoDup_cons in Hnd as [Hk Hnd].
    apply elem_of_cons in Hin as [[= <- <-]|Hin].
    + by rewrite String.eqb_refl.
    + destruct (String.eqb_spec k' k) as [->|Hne]; [| by apply IH].
      exfalso. apply Hk. apply list_elem_of_fmap. by exists (k, v).
Qed.

Lemma set_absent m k v : k ∉ Js.keys m → Js.set m k v = (m ++ [(k, v)])%list.
Proof.
  induction m as [|[k' v'] m IH]; simpl; [done |].
  rewrite not_elem_of_cons. intros [Hne Hk].
  destruct (String.eqb_spec k' k) as [->|_]; [done |]. by rewrite IH.
Qed.

Lemma keys_mutate m k (f : V → V) : Js.keys (Js.mutate m k f) = Js.keys m.
Proof.
  induction m as [|[k' v'] m IH]; simpl; [done |].
  destruct (String.eqb k' k); simpl; [done |]. f_equal. apply IH.
Qed.

Lemma get_mutate m k (f : V → V) k' :
  Js.get (Js.mutate m k f) k' =
    if bool_decide (k = k') then f <$> Js.get m k else Js.get m k'.
Proof.
  induction m as [|[k0 v0] m IH]; simpl; [by case_bool_decide |].
  destruct (String.eqb_spec k0 k) as [->|Hne]; simpl.
  - case_bool_decide as Hk.
    + subst. by rewrite String.eqb_refl.
    + destruct (String.eqb_spec k k'); [done | done].
  - rewrite IH. case_bool_decide as Hk.
    + subst. destruct (String.eqb_spec k0 k'); [done | done].
    + done.
Qed.

Lemma Forall_mutate (Q : string * V → Prop) m k (f : V → V) :
  (∀ v, Q (k, v) → Q (k, f v)) → Forall Q m → Forall Q (Js.mutate m k f).
Proof.
  intros Hf. induction 1 as [|[k' v'] m HQ Hm IH]; simpl; [done |].
  destruct (String.eqb_spec k' k) as [->|Hne]; constructor; auto.
Qed.
End WithValue.
End MapFacts.

(** ** The merge of the role details *)

Module MergeFacts.
Import MapFacts.

Lemma asTruthy_Some v s : Js.asTruthy v = Some s → v = Some s ∧ s ≠ "".
Proof.
  destruct v as [t|]; simpl; [| done].
  destruct (String.eqb_spec t ""); [done |]. by intros [= ->].
Qed.

Lemma occurrences_cons name n names :
  occurrences name (n :: names) =
    ((if bool_decide (n = name) then 1 else 0) + occurrences name names)%nat.
Proof.
  unfold occurrences. rewrite filter_cons.
  case_decide; case_bool_decide; done.
Qed.

Lemma rolesOf_addActor roleName allMembers actor name :
  rolesOf (addActor roleName allMembers actor) name =
    (rolesOf allMembers name ++
     replicate (occurrences name
                  (omap (fun a => Js.asTruthy (actor_displayName a)) [actor]))
               roleName)%list.
Proof.
  unfold addActor, rolesOf. simpl.
  destruct (Js.asTruthy (actor_displayName actor)) as [n|] eqn:En; simpl;
    [| by rewrite app_nil_r].
  rewrite occurrences_cons. unfold occurrences at 1. simpl.
  destruct (Js.has allMembers n) eqn:Eh; simpl.
  - rewrite get_mutate. unfold Js.has in Eh.
    case_bool_decide as Hn; simpl.
    + subst. destruct (Js.get allMembers name); [done | done].
    + by rewrite app_nil_r.
  - apply has_false in Eh. rewrite set_absent by done.
    assert (Hget : ∀ k, Js.get (allMembers ++ [(n, {|
               displayName := n; type := actor_type actor;
               email := Js.orLit (actor_emailAddress actor) "N/A";
               roles := [roleName] |})])%list k =
             match Js.get allMembers k with
             | Some v => Some v
             | None => if bool_decide (n = k) then Some {|
               displayName := n; type := actor_type actor;
               email := Js.orLit (actor_emailAddress actor) "N/A";
               roles := [roleName] |} else None
             end).
    { intros k. clear. induction allMembers as [|[k' v'] m IH]; simpl.
      - rewrite eqb_decide. by case_bool_decide.
      - destruct (String.eqb k' k); [done | apply IH]. }
    rewrite Hget. apply get_None in Eh.
    case_bool_decide as Hn; simpl.
    + subst. by rewrite Eh.
    + destruct (Js.get allMembers name); simpl; by rewrite ?app_nil_r.
Qed.

Lemma occurrences_app name l1 l2 :
  occurrences name (l1 ++ l2) = (occurrences name l1 + occurrences name l2)%nat.
Proof. unfold occurrences. by rewrite filter_app, length_app. Qed.

Lemma rolesOf_actors roleName l allMembers name :
  rolesOf (fold_left (addActor roleName) l allMembers) name =
    (rolesOf allMembers name ++
     replicate (occurrences name
                  (omap (fun a => Js.asTruthy (actor_displayName a)) l))
               roleName)%list.
Proof.
  revert allMembers. induction l as [|a l IH]; intros allMembers.
  - simpl. by rewrite app_nil_r.
  - cbn [fold_left].
    rewrite IH, rolesOf_addActor, <- app_assoc, <- replicate_add.
    do 2 f_equal.
    change (a :: l) with ([a] ++ l)%list.
    by rewrite omap_app, occurrences_app.
Qed.

Lemma addRole_fold allMembers roleName data :
  addRole allMembers (roleName, data) =
    fold_left (addActor roleName) (actorsOf data) allMembers.
Proof. unfold addRole, actorsOf. by destruct (actors data) as [[|a l]|]. Qed.

Lemma rolesOf_addRole allMembers detail name :
  rolesOf (addRole allMembers detail) name =
    (rolesOf allMembers name ++
     replicate (occurrences name (actorNames detail)) detail.1)%list.
Proof. destruct detail as [r d]. by rewrite addRole_fold, rolesOf_actors. Qed.

Lemma rolesOf_fold roleDetails allMembers name :
  rolesOf (fold_left addRole roleDetails allMembers) name =
    (rolesOf allMembers name ++ rolesSeen name roleDetails)%list.
Proof.
  revert allMembers. induction roleDetails as [|d l IH]; intros allMembers.
  - simpl. by rewrite app_nil_r.
  - cbn [fold_left]. rewrite IH, rolesOf_addRole, <- app_assoc. done.
Qed.

Lemma rolesOf_mergeRoles roleDetails name :
  rolesOf (mergeRoles roleDetails) name = rolesSeen name roleDetails.
Proof. unfold mergeRoles. by rewrite rolesOf_fold. Qed.

(** The invariant of the map under construction. *)
Lemma wellKeyed_addActor roleName allMembers actor :
  wellKeyed allMembers → wellKeyed (addActor roleName allMembers actor).
Proof.
  intros [Hnd Hall]. unfold addActor.
  destruct (Js.asTruthy (actor_displayName actor)) as [n|] eqn:En; [| done].
  destruct (Js.has allMembers n) eqn:Eh; simpl.
  - split; [by rewrite keys_mutate |].
    apply Forall_mutate; [| done]. simpl. intros v (? & ? & ?).
    split_and!; [done | by destruct (roles v) | done].
  - apply has_false in Eh. rewrite set_absent by done. split.
    + unfold Js.keys in *. rewrite fmap_app. simpl.
      apply NoDup_app. split_and!; [done | | apply NoDup_singleton].
      intros x Hx ->%list_elem_of_singleton. done.
    + apply Forall_app. split; [done |].
      apply asTruthy_Some in En as [_ ?]. by repeat constructor.
Qed.

Lemma wellKeyed_actors roleName l allMembers :
  wellKeyed allMembers → wellKeyed (fold_left (addActor roleName) l allMembers).
Proof.
  revert allMembers. induction l as [|a l IH]; intros m Hm; simpl; [done |].
  by apply IH, wellKeyed_addActor.
Qed.

Lemma wellKeyed_fold roleDetails allMembers :
  wellKeyed allMembers → wellKeyed (fold_left addRole roleDetails allMembers).
Proof.
  revert allMembers.
  induction roleDetails as [|[r d] l IH]; intros m Hm; [done |].
  cbn [fold_left]. apply IH. rewrite addRole_fold. by apply wellKeyed_actors.
Qed.

Lemma wellKeyed_mergeRoles roleDetails : wellKeyed (mergeRoles roleDetails).
Proof. apply wellKeyed_fold. split; [apply NoDup_nil_2 | constructor]. Qed.

(** Reading a record of a well-keyed map. *)
Lemma wellKeyed_entry allMembers name member :
  wellKeyed allMembers →
  (name, member) ∈ allMembers →
  displayName member = name ∧ roles member = rolesOf allMembers name
  ∧ roles member ≠ [] ∧ name ≠ "".
Proof.
  intros [Hnd Hall] Hin. unfold rolesOf.
  rewrite (elem_of_get _ _ _ Hnd Hin).
  rewrite Forall_forall in Hall. destruct (Hall _ Hin) as (? & ? & ?). done.
Qed.

Lemma wellKeyed_value allMembers member :
  wellKeyed allMembers →
  member ∈ Js.values allMembers →
  (displayName member, member) ∈ allMembers.
Proof.
  intros [Hnd Hall] Hin. apply list_elem_of_fmap in Hin as ([k m] & -> & Hin).
  rewrite Forall_forall in Hall. destruct (Hall _ Hin) as (Hk & _).
  simpl in *. by rewrite Hk.
Qed.

Lemma rolesOf_nonempty allMembers name :
  wellKeyed allMembers →
  rolesOf allMembers name ≠ [] →
  ∃ member, (name, member) ∈ allMembers.
Proof.
  intros _. unfold rolesOf. destruct (Js.get allMembers name) eqn:E; [| done].
  intros _. eexists. by apply get_elem_of.
Qed.

Lemma elem_of_memberRoleSets allMembers name S :
  wellKeyed allMembers →
  (name, S) ∈ memberRoleSets allMembers ↔
  rolesOf allMembers name ≠ [] ∧ S = list_to_set (rolesOf allMembers name).
Proof.
  intros Hwf. unfold memberRoleSets.
  rewrite elem_of_list_to_set, list_elem_of_fmap. split.
  - intros (m & [= -> ->] & Hm).
    apply (wellKeyed_value _ _ Hwf) in Hm.
    destruct (wellKeyed_entry _ _ _ Hwf Hm) as (_ & <- & ? & _). done.
  - intros [Hne ->].
    destruct (rolesOf_nonempty _ _ Hwf Hne) as [m Hm].
    destruct (wellKeyed_entry _ _ _ Hwf Hm) as (<- & Hr & _).
    exists m. rewrite Hr. split; [done |].
    apply list_elem_of_fmap. by exists (displayName m, m).
Qed.

Lemma rolesSeen_Permutation name l l' :
  l ≡ₚ l' → rolesSeen name l ≡ₚ rolesSeen name l'.
Proof. intros H. unfold rolesSeen. by rewrite H. Qed.

Lemma memberRoleSets_Permutation l l' :
  l ≡ₚ l' → memberRoleSets (mergeRoles l) = memberRoleSets (mergeRoles l').
Proof.
  intros H. apply set_eq. intros [name S].
  rewrite !elem_of_memberRoleSets by apply wellKeyed_mergeRoles.
  rewrite !rolesOf_mergeRoles.
  pose proof (rolesSeen_Permutation name _ _ H) as Hp.
  rewrite (list_to_set_perm_L _ _ Hp). split; intros [Hne ->]; split; try done.
  - intros E. rewrite E in Hp. by apply Permutation_nil_r in Hp.
  - intros E. rewrite E in Hp. by apply Permutation_nil_l in Hp.
Qed.
End MergeFacts.

(** ** Running the effects *)

Module MonadFacts.

Lemma bind_ok {A B} (m : M A) (k : A → M B) w a w' :
  m w = (Ok a, w') → bind m k w = k a w'.
Proof. unfold bind. by intros ->. Qed.

Lemma bind_throw {A B} (m : M A) (k : A → M B) w e w' :
  m w = (Throw e, w') → bind m k w = (Throw e, w').
Proof. unfold bind. by intros ->. Qed.

Lemma await_run {A} (s : Settled A) w :
  await s w = (match s with inl e => Throw e | inr a => Ok a end, w).
Proof. by destruct s. Qed.

Lemma sent_nil w : sent w [] = w.
Proof. destruct w. unfold sent. simpl. by rewrite app_nil_r. Qed.

Lemma sent_sent w l1 l2 : sent (sent w l1) l2 = sent w (l1 ++ l2).
Proof. unfold sent. simpl. by rewrite app_assoc. Qed.

Lemma axiosGetAsync_run {T} (endpoint : Request → Settled T) req w :
  axiosGetAsync endpoint req w = (Ok (endpoint req), sent w [req]).
Proof. reflexivity. Qed.

Lemma axiosGet_run {T} (endpoint : Request → Settled T) req w :
  axiosGet endpoint req w =
    (match endpoint req with inl e => Throw e | inr d => Ok d end, sent w [req]).
Proof.
  unfold axiosGet. rewrite (bind_ok _ _ _ _ _ (axiosGetAsync_run _ _ _)).
  apply await_run.
Qed.

(** *** Promise.all *)

Lemma collect_resolved {T} (ps : list (Settled T)) vs :
  collect ps = inr vs ↔ ps = inr <$> vs.
Proof.
  revert vs. induction ps as [|[e|v] ps IH]; intros vs; simpl.
  - split; [intros [= <-]; done | by destruct vs].
  - split; [done | by destruct vs].
  - destruct (collect ps) as [e|vs'] eqn:E.
    + split; [done |]. destruct vs as [|v' vs]; [done |].
      intros [= -> Hps]. by apply IH in Hps.
    + split.
      * intros [= <-]. simpl. f_equal. by apply IH.
      * destruct vs as [|v' vs]; [done |]. intros [= -> Hps].
        apply IH in Hps. by injection Hps as ->.
Qed.

Lemma resolvedValues_inr {T} (vs : list T) : resolvedValues (inr <$> vs) = vs.
Proof. induction vs; simpl; [done | by f_equal]. Qed.

Lemma firstRejection_resolved {T} order (vs : list T) :
  firstRejection order (inr <$> vs) = None.
Proof.
  induction order as [|i order IH]; simpl; [done |].
  rewrite list_lookup_fmap. by destruct (vs !! i).
Qed.

Lemma promiseAll_resolved {T} order (ps : list (Settled T)) vs w :
  collect ps = inr vs → promiseAll order ps w = (Ok vs, w).
Proof.
  intros H. unfold promiseAll. rewrite H.
  apply collect_resolved in H as ->. by rewrite firstRejection_resolved.
Qed.

Lemma promiseAll_rejected {T} order (ps : list (Settled T)) e w :
  collect ps = inl e → ∃ e', promiseAll order ps w = (Throw e', w).
Proof.
  intros H. unfold promiseAll. rewrite H.
  destruct (firstRejection order ps); eauto.
Qed.

Lemma promiseAll_Ok {T} order (ps : list (Settled T)) vs w w' :
  promiseAll order ps w = (Ok vs, w') → ps = inr <$> vs ∧ w' = w.
Proof.
  unfold promiseAll. destruct (firstRejection order ps); [done |].
  rewrite await_run. destruct (collect ps) as [e|vs'] eqn:E; [done |].
  intros [= <- <-]. split; [by apply collect_resolved | done].
Qed.

Lemma collect_rejected {T} (ps : list (Settled T)) e :
  inl e ∈ ps → ∃ e', collect ps = inl e'.
Proof.
  induction ps as [|[e0|v] ps IH]; intros Hin; simpl.
  - by apply elem_of_nil in Hin.
  - eauto.
  - apply elem_of_cons in Hin as [|Hin]; [done |].
    destruct (IH Hin) as [e' ->]. eauto.
Qed.

(** *** The fan-out over the role map *)

Lemma roleDetailsPromises_run gw jiraHost authHeader projectKey entries w :
  roleDetailsPromises gw jiraHost authHeader projectKey entries w =
    (Ok (rolePromises gw jiraHost authHeader projectKey entries),
     sent w (roleRequests jiraHost authHeader projectKey entries)).
Proof.
  revert w. induction entries as [|[roleName v] entries IH]; intros w.
  - simpl. unfold ret. by rewrite sent_nil.
  - destruct v as [roleUrl| |]; simpl; [| apply IH | apply IH].
    rewrite (bind_ok _ _ _ _ _ (axiosGetAsync_run _ _ _)).
    rewrite (bind_ok _ _ _ _ _ (IH _)). unfold ret. by rewrite sent_sent.
Qed.

Lemma rolePromises_rejected gw jiraHost authHeader projectKey entries
    roleName roleUrl e :
  (roleName, Js.VString roleUrl) ∈ entries →
  gw_roleDetail gw (roleDetailRequest jiraHost authHeader projectKey roleUrl)
    = inl e →
  inl e ∈ rolePromises gw jiraHost authHeader projectKey entries.
Proof.
  intros Hin He. unfold rolePromises. apply list_elem_of_omap.
  exists (roleName, Js.VString roleUrl). split; [done |]. simpl. by rewrite He.
Qed.

Lemma handlerCredentials_world P env va w :
  (handlerCredentials P env va w).2 = w.
Proof.
  unfold handlerCredentials, validateCredentials.
  destruct (_ || _ || _)%bool; reflexivity.
Qed.

Lemma promiseAll_order {T} order order' (ps : list (Settled T)) vs w w' :
promiseAll order ps w = (Ok vs, w') → promiseAll order' ps w = (Ok vs, w').
Proof.
intros H. destruct (promiseAll_Ok _ _ _ _ _ H) as [Hps ->].
apply promiseAll_resolved. by apply collect_resolved.
Qed.

Lemma bind_Ok_inv {A B} (m : M A) (k : A → M B) w r w' :
bind m k w = (Ok r, w') → ∃ a w1, m w = (Ok a, w1) ∧ k a w1 = (Ok r, w').
Proof.
unfold bind. destruct (m w) as [[a|e] w1]; [eauto | done].
Qed.

End MonadFacts.

(** ** The role aggregation of the two handlers *)

Module RolesFacts.
Import MonadFacts MergeFacts MapFacts.

Lemma occurrences_pos name names :
  (0 < occurrences name names)%nat ↔ name ∈ names.
Proof.
  induction names as [|n names IH].
  - split; [unfold occurrences; simpl; lia | by intros ?%elem_of_nil].
  - rewrite occurrences_cons, elem_of_cons. case_bool_decide; [| rewrite <- IH].
    + split; [by left | lia].
    + split; [by right |]. intros [|]; [congruence | lia].
Qed.

Lemma occurrences_NoDup name names :
  NoDup names →
  occurrences name names = if bool_decide (name ∈ names) then 1%nat else 0%nat.
Proof.
  induction 1 as [|n names Hn Hnd IH].
  - case_bool_decide as E; [by apply elem_of_nil in E | done].
  - rewrite occurrences_cons, IH.
    repeat case_bool_decide; try done; subst;
      rewrite ?elem_of_cons in *; naive_solver.
Qed.

Lemma rolesSeen_cons name detail roleDetails :
  rolesSeen name (detail :: roleDetails) =
    (replicate (occurrences name (actorNames detail)) detail.1
     ++ rolesSeen name roleDetails)%list.
Proof. reflexivity. Qed.

Lemma elem_of_rolesSeen name role roleDetails :
  role ∈ rolesSeen name roleDetails ↔
  ∃ data, (role, data) ∈ roleDetails ∧ name ∈ actorNames (role, data).
Proof.
  unfold rolesSeen. rewrite list_elem_of_bind. split.
  - intros ([r d] & Hin & Hd). apply elem_of_replicate in Hin as [-> Hn].
    exists d. split; [done |]. apply occurrences_pos. simpl in *. lia.
  - intros (d & Hd & Hn). exists (role, d). split; [| done].
    apply elem_of_replicate. split; [done |].
    apply occurrences_pos in Hn. lia.
Qed.

Lemma rolesSeen_distinct name roleDetails :
  NoDup roleDetails.*1 →
  (∀ detail, detail ∈ roleDetails → NoDup (actorNames detail)) →
  NoDup (rolesSeen name roleDetails)
  ∧ rolesSeen name roleDetails =
      (filter (fun detail => name ∈ actorNames detail) roleDetails).*1.
Proof.
  induction roleDetails as [|[r d] l IH]; intros Hnd Hnames.
  - split; [apply NoDup_nil_2 | done].
  - rewrite fmap_cons in Hnd. apply NoDup_cons in Hnd as [Hr Hnd].
    destruct IH as [IH1 IH2]; [done | |].
    { intros ? ?. apply Hnames. by right. }
    rewrite rolesSeen_cons, filter_cons.
    rewrite occurrences_NoDup by (apply Hnames; by left).
    case_bool_decide as E; case_decide; try done; simpl.
    split; [| by rewrite IH2]. apply NoDup_cons. split; [| done].
    intros (d' & Hd' & _)%elem_of_rolesSeen. apply Hr.
    apply list_elem_of_fmap. by exists (r, d').
Qed.

(** The merge of [checkUserIssues] builds the same map as the merge of
    [listProjectMembers]. *)
Lemma checkActor_run P u roleName allMembers found actor :
  checkActor P (Some u) roleName (allMembers, found) actor =
    inr (addActor roleName allMembers actor,
         (found || existsb (fun name => String.eqb (toLowerCase P name)
                                                   (toLowerCase P u))
                     (omap (fun a => Js.asTruthy (actor_displayName a)) [actor]))%bool).
Proof.
  unfold checkActor, addActor. simpl.
  destruct (Js.asTruthy (actor_displayName actor)) as [n|]; simpl.
  - destruct (String.eqb _ _); simpl; by rewrite ?orb_true_r, ?orb_false_r.
  - by rewrite orb_false_r.
Qed.

Lemma checkActors_run P u roleName l allMembers found :
  Js.foldThrow (checkActor P (Some u) roleName) l (allMembers, found) =
    inr (fold_left (addActor roleName) l allMembers,
         (found || existsb (fun name => String.eqb (toLowerCase P name)
                                                   (toLowerCase P u))
                     (omap (fun a => Js.asTruthy (actor_displayName a)) l))%bool).
Proof.
  revert allMembers found. induction l as [|a l IH]; intros allMembers found.
  - simpl. by rewrite orb_false_r.
  - cbn [Js.foldThrow]. rewrite checkActor_run, IH. cbn [fold_left].
    do 2 f_equal. change (a :: l) with ([a] ++ l)%list.
    by rewrite omap_app, existsb_app, orb_assoc.
Qed.

Lemma checkRole_run P u allMembers found detail :
  checkRole P (Some u) (allMembers, found) detail =
    inr (addRole allMembers detail,
         (found || existsb (fun name => String.eqb (toLowerCase P name)
                                                   (toLowerCase P u))
                           (actorNames detail))%bool).
Proof.
  destruct detail as [r d]. rewrite addRole_fold.
  unfold checkRole, actorNames, actorsOf. cbn [snd].
  destruct (actors d) as [[|a l]|]; cbn [default];
    [by rewrite orb_false_r | | by rewrite orb_false_r].
  apply checkActors_run.
Qed.

Lemma checkRoles_fold P u roleDetails allMembers found :
  Js.foldThrow (checkRole P (Some u)) roleDetails (allMembers, found) =
    inr (fold_left addRole roleDetails allMembers,
         (found || userMatches P u roleDetails)%bool).
Proof.
  revert allMembers found.
  induction roleDetails as [|d l IH]; intros allMembers found.
  - simpl. by rewrite orb_false_r.
  - cbn [Js.foldThrow]. rewrite checkRole_run, IH. cbn [fold_left].
    do 2 f_equal. unfold userMatches. rewrite bind_cons, existsb_app.
    by rewrite orb_assoc.
Qed.

Lemma checkRoles_run P u roleDetails :
  checkRoles P (Some u) roleDetails =
    inr (mergeRoles roleDetails, userMatches P u roleDetails).
Proof. unfold checkRoles. by rewrite checkRoles_fold. Qed.

Lemma listProjectMembers_arrival P env gw order order' args w r w' :
listProjectMembers P env (withArrival gw order) args w = (Ok r, w') →
listProjectMembers P env (withArrival gw order') args w = (Ok r, w').
Proof.
unfold listProjectMembers.
intros (va & w0 & Hv & H)%bind_Ok_inv. rewrite (bind_ok _ _ _ _ _ Hv).
apply bind_Ok_inv in H as ([h a] & w1 & Hc & H). rewrite (bind_ok _ _ _ _ _ Hc).
apply bind_Ok_inv in H as (projectRoles & w2 & Hr & H).
rewrite (bind_ok _ _ _ _ _ Hr).
destruct projectRoles as [|x l]; [done |].
rewrite (bind_ok _ _ _ _ _ (roleDetailsPromises_run _ _ _ _ _ _)) in H.
rewrite (bind_ok _ _ _ _ _ (roleDetailsPromises_run _ _ _ _ _ _)).
change (rolePromises (withArrival gw order)) with (rolePromises gw) in H.
change (rolePromises (withArrival gw order')) with (rolePromises gw).
apply bind_Ok_inv in H as (roleDetails & w3 & Ha & H).
by rewrite (bind_ok _ _ _ _ _ (promiseAll_order _ _ _ _ _ _ Ha)).
Qed.

End RolesFacts.

(** ** The membership check *)

Module CheckFacts.
Import MonadFacts MergeFacts MapFacts RolesFacts JsFacts.

Lemma rolesSeen_nonempty name roleDetails :
  rolesSeen name roleDetails ≠ [] ↔ name ∈ roleDetails ≫= actorNames.
Proof.
  rewrite list_elem_of_bind. split.
  - destruct (rolesSeen name roleDetails) as [|role l] eqn:E; [done |].
    intros _. assert (Hin : role ∈ rolesSeen name roleDetails).
    { rewrite E. by left. }
    apply elem_of_rolesSeen in Hin as (d & ? & ?). by exists (role, d).
  - intros ([r d] & Hn & Hd) E.
    assert (Hin : r ∈ rolesSeen name roleDetails).
    { apply elem_of_rolesSeen. by exists d. }
    rewrite E in Hin. by apply elem_of_nil in Hin.
Qed.

Lemma keys_mergeRoles name roleDetails :
  name ∈ Js.keys (mergeRoles roleDetails) ↔ name ∈ roleDetails ≫= actorNames.
Proof.
  rewrite <- rolesSeen_nonempty, <- rolesOf_mergeRoles.
  pose proof (wellKeyed_mergeRoles roleDetails) as Hwf.
  unfold rolesOf. split.
  - intros Hk. destruct (Js.get (mergeRoles roleDetails) name) as [m|] eqn:E.
    + apply get_elem_of in E.
      by destruct (wellKeyed_entry _ _ _ Hwf E) as (_ & _ & ? & _).
    + by apply get_None in E.
  - intros Hr. destruct (Js.get (mergeRoles roleDetails) name) as [m|] eqn:E;
      [| done].
    apply get_elem_of in E. apply list_elem_of_fmap. by exists (name, m).
Qed.

Lemma userMatches_true P userName roleDetails :
  userMatches P userName roleDetails = true ↔
  ∃ member, member ∈ Js.values (mergeRoles roleDetails)
            ∧ toLowerCase P (displayName member) = toLowerCase P userName.
Proof.
  pose proof (wellKeyed_mergeRoles roleDetails) as Hwf.
  unfold userMatches. rewrite existsb_exists. split.
  - intros (n & Hn%list_elem_of_In%keys_mergeRoles & He%String.eqb_eq).
    apply list_elem_of_fmap in Hn as ([k m] & -> & Hin).
    destruct (wellKeyed_entry _ _ _ Hwf Hin) as (Hd & _).
    exists m. simpl in *. split; [| by rewrite Hd].
    apply list_elem_of_fmap. by exists (k, m).
  - intros (m & Hm & He). exists (displayName m). split.
    + apply list_elem_of_In, keys_mergeRoles.
      apply (wellKeyed_value _ _ Hwf) in Hm.
      apply list_elem_of_fmap. by exists (displayName m, m).
    + by apply String.eqb_eq.
Qed.

Lemma lookupUser_found P userName roleDetails :
  userMatches P userName roleDetails = true →
  ∃ userInfo,
    lookupUser P (mergeRoles roleDetails) userName = Some userInfo
    ∧ userInfo ∈ Js.values (mergeRoles roleDetails)
    ∧ toLowerCase P (displayName userInfo) = toLowerCase P userName.
Proof.
  pose proof (wellKeyed_mergeRoles roleDetails) as Hwf.
  intros (m & Hm & He)%userMatches_true. unfold lookupUser.
  apply (wellKeyed_value _ _ Hwf) in Hm.
  assert (Hk : displayName m ∈ Js.keys (mergeRoles roleDetails)).
  { apply list_elem_of_fmap. by exists (displayName m, m). }
  destruct (find _ (Js.keys (mergeRoles roleDetails))) as [k|] eqn:Ef.
  - apply find_some in Ef as [Hin%list_elem_of_In Hke%String.eqb_eq].
    apply list_elem_of_fmap in Hin as ([k' m'] & -> & Hin).
    destruct (wellKeyed_entry _ _ _ Hwf Hin) as (Hd & _ & _ & Hne).
    simpl in *. exists m'. split_and!.
    + destruct Hwf as [Hnd _]. rewrite <- (elem_of_get _ _ _ Hnd Hin).
      f_equal. destruct (String.eqb_spec k' ""); [done | done].
    + apply list_elem_of_fmap. by exists (k', m').
    + by rewrite Hd.
  - exfalso. apply list_elem_of_In in Hk.
    pose proof (find_none _ _ Ef _ Hk) as Hf. simpl in Hf.
    apply String.eqb_neq in Hf. done.
Qed.

(** What a call of [checkUserIssues] does once the role map and all the
    role details have been read. *)
Section Run.
Context (P : Platform) (env : ProcessEnv) (gw : Gateway).
Context (args va : Args) (jiraHost authHeader userName : string)
        (projectRoles : list (string * Js.Value))
        (roleDetails : list (string * ProjectRole)) (w : World).
Let projectKey := Js.template (va !! "projectKey").
Context
  (Hv : validate P JiraCheckUserIssuesRequestSchema args = inr va)
  (Hc : handlerCredentials P env va w = (Ok (jiraHost, authHeader), w))
  (Hu : va !! "userName" = Some userName)
  (Hr : gw_roles gw (rolesRequest jiraHost authHeader projectKey)
        = inr projectRoles)
  (Hd : collect (rolePromises gw jiraHost authHeader projectKey projectRoles)
        = inr roleDetails).

Lemma checkUserIssues_no_roles :
  projectRoles = [] →
  checkUserIssues P env gw args w =
    (Ok (textResult (checkHeading userName projectKey +:+ noRolesLine) false),
     sent w [rolesRequest jiraHost authHeader projectKey]).
Proof.
  intros Hnil. unfold checkUserIssues.
  rewrite (bind_ok _ _ w va w) by (by rewrite await_run, Hv).
  rewrite (bind_ok _ _ _ _ _ Hc).
  rewrite (bind_ok _ _ w projectRoles
             (sent w [rolesRequest jiraHost authHeader projectKey]))
    by (by rewrite axiosGet_run; fold projectKey; rewrite Hr).
  rewrite Hnil, Hu. reflexivity.
Qed.

Lemma checkUserIssues_merged :
  projectRoles ≠ [] →
  checkUserIssues P env gw args w =
    (if userMatches P userName roleDetails then
       bind (axiosGet (gw_search gw)
               (userIssuesRequest jiraHost authHeader projectKey userName))
         (fun searchResults =>
            ret (textResult
                   (((checkHeading userName projectKey
                      +:+ stepOneHeading userName projectKey)
                     +:+ foundLine userName
                           (lookupUser P (mergeRoles roleDetails) userName)
                     +:+ stepTwoHeading userName projectKey)
                    +:+ userIssuesTable P searchResults)
                   false))
     else
       ret (textResult
              ((checkHeading userName projectKey
                +:+ stepOneHeading userName projectKey)
               +:+ notMemberLine userName projectKey
               +:+ availableMembers (mergeRoles roleDetails))
              false))
      (sent w (rolesRequest jiraHost authHeader projectKey
               :: roleRequests jiraHost authHeader projectKey projectRoles)).
Proof.
  intros Hne. unfold checkUserIssues.
  rewrite (bind_ok _ _ w va w) by (by rewrite await_run, Hv).
  rewrite (bind_ok _ _ _ _ _ Hc).
  rewrite (bind_ok _ _ w projectRoles
             (sent w [rolesRequest jiraHost authHeader projectKey]))
    by (by rewrite axiosGet_run; fold projectKey; rewrite Hr).
  fold projectKey.
  destruct projectRoles as [|x l] eqn:Hroles; [done |].
  rewrite <- Hroles in *. cbv beta iota.
  rewrite (bind_ok _ _ _ _ _ (roleDetailsPromises_run _ _ _ _ _ _)).
  rewrite (bind_ok _ _ _ _ _ (promiseAll_resolved _ _ _ _ Hd)).
  rewrite Hu.
  rewrite (bind_ok _ _ _ (mergeRoles roleDetails,
                          userMatches P userName roleDetails) _)
    by (by rewrite await_run, checkRoles_run).
  rewrite sent_sent. cbv beta iota. simpl Js.template.
  by destruct (userMatches P userName roleDetails).
Qed.
End Run.
Lemma rolePromises_nil gw jiraHost authHeader projectKey roleDetails member :
collect (rolePromises gw jiraHost authHeader projectKey []) = inr roleDetails →
member ∈ Js.values (mergeRoles roleDetails) → False.
Proof. intros [= <-]. by intros ?%elem_of_nil. Qed.

Lemma checkUserIssues_success P env gw args w r w' :
checkUserIssues P env gw args w = (Ok r, w') → isError r = false.
Proof.
unfold checkUserIssues, bind, ret.
repeat (case_match; try done); by intros [= <- <-].
Qed.

Lemma userMatches_false P userName roleDetails :
(∀ member, member ∈ Js.values (mergeRoles roleDetails) →
           toLowerCase P (displayName member) ≠ toLowerCase P userName) →
userMatches P userName roleDetails = false.
Proof.
intros Hno. destruct (userMatches P userName roleDetails) eqn:E; [| done].
apply userMatches_true in E as (m & Hm & He). by destruct (Hno m Hm).
Qed.

Lemma listed_spec member :
listed member = true ↔
¬ (type member = "atlassian-user-role-actor"
   ∧ (Js.includes (displayName member) "for Jira" = true
      ∨ Js.includes (displayName member) "Atlassian" = true)).
Proof.
unfold listed.
destruct (String.eqb_spec (type member) "atlassian-user-role-actor") as [Ht|Ht];
  destruct (Js.includes (displayName member) "for Jira");
  destruct (Js.includes (displayName member) "Atlassian"); simpl;
  naive_solver.
Qed.

End CheckFacts.

(** ** Sorting *)

Module SortFacts.
Section Sort.
Context {A : Type} (compareFn : A → A → Z).

Lemma insertSorted_Permutation x l :
  Js.insertSorted compareFn x l ≡ₚ x :: l.
Proof.
  induction l as [|y l IH]; simpl; [done |].
  destruct (compareFn x y <=? 0); [done |].
  by rewrite IH, Permutation_swap.
Qed.

Lemma sort_Permutation l : Js.sort compareFn l ≡ₚ l.
Proof.
  induction l as [|x l IH]; simpl; [done |].
  by rewrite insertSorted_Permutation, IH.
Qed.

Context (key : A → Z).
Hypothesis compare_key : ∀ a b, compareFn a b = key b - key a.

Let before (a b : A) : Prop := key b <= key a.

Lemma insertSorted_sorted x l :
  StronglySorted before l → StronglySorted before (Js.insertSorted compareFn x l).
Proof.
  induction 1 as [|y l Hl IH Hy]; simpl.
  - by repeat constructor.
  - rewrite compare_key. destruct (Z.leb_spec (key y - key x) 0) as [Hle|Hgt].
    + constructor; [by constructor |]. constructor; [unfold before; lia |].
      eapply Forall_impl; [exact Hy |]. unfold before. simpl. intros. lia.
    + constructor; [done |].
      rewrite insertSorted_Permutation. constructor; [unfold before; lia | done].
Qed.

Lemma sort_sorted l : StronglySorted before (Js.sort compareFn l).
Proof.
  induction l as [|x l IH]; simpl; [constructor | by apply insertSorted_sorted].
Qed.
End Sort.
End SortFacts.

(** ** The sprint listing *)

Module SprintFacts.
Import MonadFacts JsFacts SortFacts.

Lemma fetchSprints_run gw jiraHost authHeader state boardIds allSprints w :
  fetchSprints gw jiraHost authHeader state boardIds allSprints w =
    (Ok (allSprints ++ (boardIds ≫= boardSprints gw jiraHost authHeader state))%list,
     {| requests := (requests w
                     ++ (sprintsRequest jiraHost authHeader state <$> boardIds))%list;
        warnings := (warnings w
                     ++ (skipWarning <$>
                           filter (fun b => boardFailed gw jiraHost authHeader
                                              state b = true) boardIds))%list |}).
Proof.
  revert allSprints w. induction boardIds as [|b l IH]; intros allSprints w.
  - simpl. unfold ret. destruct w. simpl. by rewrite !app_nil_r.
  - cbn [fetchSprints]. unfold bind at 1, tryCatch, bind at 1.
    rewrite axiosGet_run, bind_cons.
    unfold boardSprints at 1.
    destruct (gw_sprints gw (sprintsRequest jiraHost authHeader state b))
      as [e|page] eqn:E.
    + rewrite filter_cons_True by (unfold boardFailed; by rewrite E).
      unfold bind, consoleWarn, ret. rewrite IH. simpl.
      by rewrite <- !app_assoc.
    + rewrite filter_cons_False by (unfold boardFailed; by rewrite E).
      destruct (sprint_values page) as [[|s ss]|]; unfold ret; rewrite IH; simpl;
        by rewrite <- ?app_assoc, ?app_nil_r.
Qed.

Lemma sprintDetails_run P gw jiraHost authHeader projectKey sprints text w :
  sprintDetails P gw jiraHost authHeader projectKey sprints text w =
    (Ok (text +:+ detailsText P gw jiraHost authHeader projectKey sprints),
     sent w (sprintIssuesRequest jiraHost authHeader <$> sprints)).
Proof.
  revert text w. induction sprints as [|s l IH]; intros text w.
  - simpl. unfold ret. by rewrite sent_nil, append_nil_r.
  - cbn [sprintDetails detailsText]. unfold bind, tryCatch.
    rewrite axiosGet_run.
    destruct (gw_sprintIssues gw (sprintIssuesRequest jiraHost authHeader s));
      unfold ret; rewrite IH, sent_sent, !append_assoc; done.
Qed.

Section Run.
Context (P : Platform) (env : ProcessEnv) (gw : Gateway).
Context (args va : Args) (jiraHost authHeader : string) (w : World).
Let boardId := va !! "boardId".
Let projectKey := va !! "projectKey".
Let state := Js.orLit (va !! "state") "active".
Context
  (Hv : validate P JiraSprintRequestSchema args = inr va)
  (Hc : handlerCredentials P env va w = (Ok (jiraHost, authHeader), w)).

Lemma listSprints_early early w1 :
  resolveBoards gw jiraHost authHeader boardId projectKey w
    = (Ok (inl early), w1) →
  listSprints P env gw args w = (Ok early, w1).
Proof.
  intros Hb. unfold listSprints.
  rewrite (bind_ok _ _ w va w) by (by rewrite await_run, Hv).
  rewrite (bind_ok _ _ _ _ _ Hc). unfold tryCatch.
  fold boardId projectKey.
  by rewrite (bind_ok _ _ _ _ _ Hb).
Qed.

Lemma listSprints_resolved boardIds w1 :
  resolveBoards gw jiraHost authHeader boardId projectKey w
    = (Ok (inr boardIds), w1) →
  let allSprints := boardIds ≫= boardSprints gw jiraHost authHeader state in
  listSprints P env gw args w =
    (Ok (textResult
           (match allSprints with
            | [] => noSprintsMessage state boardId projectKey
            | _ :: _ =>
                sprintsTable P state (sortSprints P allSprints)
                +:+ detailsText P gw jiraHost authHeader projectKey
                      (sortSprints P allSprints)
            end) false),
     {| requests := (requests w1
                     ++ sprintTrace P gw jiraHost authHeader state boardIds)%list;
        warnings := (warnings w1
                     ++ (skipWarning <$>
                           filter (fun b => boardFailed gw jiraHost authHeader
                                              state b = true) boardIds))%list |}).
Proof.
  intros Hb allSprints. unfold listSprints.
  rewrite (bind_ok _ _ w va w) by (by rewrite await_run, Hv).
  rewrite (bind_ok _ _ _ _ _ Hc). unfold tryCatch.
  fold boardId projectKey state.
  rewrite (bind_ok _ _ _ _ _ Hb).
  rewrite (bind_ok _ _ _ _ _ (fetchSprints_run _ _ _ _ _ _ _)).
  rewrite app_nil_l. fold allSprints. unfold sprintTrace. fold allSprints.
  destruct allSprints as [|s l] eqn:E.
  - unfold ret. simpl. by rewrite app_nil_r.
  - rewrite (bind_ok _ _ _ _ _ (sprintDetails_run _ _ _ _ _ _ _ _)).
    unfold ret, sent. simpl. by rewrite app_assoc.
Qed.
End Run.
Lemma sortSprints_elem P allSprints sprint :
sprint ∈ sortSprints P allSprints ↔ sprint ∈ allSprints.
Proof. unfold sortSprints. by rewrite sort_Permutation. Qed.

Lemma elem_of_boardSprints gw jiraHost authHeader state b page sprints sprint :
gw_sprints gw (sprintsRequest jiraHost authHeader state b) = inr page →
sprint_values page = Some sprints →
sprint ∈ sprints →
withBoard b sprint ∈ boardSprints gw jiraHost authHeader state b.
Proof.
intros Hp Hs Hin. unfold boardSprints. rewrite Hp, Hs. simpl.
apply list_elem_of_fmap. by exists sprint.
Qed.

End SprintFacts.

(** ** The dispatcher *)

Module DispatchFacts.
Import MonadFacts.

Lemma tryCatch_returns {A} (m : M A) (f : Js.Error → A) w :
∃ r w', tryCatch m (fun error => ret (f error)) w = (Ok r, w').
Proof. unfold tryCatch, ret. destruct (m w) as [[r|e] w']; eauto. Qed.

Section Dispatch.
Context (P : Platform) (env : ProcessEnv) (gw : Gateway).
Context (listProjects getIssue searchIssues createIssue : Args → M ToolResult).

Let configs : Js.Map ToolConfig :=
  toolConfigs P env gw listProjects getIssue searchIssues createIssue.
Let lookup : string → Property :=
  toolConfigsAt P env gw listProjects getIssue searchIssues createIssue.
Let dispatch : string → Args → M ToolResult :=
  handleCallTool P env gw listProjects getIssue searchIssues createIssue.

(** The dispatcher returns a result for every name, arguments and world:
no exception leaves it. *)
Lemma handleCallTool_returns name args w :
  ∃ r w', dispatch name args w = (Ok r, w').
Proof. unfold dispatch, handleCallTool. apply tryCatch_returns. Qed.

(** A result that is not an error is the result a registered handler
    returned on validated arguments: whatever is thrown inside the [try]
    becomes an error result. *)
Lemma handleCallTool_catches name args w r w' :
  dispatch name args w = (Ok r, w') →
  isError r = false →
  ∃ toolConfig va,
Js.get configs name = Some toolConfig
∧ validate P (schema toolConfig) args = inr va
∧ handler toolConfig va w = (Ok r, w').
Proof.
  unfold dispatch, handleCallTool, tryCatch, toolConfigsAt. fold configs.
  destruct (Js.get configs name) as [toolConfig|] eqn:Eget.
  - unfold bind at 1. rewrite await_run.
destruct (validate P (schema toolConfig) args) as [e|va] eqn:Ev.
+ unfold ret. by intros [= <- <-].
+ unfold validateAndGetCredentials, bind, validateCredentials.
  destruct (_ || _ || _)%bool.
  * unfold throw, ret. by intros [= <- <-].
  * unfold ret.
    destruct (handler toolConfig va w) as [[r0|e0] w0] eqn:Eh.
    -- intros [= <- <-] _. by exists toolConfig, va.
    -- by intros [= <- <-].
  - destruct (existsb _ _); unfold throw, ret; by intros [= <- <-].
Qed.

Lemma handleCallTool_unregistered name args w :
  Js.get configs name = None →
  ∃ r, dispatch name args w = (Ok r, w) ∧ isError r = true.
Proof.
  intros Hget. unfold dispatch, handleCallTool, tryCatch, toolConfigsAt.
  fold configs. rewrite Hget.
  destruct (existsb _ _); unfold throw, ret; eauto.
Qed.

Lemma handleCallTool_unknown name args w :
  lookup name = Undefined →
  dispatch name args w = (Ok (unknownTool name), w).
Proof.
  unfold lookup, dispatch, handleCallTool, tryCatch. by intros ->.
Qed.

Lemma handleCallTool_invalid name toolConfig args e w :
  Js.get configs name = Some toolConfig →
  validate P (schema toolConfig) args = inl e →
  dispatch name args w = (Ok (dispatchError e), w).
Proof.
  intros Hget Hv. unfold dispatch, handleCallTool, tryCatch, toolConfigsAt.
  fold configs. rewrite Hget. unfold bind at 1. by rewrite await_run, Hv.
Qed.

Lemma handleCallTool_handler name toolConfig args va w :
  Js.get configs name = Some toolConfig →
  validate P (schema toolConfig) args = inr va →
  validateAndGetCredentials env va w = (Ok va, w) →
  dispatch name args w =
match handler toolConfig va w with
| (Ok r, w') => (Ok r, w')
| (Throw e, w') => (Ok (dispatchError e), w')
end.
Proof.
  intros Hget Hv Hc. unfold dispatch, handleCallTool, tryCatch, toolConfigsAt.
  fold configs. rewrite Hget.
  rewrite (bind_ok _ _ w va w) by (by rewrite await_run, Hv).
  rewrite (bind_ok _ _ _ _ _ Hc).
  by destruct (handler toolConfig va w) as [[r|e] w'].
Qed.

End Dispatch.
End DispatchFacts.

(** ** The properties of the specification *)

Import JsFacts MapFacts MergeFacts MonadFacts RolesFacts CheckFacts SortFacts
  SprintFacts DispatchFacts.

(** C1. The containment holds: for every name, arguments and world,
    [handleCallTool] returns a result and throws nothing; for a name that is
    not registered the result is an error and no request is sent upstream;
    for a registered name whose schema rejects the arguments the result is
    the error of the validator, and no request is sent upstream. The message
    for an unregistered name is not always "Unknown tool": for a name that
    the object literal inherits from [Object.prototype], such as
    ["toString"], [!toolConfig] is false, reading
    [toolConfig.schema.validate] throws, and the error caught is reported
    instead. *)
Theorem handleCallTool_inherited_name (P : Platform) (env : ProcessEnv)
    (gw : Gateway)
    (listProjects getIssue searchIssues createIssue : Args → M ToolResult)
    (name : string) (args : Args) (w : World) :
  let dispatch :=
    handleCallTool P env gw listProjects getIssue searchIssues createIssue in
  let registry :=
    toolConfigs P env gw listProjects getIssue searchIssues createIssue in
  (∃ r w', dispatch name args w = (Ok r, w'))
  ∧ match Js.get registry name with
    | None => ∃ r, dispatch name args w = (Ok r, w) ∧ isError r = true
    | Some toolConfig =>
        match validate P (schema toolConfig) args with
        | inl e => dispatch name args w = (Ok (dispatchError e), w)
        | inr _ => True
        end
    end
  ∧ Js.get registry "toString" = None
  ∧ dispatch "toString" args w
    = (Ok (textResult
             "Error: Cannot read properties of undefined (reading 'validate')"
             true), w)
  ∧ dispatch "toString" args w ≠ (Ok (unknownTool "toString"), w)
  ∧ dispatch "no_such_tool" args w
    = (Ok (textResult "Unknown tool: no_such_tool" true), w).
Proof.
  intros dispatch registry. split_and!.
  - apply handleCallTool_returns.
  - destruct (Js.get registry name) as [toolConfig|] eqn:Eget.
    + destruct (validate P (schema toolConfig) args) as [e|va] eqn:Ev; [| done].
      by eapply handleCallTool_invalid.
    + by apply handleCallTool_unregistered.
  - reflexivity.
  - reflexivity.
  - intros H. discriminate H.
  - reflexivity.
Qed.

(** C2. Role aggregation is all or nothing: when the detail request of one
    role of the role map is rejected, [listProjectMembers] and
    [checkUserIssues] throw after the fan-out, so that the call produces no
    member list at all. *)
Theorem role_failure_aborts_aggregation
    (P : Platform) (env : ProcessEnv) (gw : Gateway)
    (schema : Schema) (handler : Args → M ToolResult)
    (args va : Args) (jiraHost authHeader : string)
    (projectRoles : list (string * Js.Value))
    (roleName roleUrl : string) (e : Js.Error) (w : World) :
  (schema = JiraProjectMembersRequestSchema
     ∧ handler = listProjectMembers P env gw)
  ∨ (schema = JiraCheckUserIssuesRequestSchema
     ∧ handler = checkUserIssues P env gw) →
  validate P schema args = inr va →
  handlerCredentials P env va w = (Ok (jiraHost, authHeader), w) →
  gw_roles gw (rolesRequest jiraHost authHeader
                 (Js.template (va !! "projectKey"))) = inr projectRoles →
  (roleName, Js.VString roleUrl) ∈ projectRoles →
  gw_roleDetail gw
    (roleDetailRequest jiraHost authHeader
       (Js.template (va !! "projectKey")) roleUrl) = inl e →
  ∃ e',
    handler args w =
      (Throw e',
       sent w (rolesRequest jiraHost authHeader (Js.template (va !! "projectKey"))
               :: roleRequests jiraHost authHeader
                    (Js.template (va !! "projectKey")) projectRoles)).
Proof.
  intros Hs Hv Hc Hr Hin He.
  pose proof (rolePromises_rejected _ _ _ _ _ _ _ _ Hin He) as Hrej.
  apply collect_rejected in Hrej as [e1 Hrej].
  destruct (promiseAll_rejected
              (arrival gw (length (rolePromises gw jiraHost authHeader
                 (Js.template (va !! "projectKey")) projectRoles)))
              _ _ (sent (sent w [rolesRequest jiraHost authHeader
                                   (Js.template (va !! "projectKey"))])
                        (roleRequests jiraHost authHeader
                           (Js.template (va !! "projectKey")) projectRoles))
              Hrej) as [e' Hall].
  exists e'.
  assert (Hget : axiosGet (gw_roles gw)
                   (rolesRequest jiraHost authHeader
                      (Js.template (va !! "projectKey"))) w
                 = (Ok projectRoles,
                    sent w [rolesRequest jiraHost authHeader
                              (Js.template (va !! "projectKey"))])).
  { by rewrite axiosGet_run, Hr. }
  destruct Hs as [[-> ->]|[-> ->]].
  - unfold listProjectMembers.
    rewrite (bind_ok _ _ w va w) by (by rewrite await_run, Hv).
    rewrite (bind_ok _ _ _ _ _ Hc), (bind_ok _ _ _ _ _ Hget).
    destruct projectRoles as [|x l]; [by apply elem_of_nil in Hin |].
    cbv beta iota.
    rewrite (bind_ok _ _ _ _ _ (roleDetailsPromises_run _ _ _ _ _ _)).
    rewrite (bind_throw _ _ _ _ _ Hall), sent_sent. done.
  - unfold checkUserIssues.
    rewrite (bind_ok _ _ w va w) by (by rewrite await_run, Hv).
    rewrite (bind_ok _ _ _ _ _ Hc), (bind_ok _ _ _ _ _ Hget).
    destruct projectRoles as [|x l]; [by apply elem_of_nil in Hin |].
    cbv beta iota.
    rewrite (bind_ok _ _ _ _ _ (roleDetailsPromises_run _ _ _ _ _ _)).
    rewrite (bind_throw _ _ _ _ _ Hall), sent_sent. done.
Qed.
Lemma role_failure_aborts_aggregation_witness :
  ∃ e',
    listProjectMembers Fixture.platform Fixture.env Fixture.roleFails
      Fixture.membersArgs emptyWorld
    = (Throw e',
       sent emptyWorld
         (rolesRequest Fixture.host Fixture.auth
            (Js.template (Fixture.validated Fixture.membersArgs !! "projectKey"))
          :: roleRequests Fixture.host Fixture.auth
               (Js.template (Fixture.validated Fixture.membersArgs !! "projectKey"))
               Fixture.roleMap)).
Proof.
  apply (role_failure_aborts_aggregation Fixture.platform Fixture.env
           Fixture.roleFails JiraProjectMembersRequestSchema
           (listProjectMembers Fixture.platform Fixture.env Fixture.roleFails)
           Fixture.membersArgs (Fixture.validated Fixture.membersArgs)
           Fixture.host Fixture.auth Fixture.roleMap
           "Developers"
           "https://jira.example.com/rest/api/3/project/ABC/role/10003"
           Fixture.unavailable emptyWorld).
  - left. split; reflexivity.
  - vm_compute. reflexivity.
  - vm_compute. reflexivity.
  - reflexivity.
  - unfold Fixture.roleMap. apply elem_of_cons. right. apply elem_of_cons. by left.
  - vm_compute. reflexivity.
Defined.

(** C3, as the code has it. A board whose sprint request is rejected is
    skipped: the call still returns a result that is not an error, the
    table of the result has a row for every sprint of every board whose
    request resolved, and one warning naming the skipped board is written to
    the console for each rejected request, in the order of the boards. The
    result itself does not mention the skipped board. *)
Theorem board_failure_is_skipped (P : Platform) (env : ProcessEnv) (gw : Gateway)
    (args va : Args) (jiraHost authHeader : string) (boardIds : list string)
    (w w1 : World) :
  validate P JiraSprintRequestSchema args = inr va →
  handlerCredentials P env va w = (Ok (jiraHost, authHeader), w) →
  resolveBoards gw jiraHost authHeader (va !! "boardId") (va !! "projectKey") w
    = (Ok (inr boardIds), w1) →
  let state := Js.orLit (va !! "state") "active" in
  ∃ r w',
    listSprints P env gw args w = (Ok r, w')
    ∧ isError r = false
    ∧ warnings w' =
        (warnings w1
         ++ (skipWarning <$>
               filter (fun b => boardFailed gw jiraHost authHeader state b = true)
                      boardIds))%list
    ∧ (∀ b e,
         b ∈ boardIds →
         gw_sprints gw (sprintsRequest jiraHost authHeader state b) = inl e →
         skipWarning b ∈ warnings w')
    ∧ (∀ b page sprints sprint,
         b ∈ boardIds →
         gw_sprints gw (sprintsRequest jiraHost authHeader state b) = inr page →
         sprint_values page = Some sprints →
         sprint ∈ sprints →
         Js.includes (resultText r) (sprintRow P (withBoard b sprint)) = true).
Proof.
  intros Hv Hc Hb state.
  pose proof (listSprints_resolved P env gw args va jiraHost authHeader w Hv Hc
                boardIds w1 Hb) as Hrun.
  cbv zeta in Hrun. fold state in Hrun.
  eexists _, _. split_and!; [exact Hrun | done | done | |].
  - intros b e Hin He. simpl. apply elem_of_app. right.
    apply list_elem_of_fmap. exists b. split; [done |].
    apply list_elem_of_filter. split; [| done]. unfold boardFailed. by rewrite He.
  - intros b page sprints sprint Hin Hp Hs Hsp.
    pose proof (elem_of_boardSprints _ _ _ _ _ _ _ _ Hp Hs Hsp) as Hbs.
    assert (Hall : withBoard b sprint
                   ∈ boardIds ≫= boardSprints gw jiraHost authHeader state).
    { apply list_elem_of_bind. by exists b. }
    unfold resultText, textResult. simpl.
    destruct (boardIds ≫= boardSprints gw jiraHost authHeader state)
      as [|s0 l0] eqn:E; [by apply elem_of_nil in Hall |].
    apply includes_app_l. unfold sprintsTable.
    do 9 apply includes_app_r. apply includes_app_l.
    apply includes_concatAll. apply sortSprints_elem. done.
Qed.

Lemma board_failure_is_skipped_witness :
  ∃ r w',
    listSprints Fixture.platform Fixture.env Fixture.boardFails
      {[ "projectKey" := "ABC" ]} emptyWorld = (Ok r, w')
    ∧ isError r = false
    ∧ warnings w' = ["Could not fetch sprints for board 2"].
Proof.
  destruct (board_failure_is_skipped Fixture.platform Fixture.env
              Fixture.boardFails {[ "projectKey" := "ABC" ]}
              (<[ "state" := "active" ]>
                 (Fixture.validated {[ "projectKey" := "ABC" ]}))
              Fixture.host Fixture.auth ["1"; "2"; "3"] emptyWorld
              (sent emptyWorld
                 [boardsRequest Fixture.host Fixture.auth (Some "ABC")]))
    as (r & w' & Hrun & Herr & Hwarn & _).
  - vm_compute. reflexivity.
  - vm_compute. reflexivity.
  - vm_compute. reflexivity.
  - exists r, w'. split_and!; [done | done |]. rewrite Hwarn. vm_compute. reflexivity.
Defined.

(** C3, as the specification states it, fails: with the sprints of board 2 rejected,
    the result does not mention that board; it is the result of the run in
    which board 2 has no sprints. The diagnostic is the console warning. *)
Lemma skip_diagnostic_not_in_result :
  ∃ r w',
    listSprints Fixture.platform Fixture.env Fixture.boardFails
      {[ "projectKey" := "ABC" ]} emptyWorld = (Ok r, w')
    ∧ Js.includes (resultText r) (skipWarning "2") = false
    ∧ Js.includes (resultText r) "Could not fetch" = false
    ∧ (listSprints Fixture.platform Fixture.env Fixture.gateway
         {[ "projectKey" := "ABC" ]} emptyWorld).1 = Ok r
    ∧ warnings w' = [skipWarning "2"].
Proof.
  eexists _, _. split_and!.
  - vm_compute. reflexivity.
  - vm_compute. reflexivity.
  - vm_compute. reflexivity.
  - vm_compute. reflexivity.
  - vm_compute. reflexivity.
Qed.

(** C4. The merged content does not depend on the order in which the
    role-detail responses arrive: [Promise.all] hands the details over in
    the order of the requests whatever the completion order, and merging any
    permutation of the details attaches the same role set to the same
    display names. *)
Theorem member_role_sets_order_independent
    (ps ps' : list (Settled (string * ProjectRole))) (order order' : list nat)
    (roleDetails roleDetails' : list (string * ProjectRole))
    (w w1 w' w1' : World) :
  ps ≡ₚ ps' →
  promiseAll order ps w = (Ok roleDetails, w1) →
  promiseAll order' ps' w' = (Ok roleDetails', w1') →
  (ps' = ps → mergeRoles roleDetails' = mergeRoles roleDetails)
  ∧ memberRoleSets (mergeRoles roleDetails')
    = memberRoleSets (mergeRoles roleDetails).
Proof.
  intros Hperm [-> _]%promiseAll_Ok [-> _]%promiseAll_Ok. split.
  - intros Heq. apply (f_equal resolvedValues) in Heq.
    rewrite !resolvedValues_inr in Heq. by rewrite Heq.
  - apply memberRoleSets_Permutation.
    assert (H : resolvedValues (inr <$> roleDetails : list (Settled _))
                ≡ₚ resolvedValues (inr <$> roleDetails' : list (Settled _))).
    { unfold resolvedValues. by rewrite Hperm. }
    rewrite !resolvedValues_inr in H. by symmetry.
Qed.

Lemma member_role_sets_order_independent_witness :
  (mergeRoles [("Administrators", Fixture.administrators);
               ("Developers", Fixture.developers)]
   = mergeRoles [("Administrators", Fixture.administrators);
                 ("Developers", Fixture.developers)])
  ∧ memberRoleSets (mergeRoles [("Developers", Fixture.developers);
                                ("Administrators", Fixture.administrators)])
    = memberRoleSets (mergeRoles [("Administrators", Fixture.administrators);
                                  ("Developers", Fixture.developers)]).
Proof.
  split.
  - refine (proj1 (member_role_sets_order_independent
             [inr ("Administrators", Fixture.administrators);
              inr ("Developers", Fixture.developers)]
             [inr ("Administrators", Fixture.administrators);
              inr ("Developers", Fixture.developers)]
             [0; 1]%nat [1; 0]%nat _ _ emptyWorld emptyWorld emptyWorld emptyWorld
             _ _ _) _); reflexivity.
  - refine (proj2 (member_role_sets_order_independent
             [inr ("Administrators", Fixture.administrators);
              inr ("Developers", Fixture.developers)]
             [inr ("Developers", Fixture.developers);
              inr ("Administrators", Fixture.administrators)]
             [0; 1]%nat [1; 0]%nat _ _ emptyWorld emptyWorld emptyWorld emptyWorld
             _ _ _)); [apply perm_swap | reflexivity | reflexivity].
Defined.

(** C5, as the code has it. The record kept for a display name holds the
    role names of the roles that list an actor of that name, in the order
    the roles are merged, once per occurrence of the name in the actor list
    of the role. The roles are pairwise distinct when no actor list names
    the display name twice. [checkUserIssues] builds the same map. *)
Theorem member_roles_exact (P : Platform) (userName : string)
    (roleDetails : list (string * ProjectRole))
    (name : string) (member : Member) :
  (name, member) ∈ mergeRoles roleDetails →
  displayName member = name
  ∧ roles member = rolesSeen name roleDetails
  ∧ (∀ role, role ∈ roles member ↔
             ∃ data, (role, data) ∈ roleDetails ∧ name ∈ actorNames (role, data))
  ∧ (NoDup roleDetails.*1 →
     (∀ detail, detail ∈ roleDetails → NoDup (actorNames detail)) →
     NoDup (roles member)
     ∧ roles member =
         (filter (fun detail => name ∈ actorNames detail) roleDetails).*1)
  ∧ (∃ found, checkRoles P (Some userName) roleDetails
               = inr (mergeRoles roleDetails, found)).
Proof.
  intros Hin.
  destruct (wellKeyed_entry _ _ _ (wellKeyed_mergeRoles roleDetails) Hin)
    as (Hname & Hroles & _).
  rewrite rolesOf_mergeRoles in Hroles. split_and!.
  - done.
  - done.
  - intros role. rewrite Hroles. apply elem_of_rolesSeen.
  - intros Hnd Hnames. rewrite Hroles. by apply rolesSeen_distinct.
  - eexists. apply checkRoles_run.
Qed.

Lemma member_roles_exact_witness :
  roles {| displayName := "Bob"; type := "atlassian-user-role-actor";
           email := "N/A"; roles := ["Developers"] |}
  = rolesSeen "Bob" [("Administrators", Fixture.administrators);
                     ("Developers", Fixture.developers)].
Proof.
  refine (proj1 (proj2 (member_roles_exact Fixture.platform "bob"
            [("Administrators", Fixture.administrators);
             ("Developers", Fixture.developers)] "Bob" _ _))).
  vm_compute. do 2 apply list_elem_of_further. apply list_elem_of_here.
Defined.

(** C5, as the specification states it, fails: an actor listed twice in the actor
    list of one role gets the name of that role twice. *)
Lemma duplicate_actor_duplicates_role :
  ∃ member,
    ("Jane Doe", member)
      ∈ mergeRoles [("Administrators", Fixture.administrators);
                    ("Developers", Fixture.developers)]
    ∧ roles member = ["Administrators"; "Administrators"; "Developers"]
    ∧ ¬ NoDup (roles member).
Proof.
  eexists. split_and!.
  - vm_compute. apply list_elem_of_here.
  - reflexivity.
  - simpl. intros H. apply NoDup_cons in H as [H _]. apply H. by left.
Qed.

(** C6, as the code has it. When a merged record has the requested name up
    to case, [checkUserIssues] reports the user as found and sends, after
    the role requests, one search request: its query names the assignee by
    the [userName] of the call, as the caller wrote it, orders by creation
    date descending and asks for at most 50 results. *)
Theorem found_user_query (P : Platform) (env : ProcessEnv) (gw : Gateway)
    (args va : Args) (jiraHost authHeader userName : string)
    (projectRoles : list (string * Js.Value))
    (roleDetails : list (string * ProjectRole)) (member : Member) (w : World) :
  validate P JiraCheckUserIssuesRequestSchema args = inr va →
  handlerCredentials P env va w = (Ok (jiraHost, authHeader), w) →
  va !! "userName" = Some userName →
  gw_roles gw (rolesRequest jiraHost authHeader
                 (Js.template (va !! "projectKey"))) = inr projectRoles →
  collect (rolePromises gw jiraHost authHeader
             (Js.template (va !! "projectKey")) projectRoles) = inr roleDetails →
  member ∈ Js.values (mergeRoles roleDetails) →
  toLowerCase P (displayName member) = toLowerCase P userName →
  let projectKey := Js.template (va !! "projectKey") in
  let query := userIssuesRequest jiraHost authHeader projectKey userName in
  ∃ outcome,
    checkUserIssues P env gw args w =
      (outcome,
       sent w (rolesRequest jiraHost authHeader projectKey
               :: roleRequests jiraHost authHeader projectKey projectRoles
               ++ [query]))
    ∧ params query =
        [("jql", Js.VString
                   ("project = " +:+ Js.dq +:+ projectKey +:+ Js.dq
                    +:+ " AND assignee = " +:+ Js.dq +:+ userName +:+ Js.dq
                    +:+ " ORDER BY created DESC"));
         ("maxResults", Js.VNumber 50);
         ("fields", Js.VString issueFields)]
    ∧ (∀ e, gw_search gw query = inl e → outcome = Throw e)
    ∧ (∀ searchResults, gw_search gw query = inr searchResults →
       ∃ r userInfo,
         outcome = Ok r ∧ isError r = false
         ∧ userInfo ∈ Js.values (mergeRoles roleDetails)
         ∧ toLowerCase P (displayName userInfo) = toLowerCase P userName
         ∧ Js.includes (resultText r) (foundLine userName (Some userInfo)) = true).
Proof.
  intros Hv Hc Hu Hr Hd Hm Hlow projectKey query.
  assert (Hne : projectRoles ≠ []).
  { intros ->. by apply (rolePromises_nil _ _ _ _ _ _ Hd Hm). }
  assert (Hmatch : userMatches P userName roleDetails = true).
  { apply userMatches_true. by exists member. }
  pose proof (checkUserIssues_merged P env gw args va jiraHost authHeader
                userName projectRoles roleDetails w Hv Hc Hu Hr Hd Hne) as Hrun.
  rewrite Hmatch in Hrun. unfold bind in Hrun.
  rewrite axiosGet_run, sent_sent in Hrun. fold projectKey query in Hrun.
  destruct (lookupUser_found P userName roleDetails Hmatch)
    as (userInfo & Hlook & Hin & Hinfo).
  rewrite Hlook in Hrun.
  destruct (gw_search gw query) as [e|searchResults] eqn:Es.
  - exists (Throw e). split_and!; [done | done | by intros ? [= ->] | done].
  - eexists. split_and!; [exact Hrun | done | done |].
    intros ? [= <-]. eexists _, userInfo. split_and!; try done.
    unfold ret, textResult, resultText. simpl.
    apply includes_app_l, includes_app_r, includes_here.
Qed.

Lemma found_user_query_witness :
  ∃ outcome,
    checkUserIssues Fixture.platform Fixture.env Fixture.gateway
      (Fixture.checkArgs "jane doe") emptyWorld =
      (outcome,
       sent emptyWorld
         (rolesRequest Fixture.host Fixture.auth
            (Js.template (Fixture.validated (Fixture.checkArgs "jane doe")
                          !! "projectKey"))
          :: roleRequests Fixture.host Fixture.auth
               (Js.template (Fixture.validated (Fixture.checkArgs "jane doe")
                             !! "projectKey")) Fixture.roleMap
          ++ [userIssuesRequest Fixture.host Fixture.auth
                (Js.template (Fixture.validated (Fixture.checkArgs "jane doe")
                              !! "projectKey")) "jane doe"])).
Proof.
  destruct (found_user_query Fixture.platform Fixture.env Fixture.gateway
              (Fixture.checkArgs "jane doe")
              (Fixture.validated (Fixture.checkArgs "jane doe"))
              Fixture.host Fixture.auth "jane doe" Fixture.roleMap
              [("Administrators", Fixture.administrators);
               ("Developers", Fixture.developers)]
              {| displayName := "Jane Doe"; type := "atlassian-user-role-actor";
                 email := "N/A";
                 roles := ["Administrators"; "Administrators"; "Developers"] |}
              emptyWorld)
    as (outcome & Hrun & _).
  - vm_compute. reflexivity.
  - vm_compute. reflexivity.
  - vm_compute. reflexivity.
  - reflexivity.
  - vm_compute. reflexivity.
  - vm_compute. apply list_elem_of_here.
  - vm_compute. reflexivity.
  - exists outcome. exact Hrun.
Defined.

(** C6, as the specification states it, fails: the stored record is ["Jane Doe"],
    the call asks for ["jane doe"], and the only search request names the
    assignee ["jane doe"]. *)
Lemma query_uses_caller_casing :
  ∃ r w',
    checkUserIssues Fixture.platform Fixture.env Fixture.gateway
      (Fixture.checkArgs "jane doe") emptyWorld = (Ok r, w')
    ∧ "Jane Doe" ∈ Js.keys (mergeRoles [("Administrators", Fixture.administrators);
                                        ("Developers", Fixture.developers)])
    ∧ last (requests w')
      = Some (userIssuesRequest Fixture.host Fixture.auth "ABC" "jane doe")
    ∧ userIssuesRequest Fixture.host Fixture.auth "ABC" "Jane Doe" ∉ requests w'.
Proof.
  eexists _, _. split_and!.
  - vm_compute. reflexivity.
  - vm_compute. apply list_elem_of_here.
  - vm_compute. reflexivity.
  - vm_compute.
    intros H. repeat (apply elem_of_cons in H as [H|H]; [discriminate H |]).
    by apply elem_of_nil in H.
Qed.

(** C7. The boards of [listSprints] are chosen by precedence. A non-empty
    [boardId] selects that board alone, with no board query, whatever
    [projectKey] is. Otherwise a non-empty [projectKey] selects all the
    boards of the project-filtered board query. Otherwise the boards are the
    first five of the unfiltered board query. When the query returns no
    board, the call returns the "No Boards Found" result, which is not an
    error, and asks for no sprint. *)
Theorem board_resolution (P : Platform) (env : ProcessEnv) (gw : Gateway)
    (args va : Args) (jiraHost authHeader : string) (w : World) :
  validate P JiraSprintRequestSchema args = inr va →
  handlerCredentials P env va w = (Ok (jiraHost, authHeader), w) →
  let boardId := va !! "boardId" in
  let projectKey := va !! "projectKey" in
  let state := Js.orLit (va !! "state") "active" in
  (∀ b, Js.asTruthy boardId = Some b →
     ∃ r w',
       listSprints P env gw args w = (Ok r, w')
       ∧ requests w' =
           (requests w ++ sprintTrace P gw jiraHost authHeader state [b])%list)
  ∧ (∀ k page b l,
       Js.asTruthy boardId = None →
       Js.asTruthy projectKey = Some k →
       gw_boards gw (boardsRequest jiraHost authHeader (Some k)) = inr page →
       board_values page = Some (b :: l) →
       ∃ r w',
         listSprints P env gw args w = (Ok r, w')
         ∧ requests w' =
             (requests w ++ boardsRequest jiraHost authHeader (Some k)
              :: sprintTrace P gw jiraHost authHeader state (b :: l))%list)
  ∧ (∀ page b l,
       Js.asTruthy boardId = None →
       Js.asTruthy projectKey = None →
       gw_boards gw (boardsRequest jiraHost authHeader None) = inr page →
       board_values page = Some (b :: l) →
       ∃ r w',
         listSprints P env gw args w = (Ok r, w')
         ∧ requests w' =
             (requests w ++ boardsRequest jiraHost authHeader None
              :: sprintTrace P gw jiraHost authHeader state (take 5 (b :: l)))%list)
  ∧ (∀ page,
       Js.asTruthy boardId = None →
       gw_boards gw (boardsRequest jiraHost authHeader (Js.asTruthy projectKey))
         = inr page →
       board_values page = None ∨ board_values page = Some [] →
       ∃ r,
         listSprints P env gw args w =
           (Ok r, sent w [boardsRequest jiraHost authHeader
                            (Js.asTruthy projectKey)])
         ∧ isError r = false
         ∧ Js.includes (resultText r) "# No Boards Found" = true).
Proof.
  intros Hv Hc boardId projectKey state.
  pose proof (listSprints_resolved P env gw args va jiraHost authHeader w Hv Hc)
    as Hrun.
  pose proof (listSprints_early P env gw args va jiraHost authHeader w Hv Hc)
    as Hearly.
  cbv zeta in Hrun. fold boardId projectKey state in Hrun, Hearly.
  split_and!.
  - intros b Hb. eexists _, _. split; [apply (Hrun [b] w) | done].
    unfold resolveBoards. by rewrite Hb.
  - intros k page b l Hb Hk Hp Hvals. eexists _, _. split.
    + apply (Hrun (b :: l)
               (sent w [boardsRequest jiraHost authHeader (Some k)])).
      unfold resolveBoards. rewrite Hb, Hk.
      erewrite bind_ok by (by rewrite axiosGet_run, Hp). by rewrite Hvals.
    + simpl. by rewrite <- app_assoc.
  - intros page b l Hb Hk Hp Hvals. eexists _, _. split.
    + apply (Hrun (take 5 (b :: l))
               (sent w [boardsRequest jiraHost authHeader None])).
      unfold resolveBoards. rewrite Hb, Hk.
      erewrite bind_ok by (by rewrite axiosGet_run, Hp). by rewrite Hvals.
    + simpl. by rewrite <- app_assoc.
  - intros page Hb Hp Hvals.
    destruct (Js.asTruthy projectKey) as [k|] eqn:Hk.
    + exists (noBoardsForProject k). split_and!; [| done |].
      * apply Hearly. unfold resolveBoards. rewrite Hb, Hk.
        erewrite bind_ok by (by rewrite axiosGet_run, Hp).
        by destruct Hvals as [->| ->].
      * apply includes_here.
    + exists noBoardsAtAll. split_and!; [| done |].
      * apply Hearly. unfold resolveBoards. rewrite Hb, Hk.
        erewrite bind_ok by (by rewrite axiosGet_run, Hp).
        by destruct Hvals as [->| ->].
      * apply includes_here.
Qed.

Lemma board_resolution_witness :
  (∃ r w',
     listSprints Fixture.platform Fixture.env Fixture.gateway
       (Fixture.sprintArgs (Some "3") (Some "ABC")) emptyWorld = (Ok r, w')
     ∧ requests w' =
         (requests emptyWorld
          ++ sprintTrace Fixture.platform Fixture.gateway Fixture.host
               Fixture.auth
               (Js.orLit (Fixture.sprintValidated (Some "3") (Some "ABC")
                          !! "state") "active") ["3"])%list)
  ∧ (∃ r w',
       listSprints Fixture.platform Fixture.env Fixture.gateway
         (Fixture.sprintArgs None (Some "ABC")) emptyWorld = (Ok r, w')
       ∧ requests w' =
           (requests emptyWorld
            ++ boardsRequest Fixture.host Fixture.auth (Some "ABC")
            :: sprintTrace Fixture.platform Fixture.gateway Fixture.host
                 Fixture.auth
                 (Js.orLit (Fixture.sprintValidated None (Some "ABC")
                            !! "state") "active") ["1"; "2"; "3"])%list)
  ∧ (∃ r w',
       listSprints Fixture.platform Fixture.env Fixture.gateway
         (Fixture.sprintArgs None None) emptyWorld = (Ok r, w')
       ∧ requests w' =
           (requests emptyWorld
            ++ boardsRequest Fixture.host Fixture.auth None
            :: sprintTrace Fixture.platform Fixture.gateway Fixture.host
                 Fixture.auth
                 (Js.orLit (Fixture.sprintValidated None None !! "state")
                           "active")
                 (take 5 ["1"; "2"; "3"; "4"; "5"; "6"; "7"]))%list)
  ∧ (∃ r,
       listSprints Fixture.platform Fixture.env Fixture.noBoards
         (Fixture.sprintArgs None None) emptyWorld =
         (Ok r, sent emptyWorld
                  [boardsRequest Fixture.host Fixture.auth
                     (Js.asTruthy (Fixture.sprintValidated None None
                                   !! "projectKey"))])
       ∧ isError r = false
       ∧ Js.includes (resultText r) "# No Boards Found" = true).
Proof.
  split_and!.
  - refine (proj1 (board_resolution Fixture.platform Fixture.env Fixture.gateway
              (Fixture.sprintArgs (Some "3") (Some "ABC"))
              (Fixture.sprintValidated (Some "3") (Some "ABC"))
              Fixture.host Fixture.auth emptyWorld _ _) "3" _);
      vm_compute; reflexivity.
  - refine (proj1 (proj2 (board_resolution Fixture.platform Fixture.env
              Fixture.gateway (Fixture.sprintArgs None (Some "ABC"))
              (Fixture.sprintValidated None (Some "ABC"))
              Fixture.host Fixture.auth emptyWorld _ _))
              "ABC" {| board_values := Some ["1"; "2"; "3"] |} "1" ["2"; "3"]
              _ _ _ _);
      vm_compute; reflexivity.
  - refine (proj1 (proj2 (proj2 (board_resolution Fixture.platform Fixture.env
              Fixture.gateway (Fixture.sprintArgs None None)
              (Fixture.sprintValidated None None)
              Fixture.host Fixture.auth emptyWorld _ _)))
              {| board_values := Some ["1"; "2"; "3"; "4"; "5"; "6"; "7"] |}
              "1" ["2"; "3"; "4"; "5"; "6"; "7"] _ _ _ _);
      vm_compute; reflexivity.
  - refine (proj2 (proj2 (proj2 (board_resolution Fixture.platform Fixture.env
              Fixture.noBoards (Fixture.sprintArgs None None)
              (Fixture.sprintValidated None None)
              Fixture.host Fixture.auth emptyWorld _ _)))
              {| board_values := Some [] |} _ _ _);
      [vm_compute; reflexivity | vm_compute; reflexivity
      | vm_compute; reflexivity | vm_compute; reflexivity | by right].
Defined.

(** C8. The sprint listing sorts the sprints merged from the boards by
    start date, from the latest to the earliest, a sprint without a start
    date counting as started at time 0, the epoch. Whenever the boards are
    resolved and give a sprint, [listSprints] returns the table with one row
    per merged sprint in that order, followed by the details of the sprints
    in that order, and it asks for the issues of the sprints in that order:
    the listed sprints are [sortSprints] of the merged ones, a permutation
    of them in which no sprint comes before one of a later start time. *)
Theorem sprints_sorted_newest_first (P : Platform) (env : ProcessEnv)
    (gw : Gateway) (args va : Args) (jiraHost authHeader : string)
    (boardIds : list string) (w w1 : World) :
  validate P JiraSprintRequestSchema args = inr va →
  handlerCredentials P env va w = (Ok (jiraHost, authHeader), w) →
  resolveBoards gw jiraHost authHeader (va !! "boardId") (va !! "projectKey") w
    = (Ok (inr boardIds), w1) →
  let state := Js.orLit (va !! "state") "active" in
  let allSprints := boardIds ≫= boardSprints gw jiraHost authHeader state in
  let listed := sortSprints P allSprints in
  allSprints ≠ [] →
  listed ≡ₚ allSprints
  ∧ StronglySorted (fun a b => sprintTime P b <= sprintTime P a) listed
  ∧ (∀ sprint, Js.asTruthy (startDate sprint) = None → sprintTime P sprint = 0)
  ∧ ∃ r w',
      listSprints P env gw args w = (Ok r, w')
      ∧ isError r = false
      ∧ resultText r =
          "# " +:+ Js.capitalize (toUpperCase P) state +:+ " Sprints"
          +:+ Js.nl +:+ Js.nl
          +:+ "| ID | Name | Board | Status | Start Date | End Date |" +:+ Js.nl
          +:+ "|----|------|-------|--------|------------|----------|" +:+ Js.nl
          +:+ Js.concatAll (sprintRow P <$> listed)
          +:+ Js.nl +:+ "## Sprint Details" +:+ Js.nl +:+ Js.nl
          +:+ detailsText P gw jiraHost authHeader (va !! "projectKey") listed
      ∧ requests w' =
          (requests w1 ++ (sprintsRequest jiraHost authHeader state <$> boardIds)
           ++ (sprintIssuesRequest jiraHost authHeader <$> listed))%list.
Proof.
  intros Hv Hc Hb state allSprints listed Hne.
  pose proof (listSprints_resolved P env gw args va jiraHost authHeader w Hv Hc
                boardIds w1 Hb) as Hrun.
  cbv zeta in Hrun. fold state in Hrun. fold allSprints in Hrun.
  fold listed in Hrun.
  split_and!.
  - apply sort_Permutation.
  - by apply (sort_sorted (compareSprints P) (sprintTime P)).
  - intros sprint Hs. unfold sprintTime. by rewrite Hs.
  - eexists _, _. split; [exact Hrun |]. split; [done |]. split; [| done].
    destruct allSprints as [|s l]; [done |].
    unfold resultText, textResult, sprintsTable. simpl.
    by rewrite !append_assoc.
Qed.

Lemma sprints_sorted_newest_first_witness :
  (Fixture.gateway.(gw_boards)
     (boardsRequest Fixture.host Fixture.auth None)
   = inr {| board_values := Some ["1"; "2"; "3"; "4"; "5"; "6"; "7"] |})
  ∧ ∃ r w',
      listSprints Fixture.platform Fixture.env Fixture.gateway
        (Fixture.sprintArgs None None) emptyWorld = (Ok r, w')
      ∧ Js.includes (resultText r)
          (Js.concatAll
             (sprintRow Fixture.platform
                <$> [withBoard "3" (Fixture.sprint "31" (Some "2024-03-01"));
                     withBoard "1" (Fixture.sprint "12" (Some "2024-01-10"));
                     withBoard "1" (Fixture.sprint "11" None)])) = true
      ∧ requests w' =
          ([boardsRequest Fixture.host Fixture.auth None]
           ++ (sprintsRequest Fixture.host Fixture.auth "active"
                 <$> ["1"; "2"; "3"; "4"; "5"])
           ++ (sprintIssuesRequest Fixture.host Fixture.auth
                 <$> [withBoard "3" (Fixture.sprint "31" (Some "2024-03-01"));
                      withBoard "1" (Fixture.sprint "12" (Some "2024-01-10"));
                      withBoard "1" (Fixture.sprint "11" None)]))%list.
Proof.
  split; [reflexivity |].
  destruct (sprints_sorted_newest_first Fixture.platform Fixture.env
              Fixture.gateway (Fixture.sprintArgs None None)
              (Fixture.sprintValidated None None) Fixture.host Fixture.auth
              ["1"; "2"; "3"; "4"; "5"] emptyWorld
              (sent emptyWorld [boardsRequest Fixture.host Fixture.auth None]))
    as (_ & _ & _ & r & w' & Hrun & _ & Htext & Hreq).
  - vm_compute. reflexivity.
  - vm_compute. reflexivity.
  - vm_compute. reflexivity.
  - vm_compute. discriminate.
  - exists r, w'. split; [exact Hrun |]. split.
    + rewrite Htext. vm_compute. reflexivity.
    + rewrite Hreq. vm_compute. reflexivity.
Defined.

(** C9, as the code has it. When the requested user is not found, the
    listing of available members has one row per merged record, in
    insertion order, except the records whose type is
    ["atlassian-user-role-actor"] and whose display name contains
    ["for Jira"] or ["Atlassian"]. *)
Theorem available_members_listing (P : Platform) (env : ProcessEnv) (gw : Gateway)
    (args va : Args) (jiraHost authHeader userName : string)
    (projectRoles : list (string * Js.Value))
    (roleDetails : list (string * ProjectRole)) (w : World) :
  validate P JiraCheckUserIssuesRequestSchema args = inr va →
  handlerCredentials P env va w = (Ok (jiraHost, authHeader), w) →
  va !! "userName" = Some userName →
  gw_roles gw (rolesRequest jiraHost authHeader
                 (Js.template (va !! "projectKey"))) = inr projectRoles →
  collect (rolePromises gw jiraHost authHeader
             (Js.template (va !! "projectKey")) projectRoles) = inr roleDetails →
  projectRoles ≠ [] →
  (∀ member, member ∈ Js.values (mergeRoles roleDetails) →
             toLowerCase P (displayName member) ≠ toLowerCase P userName) →
  let projectKey := Js.template (va !! "projectKey") in
  ∃ r,
    checkUserIssues P env gw args w =
      (Ok r, sent w (rolesRequest jiraHost authHeader projectKey
                     :: roleRequests jiraHost authHeader projectKey projectRoles))
    ∧ resultText r =
        (checkHeading userName projectKey +:+ stepOneHeading userName projectKey)
        +:+ notMemberLine userName projectKey
        +:+ "### Available Project Members:" +:+ Js.nl +:+ Js.nl
        +:+ "| Name | Roles |" +:+ Js.nl
        +:+ "|------|-------|" +:+ Js.nl
        +:+ Js.concatAll
              (availableRow <$> filter (fun m => listed m = true)
                                       (Js.values (mergeRoles roleDetails)))
    ∧ ∀ member,
        member ∈ Js.values (mergeRoles roleDetails) →
        (member ∈ filter (fun m => listed m = true)
                         (Js.values (mergeRoles roleDetails)) ↔
         ¬ (type member = "atlassian-user-role-actor"
            ∧ (Js.includes (displayName member) "for Jira" = true
               ∨ Js.includes (displayName member) "Atlassian" = true)))
        ∧ (listed member = true →
           Js.includes (resultText r) (availableRow member) = true).
Proof.
  intros Hv Hc Hu Hr Hd Hne Hno projectKey.
  pose proof (checkUserIssues_merged P env gw args va jiraHost authHeader
                userName projectRoles roleDetails w Hv Hc Hu Hr Hd Hne) as Hrun.
  rewrite (userMatches_false _ _ _ Hno) in Hrun.
  eexists. split_and!; [exact Hrun | reflexivity |].
  intros member Hm. split.
  - rewrite list_elem_of_filter, <- listed_spec. naive_solver.
  - intros Hl. unfold textResult, resultText, availableMembers. simpl.
    do 7 apply includes_app_r.
    apply includes_concatAll, list_elem_of_filter. done.
Qed.

Lemma available_members_listing_witness :
  ∃ r,
    checkUserIssues Fixture.platform Fixture.env Fixture.gateway
      (Fixture.checkArgs "zed") emptyWorld =
      (Ok r,
       sent emptyWorld
         (rolesRequest Fixture.host Fixture.auth
            (Js.template (Fixture.validated (Fixture.checkArgs "zed")
                          !! "projectKey"))
          :: roleRequests Fixture.host Fixture.auth
               (Js.template (Fixture.validated (Fixture.checkArgs "zed")
                             !! "projectKey")) Fixture.roleMap)).
Proof.
  destruct (available_members_listing Fixture.platform Fixture.env
              Fixture.gateway (Fixture.checkArgs "zed")
              (Fixture.validated (Fixture.checkArgs "zed"))
              Fixture.host Fixture.auth "zed" Fixture.roleMap
              [("Administrators", Fixture.administrators);
               ("Developers", Fixture.developers)] emptyWorld)
    as (r & Hrun & _).
  - vm_compute. reflexivity.
  - vm_compute. reflexivity.
  - vm_compute. reflexivity.
  - reflexivity.
  - vm_compute. reflexivity.
  - discriminate.
  - intros member Hm. vm_compute in Hm.
    repeat (apply elem_of_cons in Hm as [->|Hm]; [vm_compute; discriminate |]).
    by apply elem_of_nil in Hm.
  - exists r. exact Hrun.
Defined.

(** C9, as the specification states it, fails. A record whose display name contains
    the identifying substring is in the listing by the specification,
    whatever its type; the record of ["Slack for Jira"] is left out. A
    record of the type the filter tests, with a plain name, is left out by
    the specification; the record of ["Bob"] is listed. *)
Lemma listing_hides_named_integrations :
  ∃ r w' slack bob,
    checkUserIssues Fixture.platform Fixture.env Fixture.gateway
      (Fixture.checkArgs "zed") emptyWorld = (Ok r, w')
    ∧ slack ∈ Js.values (mergeRoles [("Administrators", Fixture.administrators);
                                     ("Developers", Fixture.developers)])
    ∧ bob ∈ Js.values (mergeRoles [("Administrators", Fixture.administrators);
                                   ("Developers", Fixture.developers)])
    ∧ displayName slack = "Slack for Jira"
    ∧ Js.includes (displayName slack) "for Jira" = true
    ∧ Js.includes (resultText r) (displayName slack) = false
    ∧ type bob = "atlassian-user-role-actor"
    ∧ Js.includes (displayName bob) "for Jira" = false
    ∧ Js.includes (displayName bob) "Atlassian" = false
    ∧ Js.includes (resultText r) (availableRow bob) = true.
Proof.
  eexists _, _, _, _. split_and!.
  - vm_compute. reflexivity.
  - vm_compute. apply list_elem_of_further, list_elem_of_here.
  - vm_compute. do 2 apply list_elem_of_further. apply list_elem_of_here.
  - reflexivity.
  - vm_compute. reflexivity.
  - vm_compute. reflexivity.
  - reflexivity.
  - vm_compute. reflexivity.
  - vm_compute. reflexivity.
  - vm_compute. reflexivity.
Qed.

(** C10. A call of [checkUserIssues] that returns, returns a result that is
    not an error; and it does return, with the text of the negative
    outcome, when the role map is empty and when no merged record has the
    requested name up to case. *)
Theorem negative_outcomes_not_errors (P : Platform) (env : ProcessEnv)
    (gw : Gateway) (args va : Args) (jiraHost authHeader userName : string)
    (projectRoles : list (string * Js.Value))
    (roleDetails : list (string * ProjectRole)) (w : World) :
  validate P JiraCheckUserIssuesRequestSchema args = inr va →
  handlerCredentials P env va w = (Ok (jiraHost, authHeader), w) →
  va !! "userName" = Some userName →
  gw_roles gw (rolesRequest jiraHost authHeader
                 (Js.template (va !! "projectKey"))) = inr projectRoles →
  collect (rolePromises gw jiraHost authHeader
             (Js.template (va !! "projectKey")) projectRoles) = inr roleDetails →
  (∀ member, member ∈ Js.values (mergeRoles roleDetails) →
             toLowerCase P (displayName member) ≠ toLowerCase P userName) →
  (∀ r' w', checkUserIssues P env gw args w = (Ok r', w') → isError r' = false)
  ∧ ∃ r w',
      checkUserIssues P env gw args w = (Ok r, w')
      ∧ isError r = false
      ∧ (projectRoles = [] → Js.includes (resultText r) noRolesLine = true)
      ∧ (projectRoles ≠ [] →
         Js.includes (resultText r)
           (notMemberLine userName (Js.template (va !! "projectKey"))) = true).
Proof.
  intros Hv Hc Hu Hr Hd Hno. split; [intros r' w'; apply checkUserIssues_success |].
  destruct projectRoles as [|x l] eqn:Hroles.
  - eexists _, _. split_and!.
    + by apply (checkUserIssues_no_roles P env gw args va jiraHost authHeader
                  userName [] w Hv Hc Hu Hr).
    + done.
    + intros _. apply includes_app_r, includes_refl.
    + done.
  - assert (Hne : x :: l ≠ []) by done.
    pose proof (checkUserIssues_merged P env gw args va jiraHost authHeader
                  userName (x :: l) roleDetails w Hv Hc Hu Hr Hd Hne) as Hrun.
    rewrite (userMatches_false _ _ _ Hno) in Hrun.
    eexists _, _. split_and!; [exact Hrun | done | done |].
    intros _. apply includes_app_r, includes_here.
Qed.

Lemma negative_outcomes_not_errors_witness :
  ∃ r w',
    checkUserIssues Fixture.platform Fixture.env Fixture.gateway
      (Fixture.checkArgs "zed") emptyWorld = (Ok r, w')
    ∧ isError r = false.
Proof.
  destruct (negative_outcomes_not_errors Fixture.platform Fixture.env
              Fixture.gateway (Fixture.checkArgs "zed")
              (Fixture.validated (Fixture.checkArgs "zed"))
              Fixture.host Fixture.auth "zed" Fixture.roleMap
              [("Administrators", Fixture.administrators);
               ("Developers", Fixture.developers)] emptyWorld)
    as (_ & r & w' & Hrun & Herr & _).
  - vm_compute. reflexivity.
  - vm_compute. reflexivity.
  - vm_compute. reflexivity.
  - reflexivity.
  - vm_compute. reflexivity.
  - intros member Hm. vm_compute in Hm.
    repeat (apply elem_of_cons in Hm as [->|Hm]; [vm_compute; discriminate |]).
    by apply elem_of_nil in Hm.
  - exists r, w'. by split.
Defined.

(** ** Further properties of the code *)

(** ** Further properties: credentials, hosts and locators *)

Module AuthFacts.
Import JsFacts MonadFacts.

Lemma mapChars_app f (a b : string) :
  Js.mapChars f (a +:+ b) = Js.mapChars f a +:+ Js.mapChars f b.
Proof.
  induction a as [|x a IH]; [done |].
  rewrite append_cons. simpl. by rewrite append_cons, IH.
Qed.

Lemma hasProtocol_https (jiraHost : string) :
  hasProtocol ("https://" +:+ jiraHost) = true.
Proof.
  unfold hasProtocol. rewrite mapChars_app.
  change (Js.mapChars Js.lowerAscii "https://") with "https://".
  by rewrite (prefix_here "https://"), orb_true_r.
Qed.

Lemma prefix_cons (a b : ascii) (s1 s2 : string) :
  String.prefix (String a s1) (String b s2) =
    if ascii_dec a b then String.prefix s1 s2 else false.
Proof. reflexivity. Qed.

Lemma includes_slash_cons (c : ascii) (s : string) :
  Js.includes (String c s) "/" = (Ascii.eqb c "/"%char || Js.includes s "/")%bool.
Proof.
  rewrite includes_unfold, prefix_cons.
  destruct (ascii_dec "/" c) as [<-|Hne].
  - by rewrite prefix_nil.
  - destruct (Ascii.eqb_spec c "/"%char); [congruence | done].
Qed.

Lemma lastSegmentFrom_plain (acc s : string) :
  Js.includes s "/" = false → Js.lastSegmentFrom acc s = acc +:+ s.
Proof.
  revert acc. induction s as [|c s IH]; intros acc H; simpl.
  - by rewrite append_nil_r.
  - rewrite includes_slash_cons in H. apply orb_false_elim in H as [Hc Hs].
    rewrite Hc, (IH _ Hs), append_assoc. done.
Qed.

Lemma lastSegmentFrom_slash (acc before after : string) :
  Js.lastSegmentFrom acc (before +:+ "/" +:+ after) = Js.lastSegmentFrom "" after.
Proof.
  revert acc. induction before as [|c s IH]; intros acc.
  - reflexivity.
  - rewrite append_cons. simpl. destruct (Ascii.eqb c "/"); apply IH.
Qed.

Lemma credentials_present P env va w :
  Js.truthy (Js.or (va !! "jiraHost") (JIRA_HOST env)) = true →
  Js.truthy (Js.or (va !! "loginName") (JIRA_LOGIN_NAME env)) = true →
  Js.truthy (Js.or (va !! "loginToken") (JIRA_LOGIN_TOKEN env)) = true →
  handlerCredentials P env va w =
    (Ok (Js.template (Js.or (va !! "jiraHost") (JIRA_HOST env)),
         createAuthHeader P
           (Js.template (Js.or (va !! "loginName") (JIRA_LOGIN_NAME env)))
           (Js.template (Js.or (va !! "loginToken") (JIRA_LOGIN_TOKEN env)))),
     w).
Proof.
  intros H1 H2 H3. unfold handlerCredentials, validateCredentials.
  by rewrite H1, H2, H3.
Qed.

End AuthFacts.

Import JsFacts MonadFacts AuthFacts DispatchFacts.

(** X1. [normalizeJiraHost] returns a host that carries a protocol, and
    normalizing twice is normalizing once: a host is never given a second
    ["https://"]. *)
Theorem normalizeJiraHost_idempotent (jiraHost : string) :
  hasProtocol (normalizeJiraHost jiraHost) = true
  ∧ normalizeJiraHost (normalizeJiraHost jiraHost) = normalizeJiraHost jiraHost.
Proof.
  assert (H : hasProtocol (normalizeJiraHost jiraHost) = true).
  { unfold normalizeJiraHost. destruct (hasProtocol jiraHost) eqn:E; [done |].
    apply hasProtocol_https. }
  split; [done |]. unfold normalizeJiraHost at 1. by rewrite H.
Qed.

(** X2. The role detail is asked for the part of the role locator after its
    last slash: for a locator that ends in a slash and an id without slash,
    the request goes to [.../project/<key>/role/<id>] on the normalized
    host; a locator without any slash is used whole. *)
Theorem role_id_is_last_segment
    (jiraHost authHeader projectKey before roleId : string) :
  Js.includes roleId "/" = false →
  Js.lastSegment roleId = roleId
  ∧ url (roleDetailRequest jiraHost authHeader projectKey
           (before +:+ "/" +:+ roleId))
    = normalizeJiraHost jiraHost +:+ "/rest/api/3/project/" +:+ projectKey
      +:+ "/role/" +:+ roleId.
Proof.
  intros H.
  assert (Hid : Js.lastSegment roleId = roleId).
  { unfold Js.lastSegment. by rewrite lastSegmentFrom_plain. }
  split; [done |]. unfold roleDetailRequest. simpl.
  unfold Js.lastSegment at 1. rewrite lastSegmentFrom_slash.
  fold (Js.lastSegment roleId). by rewrite Hid.
Qed.

Lemma role_id_is_last_segment_witness :
  Js.lastSegment "10002" = "10002"
  ∧ url (roleDetailRequest "jira.example.com" "Basic x" "ABC"
           ("https://jira.example.com/rest/api/3/project/ABC/role" +:+ "/"
            +:+ "10002"))
    = normalizeJiraHost "jira.example.com" +:+ "/rest/api/3/project/" +:+ "ABC"
      +:+ "/role/" +:+ "10002".
Proof.
  apply (role_id_is_last_segment "jira.example.com" "Basic x" "ABC"
           "https://jira.example.com/rest/api/3/project/ABC/role" "10002").
  vm_compute. reflexivity.
Defined.

Import JsFacts MonadFacts AuthFacts DispatchFacts SortFacts SprintFacts.

Module MoreSprintFacts.
Import JsFacts MonadFacts SortFacts SprintFacts.

(** What [sprintDetails] appends for the issues of one sprint. *)
Lemma includes_detailsText P gw jiraHost authHeader projectKey sprints sprint :
  sprint ∈ sprints →
  Js.includes (detailsText P gw jiraHost authHeader projectKey sprints)
    (sprintHeading P jiraHost projectKey sprint
     +:+ match gw_sprintIssues gw
                 (sprintIssuesRequest jiraHost authHeader sprint) with
         | inr issuesResponse => sprintIssuesTable jiraHost issuesResponse
         | inl _ => "Could not fetch issues for this sprint." +:+ Js.nl
         end) = true.
Proof.
  induction sprints as [|s l IH]; intros Hin; [by apply elem_of_nil in Hin |].
  cbn [detailsText]. apply elem_of_cons in Hin as [->|Hin].
  - rewrite <- append_assoc. apply includes_here.
  - do 3 apply includes_app_r. by apply IH.
Qed.

Lemma insertSorted_stable {A} (compareFn : A → A → Z) (key : A → Z)
    (t : Z) (x : A) (l : list A) :
  (∀ a b, compareFn a b = key b - key a) →
  filter (fun a => key a = t) (Js.insertSorted compareFn x l)
  = filter (fun a => key a = t) (x :: l).
Proof.
  intros Hcmp. induction l as [|y l IH]; simpl; [done |].
  rewrite Hcmp. destruct (Z.leb_spec (key y - key x) 0) as [Hle|Hgt]; [done |].
  rewrite filter_cons, IH, !filter_cons.
  repeat case_decide; try done; lia.
Qed.

Lemma sort_stable {A} (compareFn : A → A → Z) (key : A → Z) (t : Z) (l : list A) :
  (∀ a b, compareFn a b = key b - key a) →
  filter (fun a => key a = t) (Js.sort compareFn l)
  = filter (fun a => key a = t) l.
Proof.
  intros Hcmp. induction l as [|x l IH]; simpl; [done |].
  rewrite (insertSorted_stable _ key) by done. by rewrite !filter_cons, IH.
Qed.

End MoreSprintFacts.

Import MoreSprintFacts.

(** X5. For a registered tool whose arguments pass the schema and whose
    credentials are present, the dispatcher adds nothing of its own: it
    returns the result of the handler on the validated arguments, with the
    world the handler leaves, and when the handler throws it returns the
    error result made of the message of the exception. *)
Theorem dispatcher_relays_handler
    (P : Platform) (env : ProcessEnv) (gw : Gateway)
    (listProjects getIssue searchIssues createIssue : Args → M ToolResult)
    (name : string) (toolConfig : ToolConfig) (args va : Args) (w : World) :
  Js.get (toolConfigs P env gw listProjects getIssue searchIssues createIssue)
         name = Some toolConfig →
  validate P (schema toolConfig) args = inr va →
  Js.truthy (Js.or (va !! "jiraHost") (JIRA_HOST env)) = true →
  Js.truthy (Js.or (va !! "loginName") (JIRA_LOGIN_NAME env)) = true →
  Js.truthy (Js.or (va !! "loginToken") (JIRA_LOGIN_TOKEN env)) = true →
  handleCallTool P env gw listProjects getIssue searchIssues createIssue
    name args w
  = match handler toolConfig va w with
    | (Ok r, w') => (Ok r, w')
    | (Throw e, w') => (Ok (textResult ("Error: " +:+ Js.message e) true), w')
    end.
Proof.
  intros Hget Hv H1 H2 H3.
  apply (handleCallTool_handler P env gw listProjects getIssue searchIssues
           createIssue name toolConfig args va w Hget Hv).
  unfold validateAndGetCredentials, validateCredentials.
  by rewrite H1, H2, H3.
Qed.

Lemma dispatcher_relays_handler_witness :
  handleCallTool Fixture.platform Fixture.env Fixture.roleFails
    (fun _ => ret (textResult "" false)) (fun _ => ret (textResult "" false))
    (fun _ => ret (textResult "" false)) (fun _ => ret (textResult "" false))
    "jira_list_project_members" Fixture.membersArgs emptyWorld
  = match listProjectMembers Fixture.platform Fixture.env Fixture.roleFails
            (Fixture.validated Fixture.membersArgs) emptyWorld with
    | (Ok r, w') => (Ok r, w')
    | (Throw e, w') => (Ok (textResult ("Error: " +:+ Js.message e) true), w')
    end.
Proof.
  refine (dispatcher_relays_handler Fixture.platform Fixture.env
            Fixture.roleFails _ _ _ _ "jira_list_project_members"
            {| schema := JiraProjectMembersRequestSchema;
               handler := listProjectMembers Fixture.platform Fixture.env
                            Fixture.roleFails |}
            Fixture.membersArgs (Fixture.validated Fixture.membersArgs)
            emptyWorld eq_refl _ _ _ _); vm_compute; reflexivity.
Defined.

(** X6. A result of the dispatcher that is not an error is always the
    result a registered handler returned on arguments its schema accepted:
    the dispatcher never answers with a success of its own, whatever the
    name. *)
Theorem success_is_a_handler_result
    (P : Platform) (env : ProcessEnv) (gw : Gateway)
    (listProjects getIssue searchIssues createIssue : Args → M ToolResult)
    (name : string) (args : Args) (w w' : World) (r : ToolResult) :
  handleCallTool P env gw listProjects getIssue searchIssues createIssue
    name args w = (Ok r, w') →
  isError r = false →
  ∃ toolConfig va,
    Js.get (toolConfigs P env gw listProjects getIssue searchIssues createIssue)
           name = Some toolConfig
    ∧ validate P (schema toolConfig) args = inr va
    ∧ handler toolConfig va w = (Ok r, w').
Proof. apply handleCallTool_catches. Qed.

Lemma success_is_a_handler_result_witness :
  ∃ toolConfig va,
    Js.get (toolConfigs Fixture.platform Fixture.env Fixture.gateway
              (fun _ => ret (textResult "" false))
              (fun _ => ret (textResult "" false))
              (fun _ => ret (textResult "" false))
              (fun _ => ret (textResult "" false)))
           "jira_list_sprints" = Some toolConfig
    ∧ validate Fixture.platform (schema toolConfig)
        (Fixture.sprintArgs (Some "3") None) = inr va
    ∧ handler toolConfig va emptyWorld
      = handleCallTool Fixture.platform Fixture.env Fixture.gateway
          (fun _ => ret (textResult "" false))
          (fun _ => ret (textResult "" false))
          (fun _ => ret (textResult "" false))
          (fun _ => ret (textResult "" false))
          "jira_list_sprints" (Fixture.sprintArgs (Some "3") None) emptyWorld.
Proof.
  destruct (handleCallTool Fixture.platform Fixture.env Fixture.gateway
              (fun _ => ret (textResult "" false))
              (fun _ => ret (textResult "" false))
              (fun _ => ret (textResult "" false))
              (fun _ => ret (textResult "" false))
              "jira_list_sprints" (Fixture.sprintArgs (Some "3") None)
              emptyWorld) as [[r|e] w'] eqn:E; [| vm_compute in E; discriminate E].
  destruct (success_is_a_handler_result _ _ _ _ _ _ _ _ _ _ _ _ E)
    as (toolConfig & va & H1 & H2 & H3).
  - vm_compute in E. by injection E as <- <-.
  - exists toolConfig, va. split; [exact H1 | split; [exact H2 | exact H3]].
Defined.

Import JsFacts MonadFacts AuthFacts DispatchFacts SortFacts SprintFacts
  MoreSprintFacts.

(** X7. Once its arguments are validated and its credentials found,
    [listSprints] throws nothing: every failure inside its [try] comes back
    as a result. When the board query is rejected, that result is an error
    made of the status and the body of the response, and the board query is
    the only request sent. *)
Theorem listSprints_contains_failures (P : Platform) (env : ProcessEnv)
    (gw : Gateway) (args va : Args) (jiraHost authHeader : string) (w : World) :
  validate P JiraSprintRequestSchema args = inr va →
  handlerCredentials P env va w = (Ok (jiraHost, authHeader), w) →
  (∃ r w', listSprints P env gw args w = (Ok r, w'))
  ∧ (∀ error,
       Js.asTruthy (va !! "boardId") = None →
       gw_boards gw
         (boardsRequest jiraHost authHeader (Js.asTruthy (va !! "projectKey")))
         = inl error →
       listSprints P env gw args w =
         (Ok (sprintsError error),
          sent w [boardsRequest jiraHost authHeader
                    (Js.asTruthy (va !! "projectKey"))])
       ∧ isError (sprintsError error) = true
       ∧ Js.includes (resultText (sprintsError error)) "# Error" = true).
Proof.
  intros Hv Hc. split.
  - unfold listSprints.
    rewrite (bind_ok _ _ w va w) by (by rewrite await_run, Hv).
    rewrite (bind_ok _ _ _ _ _ Hc). apply tryCatch_returns.
  - intros error Hb He. split_and!; [| done | apply includes_here].
    unfold listSprints.
    rewrite (bind_ok _ _ w va w) by (by rewrite await_run, Hv).
    rewrite (bind_ok _ _ _ _ _ Hc). unfold tryCatch, resolveBoards.
    rewrite Hb.
    destruct (Js.asTruthy (va !! "projectKey")) as [k|];
      unfold bind; by rewrite axiosGet_run, He.
Qed.

Lemma listSprints_contains_failures_witness :
  listSprints Fixture.platform Fixture.env Scenario.boardsDown
    (Fixture.sprintArgs None None) emptyWorld
  = (Ok (sprintsError Fixture.unavailable),
     sent emptyWorld [boardsRequest Fixture.host Fixture.auth None])
  ∧ isError (sprintsError Fixture.unavailable) = true.
Proof.
  destruct (listSprints_contains_failures Fixture.platform Fixture.env
              Scenario.boardsDown (Fixture.sprintArgs None None)
              (Fixture.sprintValidated None None) Fixture.host Fixture.auth
              emptyWorld) as [_ Hfail].
  - vm_compute. reflexivity.
  - vm_compute. reflexivity.
  - destruct (Hfail Fixture.unavailable) as (Hrun & Herr & _).
    + vm_compute. reflexivity.
    + vm_compute. reflexivity.
    + split; [exact Hrun | exact Herr].
Defined.

(** X8. The issues of each sprint are fetched in a [try] of their own:
    after the details of a listed sprint, the report has the table of its
    issues when the request resolves and the line "Could not fetch issues
    for this sprint." when it is rejected; a rejected request leaves the
    result a success and the other sprints as they are. One issue request
    is sent per listed sprint, in the order of the report. *)
Theorem sprint_issue_failure_is_inline (P : Platform) (env : ProcessEnv)
    (gw : Gateway) (args va : Args) (jiraHost authHeader : string)
    (boardIds : list string) (w w1 : World) :
  validate P JiraSprintRequestSchema args = inr va →
  handlerCredentials P env va w = (Ok (jiraHost, authHeader), w) →
  resolveBoards gw jiraHost authHeader (va !! "boardId") (va !! "projectKey") w
    = (Ok (inr boardIds), w1) →
  let state := Js.orLit (va !! "state") "active" in
  let listedSprints :=
    sortSprints P (boardIds ≫= boardSprints gw jiraHost authHeader state) in
  ∃ r w',
    listSprints P env gw args w = (Ok r, w')
    ∧ isError r = false
    ∧ requests w' =
        (requests w1 ++ (sprintsRequest jiraHost authHeader state <$> boardIds)
         ++ (sprintIssuesRequest jiraHost authHeader <$> listedSprints))%list
    ∧ (∀ sprint error,
         sprint ∈ listedSprints →
         gw_sprintIssues gw (sprintIssuesRequest jiraHost authHeader sprint)
           = inl error →
         Js.includes (resultText r)
           (sprintHeading P jiraHost (va !! "projectKey") sprint
            +:+ "Could not fetch issues for this sprint." +:+ Js.nl) = true)
    ∧ (∀ sprint issuesResponse,
         sprint ∈ listedSprints →
         gw_sprintIssues gw (sprintIssuesRequest jiraHost authHeader sprint)
           = inr issuesResponse →
         Js.includes (resultText r)
           (sprintHeading P jiraHost (va !! "projectKey") sprint
            +:+ sprintIssuesTable jiraHost issuesResponse) = true).
Proof.
  intros Hv Hc Hb state listedSprints.
  pose proof (listSprints_resolved P env gw args va jiraHost authHeader w Hv Hc
                boardIds w1 Hb) as Hrun.
  cbv zeta in Hrun. fold state in Hrun.
  assert (Hin : ∀ sprint, sprint ∈ listedSprints →
    Js.includes
      (match boardIds ≫= boardSprints gw jiraHost authHeader state with
       | [] => noSprintsMessage state (va !! "boardId") (va !! "projectKey")
       | _ :: _ =>
           sprintsTable P state listedSprints
           +:+ detailsText P gw jiraHost authHeader (va !! "projectKey")
                 listedSprints
       end)
      (sprintHeading P jiraHost (va !! "projectKey") sprint
       +:+ match gw_sprintIssues gw
                   (sprintIssuesRequest jiraHost authHeader sprint) with
           | inr issuesResponse => sprintIssuesTable jiraHost issuesResponse
           | inl _ => "Could not fetch issues for this sprint." +:+ Js.nl
           end) = true).
  { intros sprint Hs. subst listedSprints.
    destruct (boardIds ≫= boardSprints gw jiraHost authHeader state) eqn:E.
    - by apply elem_of_nil in Hs.
    - by apply includes_app_r, includes_detailsText. }
  eexists _, _. split_and!; [exact Hrun | done | done | |].
  - intros sprint error Hs He. specialize (Hin sprint Hs). by rewrite He in Hin.
  - intros sprint res Hs He. specialize (Hin sprint Hs). by rewrite He in Hin.
Qed.

Lemma sprint_issue_failure_is_inline_witness :
  ∃ r w',
    listSprints Fixture.platform Fixture.env Scenario.issuesDown
      (Fixture.sprintArgs (Some "1") None) emptyWorld = (Ok r, w')
    ∧ isError r = false
    ∧ Js.includes (resultText r)
        (sprintHeading Fixture.platform Fixture.host None
           (withBoard "1" (Fixture.sprint "12" (Some "2024-01-10")))
         +:+ "Could not fetch issues for this sprint." +:+ Js.nl) = true.
Proof.
  destruct (sprint_issue_failure_is_inline Fixture.platform Fixture.env
              Scenario.issuesDown (Fixture.sprintArgs (Some "1") None)
              (Fixture.sprintValidated (Some "1") None)
              Fixture.host Fixture.auth ["1"] emptyWorld emptyWorld)
    as (r & w' & Hrun & Herr & _ & Hfail & _).
  - vm_compute. reflexivity.
  - vm_compute. reflexivity.
  - vm_compute. reflexivity.
  - exists r, w'. split; [exact Hrun |]. split; [exact Herr |].
    apply (Hfail (withBoard "1" (Fixture.sprint "12" (Some "2024-01-10")))
             Fixture.unavailable).
    + apply list_elem_of_In. vm_compute. left. reflexivity.
    + vm_compute. reflexivity.
Defined.

(** X9. When the boards that were resolved give no sprint at all, because
    they have none in the requested state or because their requests were
    rejected, [listSprints] answers "No Sprints Found" as a success, and it
    sends no issue request. *)
Theorem no_sprints_found (P : Platform) (env : ProcessEnv) (gw : Gateway)
    (args va : Args) (jiraHost authHeader : string) (boardIds : list string)
    (w w1 : World) :
  validate P JiraSprintRequestSchema args = inr va →
  handlerCredentials P env va w = (Ok (jiraHost, authHeader), w) →
  resolveBoards gw jiraHost authHeader (va !! "boardId") (va !! "projectKey") w
    = (Ok (inr boardIds), w1) →
  (∀ b, b ∈ boardIds →
        boardSprints gw jiraHost authHeader
          (Js.orLit (va !! "state") "active") b = []) →
  ∃ r w',
    listSprints P env gw args w = (Ok r, w')
    ∧ isError r = false
    ∧ resultText r =
        noSprintsMessage (Js.orLit (va !! "state") "active")
          (va !! "boardId") (va !! "projectKey")
    ∧ Js.includes (resultText r) "# No Sprints Found" = true
    ∧ requests w' =
        (requests w1
         ++ (sprintsRequest jiraHost authHeader
               (Js.orLit (va !! "state") "active") <$> boardIds))%list.
Proof.
  intros Hv Hc Hb Hnone.
  pose proof (listSprints_resolved P env gw args va jiraHost authHeader w Hv Hc
                boardIds w1 Hb) as Hrun.
  cbv zeta in Hrun. unfold sprintTrace in Hrun.
  assert (E : boardIds ≫= boardSprints gw jiraHost authHeader
                (Js.orLit (va !! "state") "active") = []).
  { clear -Hnone. induction boardIds as [|b l IH]; [done |].
    rewrite bind_cons, Hnone by (by left). apply IH.
    intros ? ?. apply Hnone. by right. }
  rewrite E in Hrun. simpl in Hrun. rewrite app_nil_r in Hrun.
  eexists _, _. split_and!; [exact Hrun | done | done | | done].
  apply includes_here.
Qed.

Lemma no_sprints_found_witness :
  ∃ r w',
    listSprints Fixture.platform Fixture.env Fixture.gateway
      (Fixture.sprintArgs (Some "2") None) emptyWorld = (Ok r, w')
    ∧ isError r = false
    ∧ resultText r =
        noSprintsMessage
          (Js.orLit (Fixture.sprintValidated (Some "2") None !! "state") "active")
          (Fixture.sprintValidated (Some "2") None !! "boardId")
          (Fixture.sprintValidated (Some "2") None !! "projectKey").
Proof.
  destruct (no_sprints_found Fixture.platform Fixture.env
              Fixture.gateway (Fixture.sprintArgs (Some "2") None)
              (Fixture.sprintValidated (Some "2") None)
              Fixture.host Fixture.auth ["2"] emptyWorld emptyWorld)
    as (r & w' & Hrun & Herr & Htext & _).
  - vm_compute. reflexivity.
  - vm_compute. reflexivity.
  - vm_compute. reflexivity.
  - intros b ->%list_elem_of_singleton. vm_compute. reflexivity.
  - by exists r, w'.
Defined.

(** X10. The sort of the sprints is stable: sprints with the same start
    time, and so all the sprints without a start date, stay in the order in
    which the boards returned them. *)
Theorem sortSprints_stable (P : Platform) (allSprints : list Sprint) (t : Z) :
  filter (fun sprint => sprintTime P sprint = t) (sortSprints P allSprints)
  = filter (fun sprint => sprintTime P sprint = t) allSprints.
Proof. by apply (sort_stable (compareSprints P) (sprintTime P)). Qed.

Module MemberFacts.
Import JsFacts MapFacts MergeFacts MonadFacts RolesFacts CheckFacts.

Lemma keys_addActor roleName allMembers actor :
  Js.keys (addActor roleName allMembers actor) =
    fold_left seeName
      (omap (fun a => Js.asTruthy (actor_displayName a)) [actor])
      (Js.keys allMembers).
Proof.
  unfold addActor. simpl.
  destruct (Js.asTruthy (actor_displayName actor)) as [n|]; simpl; [| done].
  unfold seeName. destruct (Js.has allMembers n) eqn:Eh; simpl.
  - rewrite keys_mutate. rewrite bool_decide_eq_true_2; [done |].
    destruct (decide (n ∈ Js.keys allMembers)) as [|Hn]; [done |].
    apply has_false in Hn. congruence.
  - apply has_false in Eh. rewrite bool_decide_eq_false_2 by done.
    rewrite set_absent by done. unfold Js.keys. by rewrite fmap_app.
Qed.

Lemma keys_actors roleName l allMembers :
  Js.keys (fold_left (addActor roleName) l allMembers) =
    fold_left seeName
      (omap (fun a => Js.asTruthy (actor_displayName a)) l)
      (Js.keys allMembers).
Proof.
  revert allMembers. induction l as [|a l IH]; intros allMembers; [done |].
  cbn [fold_left]. rewrite IH, keys_addActor.
  change (a :: l) with ([a] ++ l)%list. by rewrite omap_app, fold_left_app.
Qed.

Lemma keys_fold roleDetails allMembers :
  Js.keys (fold_left addRole roleDetails allMembers) =
    fold_left seeName (roleDetails ≫= actorNames) (Js.keys allMembers).
Proof.
  revert allMembers.
  induction roleDetails as [|[r d] l IH]; intros allMembers; [done |].
  cbn [fold_left]. rewrite IH, addRole_fold, keys_actors, bind_cons.
  by rewrite fold_left_app.
Qed.

Lemma omap_length_le {A B} (f : A → option B) (l : list A) :
  (length (omap f l) ≤ length l)%nat.
Proof.
  induction l as [|x l IH]; [done |].
  change (omap f (x :: l))
    with (match f x with Some y => y :: omap f l | None => omap f l end).
  destruct (f x); simpl; lia.
Qed.

Lemma find_app {A} (f : A → bool) (l1 l2 : list A) :
  find f (l1 ++ l2) =
    match find f l1 with
    | Some x => Some x
    | None => find f l2
    end.
Proof.
  induction l1 as [|x l1 IH]; simpl; [done |]. by destruct (f x).
Qed.

Lemma get_append_absent {V} (m : Js.Map V) k v k' :
  k ∉ Js.keys m →
  Js.get (m ++ [(k, v)])%list k' =
    match Js.get m k' with
    | Some x => Some x
    | None => if bool_decide (k = k') then Some v else None
    end.
Proof.
  intros _. induction m as [|[k0 v0] m IH]; simpl.
  - rewrite eqb_decide. by case_bool_decide.
  - destruct (String.eqb k0 k'); [done | apply IH].
Qed.

Lemma firstObserved_addActor roleName seen allMembers actor :
  firstObserved seen allMembers →
  firstObserved (seen ++ [actor]) (addActor roleName allMembers actor).
Proof.
  intros Hinv name. specialize (Hinv name).
  unfold firstActor in *. rewrite find_app. unfold addActor. simpl.
  destruct (Js.asTruthy (actor_displayName actor)) as [n|] eqn:En.
  - destruct (Js.has allMembers n) eqn:Eh.
    + simpl. rewrite get_mutate.
      case_bool_decide as Hn.
      * subst n. unfold Js.has in Eh.
        destruct (Js.get allMembers name) as [m|]; [| done]. simpl.
        destruct Hinv as (a & -> & ? & ?). by exists a.
      * destruct (Js.get allMembers name) as [m|].
        -- destruct Hinv as (a & -> & ? & ?). by exists a.
        -- rewrite Hinv. rewrite bool_decide_eq_false_2; [done |].
           intros [= ->]. done.
    + simpl. apply has_false in Eh. rewrite set_absent by done.
      rewrite get_append_absent by done.
      destruct (Js.get allMembers name) as [m|] eqn:Eg.
      * destruct Hinv as (a & -> & ? & ?). by exists a.
      * rewrite Hinv. case_bool_decide as Hn.
        -- subst n. rewrite bool_decide_eq_true_2 by done. by exists actor.
        -- rewrite bool_decide_eq_false_2; [done |]. intros [= ->]. done.
  - destruct (Js.get allMembers name) as [m|].
    + destruct Hinv as (a & -> & ? & ?). by exists a.
    + rewrite Hinv. by rewrite bool_decide_eq_false_2.
Qed.

Lemma firstObserved_actors roleName l seen allMembers :
  firstObserved seen allMembers →
  firstObserved (seen ++ l) (fold_left (addActor roleName) l allMembers).
Proof.
  revert seen allMembers. induction l as [|a l IH]; intros seen allMembers H.
  - by rewrite app_nil_r.
  - cbn [fold_left]. change (a :: l) with ([a] ++ l)%list.
    rewrite app_assoc. by apply IH, firstObserved_addActor.
Qed.

Lemma firstObserved_fold roleDetails seen allMembers :
  firstObserved seen allMembers →
  firstObserved (seen ++ allActors roleDetails)
                (fold_left addRole roleDetails allMembers).
Proof.
  revert seen allMembers.
  induction roleDetails as [|[r d] l IH]; intros seen allMembers H.
  - unfold allActors. simpl. by rewrite app_nil_r.
  - cbn [fold_left]. unfold allActors. rewrite bind_cons, app_assoc.
    apply IH. rewrite addRole_fold. by apply firstObserved_actors.
Qed.

Lemma firstObserved_mergeRoles roleDetails :
  firstObserved (allActors roleDetails) (mergeRoles roleDetails).
Proof.
  apply (firstObserved_fold roleDetails [] []). intros name. done.
Qed.

(** What a call of [listProjectMembers] does once the role map and all the
    role details have been read. *)
Lemma listProjectMembers_merged P env gw args va jiraHost authHeader
    projectRoles roleDetails w :
  validate P JiraProjectMembersRequestSchema args = inr va →
  handlerCredentials P env va w = (Ok (jiraHost, authHeader), w) →
  gw_roles gw (rolesRequest jiraHost authHeader
                 (Js.template (va !! "projectKey"))) = inr projectRoles →
  collect (rolePromises gw jiraHost authHeader
             (Js.template (va !! "projectKey")) projectRoles) = inr roleDetails →
  projectRoles ≠ [] →
  listProjectMembers P env gw args w =
    (Ok (textResult
           (("# Project Members for " +:+ Js.template (va !! "projectKey")
             +:+ Js.nl +:+ Js.nl)
            +:+ match mergeRoles roleDetails with
                | _ :: _ =>
                    "| Name | Type | Email | Roles |" +:+ Js.nl
                    +:+ "|------|------|-------|-------|" +:+ Js.nl
                    +:+ Js.concatAll
                          (memberRow <$> Js.values (mergeRoles roleDetails))
                | [] => "No project members found."
                end)
           false),
     sent w (rolesRequest jiraHost authHeader (Js.template (va !! "projectKey"))
             :: roleRequests jiraHost authHeader
                  (Js.template (va !! "projectKey")) projectRoles)).
Proof.
  intros Hv Hc Hr Hd Hne. unfold listProjectMembers.
  rewrite (bind_ok _ _ w va w) by (by rewrite await_run, Hv).
  rewrite (bind_ok _ _ _ _ _ Hc).
  rewrite (bind_ok _ _ w projectRoles
             (sent w [rolesRequest jiraHost authHeader
                        (Js.template (va !! "projectKey"))]))
    by (by rewrite axiosGet_run, Hr).
  destruct projectRoles as [|x l] eqn:Hroles; [done |].
  rewrite <- Hroles in *. cbv beta iota.
  rewrite (bind_ok _ _ _ _ _ (roleDetailsPromises_run _ _ _ _ _ _)).
  rewrite (bind_ok _ _ _ _ _ (promiseAll_resolved _ _ _ _ Hd)).
  by rewrite sent_sent.
Qed.

Lemma listProjectMembers_no_roles P env gw args va jiraHost authHeader w :
  validate P JiraProjectMembersRequestSchema args = inr va →
  handlerCredentials P env va w = (Ok (jiraHost, authHeader), w) →
  gw_roles gw (rolesRequest jiraHost authHeader
                 (Js.template (va !! "projectKey"))) = inr [] →
  listProjectMembers P env gw args w =
    (Ok (textResult
           (("# Project Members for " +:+ Js.template (va !! "projectKey")
             +:+ Js.nl +:+ Js.nl) +:+ "No project roles found.")
           false),
     sent w [rolesRequest jiraHost authHeader (Js.template (va !! "projectKey"))]).
Proof.
  intros Hv Hc Hr. unfold listProjectMembers.
  rewrite (bind_ok _ _ w va w) by (by rewrite await_run, Hv).
  rewrite (bind_ok _ _ _ _ _ Hc).
  by rewrite (bind_ok _ _ w []
             (sent w [rolesRequest jiraHost authHeader
                        (Js.template (va !! "projectKey"))]))
    by (by rewrite axiosGet_run, Hr).
Qed.

End MemberFacts.

Import JsFacts MapFacts MergeFacts MonadFacts RolesFacts CheckFacts MemberFacts.

(** X11. The merge keeps one record per display name: the records are in
    the order in which the names are first seen across the roles, no name
    has two records, a name has a record exactly when some actor of some
    role has it, and actors without a display name get none. *)
Theorem one_record_per_display_name (roleDetails : list (string * ProjectRole)) :
  Js.keys (mergeRoles roleDetails) = firstSeen (roleDetails ≫= actorNames)
  ∧ NoDup (Js.keys (mergeRoles roleDetails))
  ∧ (∀ name, name ∈ Js.keys (mergeRoles roleDetails) ↔
             ∃ roleName data actor,
               (roleName, data) ∈ roleDetails
               ∧ actor ∈ actorsOf data
               ∧ actor_displayName actor = Some name ∧ name ≠ "")
  ∧ (length (mergeRoles roleDetails) ≤ length (allActors roleDetails))%nat.
Proof.
  split_and!.
  - unfold mergeRoles. by rewrite keys_fold.
  - apply wellKeyed_mergeRoles.
  - intros name. rewrite keys_mergeRoles, list_elem_of_bind. split.
    + intros ([r d] & Hn & Hd). unfold actorNames in Hn. simpl in Hn.
      apply list_elem_of_omap in Hn as (a & Ha & [Hn1 Hn2]%asTruthy_Some).
      by exists r, d, a.
    + intros (r & d & a & Hd & Ha & Hname & Hne). exists (r, d).
      split; [| done]. unfold actorNames. simpl.
      apply list_elem_of_omap. exists a. split; [done |].
      rewrite Hname. simpl. by destruct (String.eqb_spec name "").
  - pose proof (wellKeyed_mergeRoles roleDetails) as [Hnd _].
    rewrite <- (length_fmap fst (mergeRoles roleDetails)).
    fold (Js.keys (mergeRoles roleDetails)).
    transitivity (length (roleDetails ≫= actorNames)).
    + apply submseteq_length, NoDup_submseteq; [done |].
      intros n. by rewrite keys_mergeRoles.
    + unfold allActors, actorNames. clear.
      induction roleDetails as [|[r d] l IH]; [done |].
      rewrite !bind_cons, !length_app. simpl.
      pose proof (omap_length_le
                    (fun a => Js.asTruthy (actor_displayName a)) (actorsOf d)).
      lia.
Qed.

(** X12. A record keeps what the first actor seen with its display name
    brought: its type is the type of that actor, and its email is the email
    address of that actor, or ["N/A"] when that actor has none; later actors
    of the same name only add roles. *)
Theorem member_keeps_first_observation
    (roleDetails : list (string * ProjectRole)) (name : string) (member : Member) :
  (name, member) ∈ mergeRoles roleDetails →
  ∃ actor,
    firstActor name (allActors roleDetails) = Some actor
    ∧ actor ∈ allActors roleDetails
    ∧ actor_displayName actor = Some name
    ∧ type member = actor_type actor
    ∧ email member = Js.orLit (actor_emailAddress actor) "N/A".
Proof.
  intros Hin. pose proof (wellKeyed_mergeRoles roleDetails) as [Hnd _].
  pose proof (firstObserved_mergeRoles roleDetails name) as H.
  rewrite (elem_of_get _ _ _ Hnd Hin) in H.
  destruct H as (actor & Hfirst & Ht & He). exists actor.
  unfold firstActor in Hfirst.
  pose proof (find_some _ _ Hfirst) as [Ha Hn].
  apply bool_decide_eq_true in Hn. apply asTruthy_Some in Hn as [Hn _].
  split_and!; try done. by apply list_elem_of_In.
Qed.

Lemma member_keeps_first_observation_witness :
  ∃ actor,
    firstActor "Bob"
      (allActors [("Administrators", Fixture.administrators);
                  ("Developers", Fixture.developers)]) = Some actor
    ∧ actor ∈ allActors [("Administrators", Fixture.administrators);
                         ("Developers", Fixture.developers)]
    ∧ actor_displayName actor = Some "Bob"
    ∧ type {| displayName := "Bob"; type := "atlassian-user-role-actor";
              email := "N/A"; roles := ["Developers"] |} = actor_type actor
    ∧ email {| displayName := "Bob"; type := "atlassian-user-role-actor";
               email := "N/A"; roles := ["Developers"] |}
      = Js.orLit (actor_emailAddress actor) "N/A".
Proof.
  apply (member_keeps_first_observation
           [("Administrators", Fixture.administrators);
            ("Developers", Fixture.developers)] "Bob").
  vm_compute. do 2 apply list_elem_of_further. apply list_elem_of_here.
Defined.

(** X13. When the role map and every role detail are read,
    [listProjectMembers] returns a success whose table has a row for every
    merged record, with its name, type, email and roles; it says "No project
    members found." when no actor has a display name, and "No project roles
    found." after the single request of the role map when that map is
    empty. *)
Theorem listProjectMembers_lists_every_member
    (P : Platform) (env : ProcessEnv) (gw : Gateway) (args va : Args)
    (jiraHost authHeader : string) (projectRoles : list (string * Js.Value))
    (roleDetails : list (string * ProjectRole)) (w : World) :
  validate P JiraProjectMembersRequestSchema args = inr va →
  handlerCredentials P env va w = (Ok (jiraHost, authHeader), w) →
  gw_roles gw (rolesRequest jiraHost authHeader
                 (Js.template (va !! "projectKey"))) = inr projectRoles →
  collect (rolePromises gw jiraHost authHeader
             (Js.template (va !! "projectKey")) projectRoles) = inr roleDetails →
  let projectKey := Js.template (va !! "projectKey") in
  ∃ r,
    listProjectMembers P env gw args w =
      (Ok r, sent w (rolesRequest jiraHost authHeader projectKey
                     :: roleRequests jiraHost authHeader projectKey projectRoles))
    ∧ isError r = false
    ∧ (projectRoles = [] →
       Js.includes (resultText r) "No project roles found." = true)
    ∧ (projectRoles ≠ [] → roleDetails ≫= actorNames = [] →
       Js.includes (resultText r) "No project members found." = true)
    ∧ (∀ member, member ∈ Js.values (mergeRoles roleDetails) →
                 Js.includes (resultText r) (memberRow member) = true).
Proof.
  intros Hv Hc Hr Hd projectKey.
  destruct projectRoles as [|x l] eqn:Hroles.
  - eexists. split_and!.
    + by apply (listProjectMembers_no_roles P env gw args va).
    + done.
    + intros _. apply includes_app_r, includes_refl.
    + done.
    + injection Hd as <-. by intros ? ?%elem_of_nil.
  - assert (Hne : x :: l ≠ []) by done.
    pose proof (listProjectMembers_merged P env gw args va jiraHost authHeader
                  (x :: l) roleDetails w Hv Hc Hr Hd Hne) as Hrun.
    eexists. split_and!; [exact Hrun | done | done | |].
    + intros _ Hnames.
      assert (Hk : Js.keys (mergeRoles roleDetails) = []).
      { destruct (Js.keys (mergeRoles roleDetails)) as [|n ks] eqn:E; [done |].
        assert (Hn : n ∈ Js.keys (mergeRoles roleDetails)) by (rewrite E; by left).
        apply keys_mergeRoles in Hn. rewrite Hnames in Hn.
        by apply elem_of_nil in Hn. }
      unfold resultText, textResult. simpl.
      destruct (mergeRoles roleDetails); [| done].
      apply includes_app_r, includes_refl.
    + intros member Hm. unfold resultText, textResult. simpl.
      destruct (mergeRoles roleDetails) as [|e0 l0] eqn:E;
        [by apply elem_of_nil in Hm |].
      apply includes_app_r. do 4 apply includes_app_r.
      by apply includes_concatAll.
Qed.

Lemma listProjectMembers_lists_every_member_witness :
  ∃ r,
    listProjectMembers Fixture.platform Fixture.env Fixture.gateway
      Fixture.membersArgs emptyWorld =
      (Ok r,
       sent emptyWorld
         (rolesRequest Fixture.host Fixture.auth
            (Js.template (Fixture.validated Fixture.membersArgs !! "projectKey"))
          :: roleRequests Fixture.host Fixture.auth
               (Js.template (Fixture.validated Fixture.membersArgs
                             !! "projectKey")) Fixture.roleMap))
    ∧ isError r = false.
Proof.
  destruct (listProjectMembers_lists_every_member Fixture.platform Fixture.env
              Fixture.gateway Fixture.membersArgs
              (Fixture.validated Fixture.membersArgs)
              Fixture.host Fixture.auth Fixture.roleMap
              [("Administrators", Fixture.administrators);
               ("Developers", Fixture.developers)] emptyWorld)
    as (r & Hrun & Herr & _).
  - vm_compute. reflexivity.
  - vm_compute. reflexivity.
  - reflexivity.
  - vm_compute. reflexivity.
  - by exists r.
Defined.

(** ** The handlers that do no aggregation *)

Module IssueFacts.
Import JsFacts MonadFacts AuthFacts DispatchFacts.

Lemma sent_warned w reqs msgs :
  sent (warned w msgs) reqs = warned (sent w reqs) msgs.
Proof. reflexivity. Qed.

Lemma warned_warned w l1 l2 : warned (warned w l1) l2 = warned w (l1 ++ l2).
Proof. unfold warned. simpl. by rewrite app_assoc. Qed.

Lemma axiosPost_run {B T} (endpoint : B → Request → Settled T) data req w :
  axiosPost endpoint data req w =
    (match endpoint data req with inl e => Throw e | inr d => Ok d end,
     sent w [req]).
Proof. unfold axiosPost, bind, logRequest. apply await_run. Qed.

Lemma validated_start {A} P schema args va (k : Args → M A) w :
  validate P schema args = inr va →
  bind (await (validate P schema args)) k w = k va w.
Proof. intros Hv. apply bind_ok. by rewrite await_run, Hv. Qed.

Lemma credentials_truthy P env va w cred w' :
  handlerCredentials P env va w = (Ok cred, w') →
  Js.truthy (Js.or (va !! "jiraHost") (JIRA_HOST env)) = true
  ∧ Js.truthy (Js.or (va !! "loginName") (JIRA_LOGIN_NAME env)) = true
  ∧ Js.truthy (Js.or (va !! "loginToken") (JIRA_LOGIN_TOKEN env)) = true.
Proof.
  unfold handlerCredentials.
  destruct (Js.truthy (Js.or (va !! "jiraHost") (JIRA_HOST env)));
    destruct (Js.truthy (Js.or (va !! "loginName") (JIRA_LOGIN_NAME env)));
    destruct (Js.truthy (Js.or (va !! "loginToken") (JIRA_LOGIN_TOKEN env)));
    simpl; done.
Qed.

Lemma lookupAccount_run P ig jiraHost authHeader what name w :
  lookupAccount P ig jiraHost authHeader what name w =
    match Js.asTruthy name with
    | None => (Ok None, w)
    | Some n =>
        match gw_userSearch ig (userSearchRequest jiraHost authHeader n) with
        | inl _ =>
            (Ok None,
             warned (sent w [userSearchRequest jiraHost authHeader n])
                    ["Could not find " +:+ what +:+ ": " +:+ n])
        | inr data =>
            (Ok match data with
                | Some (u :: l) => accountId <$> pickUser P n (u :: l)
                | _ => None
                end,
             sent w [userSearchRequest jiraHost authHeader n])
        end
    end.
Proof.
  unfold lookupAccount. destruct (Js.asTruthy name) as [n|]; [| done].
  unfold tryCatch, bind at 1. rewrite axiosGet_run.
  destruct (gw_userSearch ig _) as [e|data]; [done |].
  by destruct data as [[|u l]|].
Qed.

Lemma lookupAccount_returns P ig jiraHost authHeader what name w :
  ∃ account w',
    lookupAccount P ig jiraHost authHeader what name w = (Ok account, w')
    ∧ ∃ reqs, requests w' = (requests w ++ reqs)%list.
Proof.
  rewrite lookupAccount_run. destruct (Js.asTruthy name) as [n|].
  - destruct (gw_userSearch ig _); eexists _, _; (split; [done |]); simpl; eauto.
  - eexists _, _. split; [done |]. exists []. by rewrite app_nil_r.
Qed.

Lemma attachToSprint_run ig jiraHost authHeader sprintId createdIssue w :
  attachToSprint ig jiraHost authHeader sprintId createdIssue w =
    match Js.asTruthy sprintId, Js.asTruthy (created_id createdIssue) with
    | Some sprint, Some id =>
        match gw_addToSprint ig [id]
                (sprintAttachRequest jiraHost authHeader sprint) with
        | inl _ =>
            (Ok tt,
             warned (sent w [sprintAttachRequest jiraHost authHeader sprint])
                    ["Could not add issue to sprint: " +:+ sprint])
        | inr _ => (Ok tt, sent w [sprintAttachRequest jiraHost authHeader sprint])
        end
    | _, _ => (Ok tt, w)
    end.
Proof.
  unfold attachToSprint.
  destruct (Js.asTruthy sprintId) as [sprint|]; [| done].
  destruct (Js.asTruthy (created_id createdIssue)) as [id|]; [| done].
  unfold tryCatch. rewrite axiosPost_run.
  by destruct (gw_addToSprint ig _ _) as [e|[]].
Qed.

(** *** When the report of [getIssue] throws *)

Lemma appendRows_fails (t r : Settled string) :
  (∃ e, appendRows t r = inl e) ↔ (∃ e, t = inl e) ∨ (∃ e, r = inl e).
Proof. destruct t as [e|t], r as [e'|r]; simpl; naive_solver. Qed.

Lemma authorName_fails (author : Author) :
  (∃ e, authorName author = inl e) ↔ isObject author = false.
Proof. destruct author; simpl; naive_solver. Qed.

Lemma concatRows_cons (row : Settled string) rows :
  concatRows (row :: rows) = appendRows row (concatRows rows).
Proof. reflexivity. Qed.

Lemma rows_fail {A} (row : nat → A → Settled string) (author : A → Author)
    (l : list A) :
  (∀ i x, (∃ e, row i x = inl e) ↔ isObject (author x) = false) →
  (∃ e, concatRows (imap row l) = inl e)
  ↔ ∃ a, a ∈ author <$> l ∧ isObject a = false.
Proof.
  revert row. induction l as [|x l IH]; intros row Hrow.
  - simpl. split; [by intros [? ?] | intros (a & Ha & _)].
    by apply elem_of_nil in Ha.
  - rewrite imap_cons, concatRows_cons, appendRows_fails, Hrow.
    rewrite (IH (row ∘ S)) by (intros i y; apply Hrow).
    rewrite fmap_cons. split.
    + intros [Hx | (a & Ha & Hobj)].
      * exists (author x). split; [apply list_elem_of_here | done].
      * exists a. split; [by apply list_elem_of_further | done].
    + intros (a & [-> | Ha]%elem_of_cons & Hobj); [by left |].
      right. by exists a.
Qed.

Lemma fmap_rows_fail {A} (row : A → Settled string) (author : A → Author)
    (l : list A) :
  (∀ x, (∃ e, row x = inl e) ↔ isObject (author x) = false) →
  (∃ e, concatRows (row <$> l) = inl e)
  ↔ ∃ a, a ∈ author <$> l ∧ isObject a = false.
Proof.
  intros Hrow.
  rewrite <- (rows_fail (fun _ => row) author l) by (intros _; apply Hrow).
  by rewrite (imap_const row).
Qed.

Lemma commentText_fails P i c :
  (∃ e, commentText P i c = inl e) ↔ isObject (comment_author c) = false.
Proof.
  rewrite <- authorName_fails. unfold commentText.
  destruct (authorName (comment_author c)); naive_solver.
Qed.

Lemma attachmentRow_fails P a :
  (∃ e, attachmentRow P a = inl e) ↔ isObject (attachment_author a) = false.
Proof.
  rewrite <- authorName_fails. unfold attachmentRow.
  destruct (authorName (attachment_author a)); naive_solver.
Qed.

Lemma worklogRow_fails P x :
  (∃ e, worklogRow P x = inl e) ↔ isObject (worklog_author x) = false.
Proof.
  rewrite <- authorName_fails. unfold worklogRow.
  destruct (authorName (worklog_author x)); naive_solver.
Qed.

Lemma historyRow_fails P h :
  (∃ e, historyRow P h = inl e) ↔ isObject (history_author h) = false.
Proof.
  rewrite <- authorName_fails. unfold historyRow.
  destruct (authorName (history_author h)); naive_solver.
Qed.

Lemma section_fails {A} (entries : option (list A)) (heading : list A → string)
    (rows : list A → Settled string) (author : A → Author) :
  (∀ l, (∃ e, rows l = inl e) ↔ ∃ a, a ∈ author <$> l ∧ isObject a = false) →
  (∃ e, match entries with
        | Some (x :: l) => appendRows (inr (heading (x :: l))) (rows (x :: l))
        | _ => inr ""
        end = inl e)
  ↔ ∃ a, a ∈ author <$> default [] entries ∧ isObject a = false.
Proof.
  intros Hrows. destruct entries as [[|x l]|].
  - simpl. split; [by intros [? ?] | intros (a & Ha & _)].
    by apply elem_of_nil in Ha.
  - change (default [] (Some (x :: l))) with (x :: l).
    rewrite appendRows_fails, (Hrows (x :: l)).
    split; [intros [[? ?] | H]; done | by right].
  - simpl. split; [by intros [? ?] | intros (a & Ha & _)].
    by apply elem_of_nil in Ha.
Qed.

Lemma commentsSection_fails P issue :
  (∃ e, commentsSection P issue = inl e)
  ↔ ∃ a, a ∈ comment_author <$> default [] (comments issue)
         ∧ isObject a = false.
Proof.
  apply (section_fails (comments issue)
           (fun l => Js.nl +:+ "## Comments (" +:+ pretty (length l) +:+ ")"
                     +:+ Js.nl +:+ Js.nl)
           (fun l => concatRows (imap (commentText P) l)) comment_author).
  intros l. apply rows_fail. intros i c. apply commentText_fails.
Qed.

Lemma attachmentsSection_fails P issue :
  (∃ e, attachmentsSection P issue = inl e)
  ↔ ∃ a, a ∈ attachment_author <$> default [] (attachment issue)
         ∧ isObject a = false.
Proof.
  apply (section_fails (attachment issue)
           (fun l => Js.nl +:+ "## Attachments (" +:+ pretty (length l) +:+ ")"
                     +:+ Js.nl +:+ Js.nl
                     +:+ "| Filename | Size | Uploaded by | Date |" +:+ Js.nl
                     +:+ "|----------|------|-------------|------|" +:+ Js.nl)
           (fun l => concatRows (attachmentRow P <$> l)) attachment_author).
  intros l. apply fmap_rows_fail. intros a. apply attachmentRow_fails.
Qed.

Lemma worklogsSection_fails P issue :
  (∃ e, worklogsSection P issue = inl e)
  ↔ ∃ a, a ∈ worklog_author <$> default [] (worklogs issue)
         ∧ isObject a = false.
Proof.
  apply (section_fails (worklogs issue)
           (fun l => Js.nl +:+ "## Work Log (" +:+ pretty (length l) +:+ ")"
                     +:+ Js.nl +:+ Js.nl
                     +:+ "| User | Time Spent | Date | Comment |" +:+ Js.nl
                     +:+ "|------|------------|------|--------|" +:+ Js.nl)
           (fun l => concatRows (worklogRow P <$> l)) worklog_author).
  intros l. apply fmap_rows_fail. intros a. apply worklogRow_fails.
Qed.

Lemma historiesSection_fails P issue :
  (∃ e, historiesSection P issue = inl e)
  ↔ ∃ a, a ∈ history_author <$> default [] (histories issue)
         ∧ isObject a = false.
Proof.
  apply (section_fails (histories issue)
           (fun _ => Js.nl +:+ "## Change History" +:+ Js.nl +:+ Js.nl
                     +:+ "| Date | User | Changes |" +:+ Js.nl
                     +:+ "|------|------|--------|" +:+ Js.nl)
           (fun l => concatRows (historyRow P <$> l)) history_author).
  intros l. apply fmap_rows_fail. intros a. apply historyRow_fails.
Qed.

Lemma issueText_fails P issue :
  (∃ e, issueText P issue = inl e)
  ↔ ∃ author, author ∈ authors issue ∧ isObject author = false.
Proof.
  unfold issueText, authors. rewrite !appendRows_fails.
  rewrite commentsSection_fails, attachmentsSection_fails,
    worklogsSection_fails, historiesSection_fails.
  split.
  - intros [[[[[e He] | (a & Ha & Hobj)] | (a & Ha & Hobj)]
             | (a & Ha & Hobj)] | (a & Ha & Hobj)];
      [done | exists a; split; [| done] ..]; rewrite !elem_of_app; tauto.
  - intros (a & Ha & Hobj). rewrite !elem_of_app in Ha.
    destruct Ha as [Ha | [Ha | [Ha | Ha]]];
      [do 3 left; right | do 2 left; right | left; right | right];
      by exists a.
Qed.

(** *** What the report of [getIssue] throws *)

Lemma appendRows_inl (t r : Settled string) e :
  appendRows t r = inl e → t = inl e ∨ r = inl e.
Proof. destruct t as [e1|t], r as [e2|r]; simpl; naive_solver. Qed.

Lemma concatRows_inl rows e :
  concatRows rows = inl e → inl e ∈ rows.
Proof.
  induction rows as [|row rows IH]; [done |].
  rewrite concatRows_cons. intros [-> | H]%appendRows_inl.
  - apply list_elem_of_here.
  - by apply list_elem_of_further, IH.
Qed.

Lemma authorName_inl author e :
  authorName author = inl e →
  e = Js.undefinedRead "displayName" ∨ e = nullRead "displayName".
Proof. destruct author; simpl; naive_solver. Qed.

Lemma section_inl {A} (entries : option (list A)) (heading : list A → string)
    (rows : list A → list (Settled string)) e :
  (∀ l row, row ∈ rows l → row = inl e →
            e = Js.undefinedRead "displayName" ∨ e = nullRead "displayName") →
  match entries with
  | Some (x :: l) =>
      appendRows (inr (heading (x :: l))) (concatRows (rows (x :: l)))
  | _ => inr ""
  end = inl e →
  e = Js.undefinedRead "displayName" ∨ e = nullRead "displayName".
Proof.
  intros Hrows. destruct entries as [[|x l]|]; [done | | done].
  intros [H | H]%appendRows_inl; [done |].
  apply concatRows_inl in H. by apply (Hrows (x :: l) (inl e)).
Qed.

Lemma issueText_inl P issue e :
  issueText P issue = inl e →
  e = Js.undefinedRead "displayName" ∨ e = nullRead "displayName".
Proof.
  unfold issueText.
  intros [[[[H | H]%appendRows_inl | H]%appendRows_inl | H]%appendRows_inl
          | H]%appendRows_inl; [done | | | |].
  - revert H. unfold commentsSection.
    apply (section_inl (comments issue)
             (fun l => Js.nl +:+ "## Comments (" +:+ pretty (length l) +:+ ")"
                       +:+ Js.nl +:+ Js.nl)
             (fun l => imap (commentText P) l)).
    intros l row (i & c & -> & _)%elem_of_lookup_imap. unfold commentText.
    destruct (authorName (comment_author c)) eqn:E; [| done].
    intros [= ->]. by apply authorName_inl in E.
  - revert H. unfold attachmentsSection.
    apply (section_inl (attachment issue)
             (fun l => Js.nl +:+ "## Attachments (" +:+ pretty (length l)
                       +:+ ")" +:+ Js.nl +:+ Js.nl
                       +:+ "| Filename | Size | Uploaded by | Date |" +:+ Js.nl
                       +:+ "|----------|------|-------------|------|" +:+ Js.nl)
             (fun l => attachmentRow P <$> l)).
    intros l row (a & -> & _)%list_elem_of_fmap. unfold attachmentRow.
    destruct (authorName (attachment_author a)) eqn:E; [| done].
    intros [= ->]. by apply authorName_inl in E.
  - revert H. unfold worklogsSection.
    apply (section_inl (worklogs issue)
             (fun l => Js.nl +:+ "## Work Log (" +:+ pretty (length l) +:+ ")"
                       +:+ Js.nl +:+ Js.nl
                       +:+ "| User | Time Spent | Date | Comment |" +:+ Js.nl
                       +:+ "|------|------------|------|--------|" +:+ Js.nl)
             (fun l => worklogRow P <$> l)).
    intros l row (a & -> & _)%list_elem_of_fmap. unfold worklogRow.
    destruct (authorName (worklog_author a)) eqn:E; [| done].
    intros [= ->]. by apply authorName_inl in E.
  - revert H. unfold historiesSection.
    apply (section_inl (histories issue)
             (fun _ => Js.nl +:+ "## Change History" +:+ Js.nl +:+ Js.nl
                       +:+ "| Date | User | Changes |" +:+ Js.nl
                       +:+ "|------|------|--------|" +:+ Js.nl)
             (fun l => historyRow P <$> l)).
    intros l row (a & -> & _)%list_elem_of_fmap. unfold historyRow.
    destruct (authorName (history_author a)) eqn:E; [| done].
    intros [= ->]. by apply authorName_inl in E.
Qed.

Lemma prefix_app (a b c : string) :
  String.prefix (a +:+ c) (a +:+ b) = String.prefix c b.
Proof.
  induction a as [|x a IH]; [done |].
  rewrite !append_cons. simpl. by destruct (ascii_dec x x).
Qed.

Lemma includes_prefix_app (a b c : string) :
  String.prefix c b = true → Js.includes (a +:+ b) (a +:+ c) = true.
Proof. intros H. by rewrite includes_unfold, prefix_app, H. Qed.

(** The piece of a concatenation that has the text looked for. *)
Ltac includes_piece tac :=
  first [ solve [apply includes_app_l; tac]
        | apply includes_app_r; includes_piece tac ].

End IssueFacts.

Import JsFacts MonadFacts AuthFacts DispatchFacts IssueFacts.

(** X14. Once its arguments are validated and its credentials found,
    [listProjects] throws nothing and sends exactly one request, the project
    query. Its result is an error exactly when that request is rejected,
    and an empty list of projects is a success that says that no project
    was found. *)
Theorem listProjects_contains_failures (P : Platform) (env : ProcessEnv)
    (ig : IssueGateway) (detail : Js.Error → ErrorDetail) (args va : Args)
    (jiraHost authHeader : string) (w : World) :
  validate P JiraApiRequestSchema args = inr va →
  handlerCredentials P env va w = (Ok (jiraHost, authHeader), w) →
  ∃ r,
    listProjects P env ig detail args w
      = (Ok r, sent w [projectsRequest jiraHost authHeader])
    ∧ (isError r = true
       ↔ ∃ error, gw_projects ig (projectsRequest jiraHost authHeader) = inl error)
    ∧ (gw_projects ig (projectsRequest jiraHost authHeader) = inr [] →
       Js.includes (resultText r)
         "No projects found or you don't have access to any projects." = true).
Proof.
  intros Hv Hc. unfold listProjects.
  rewrite (validated_start _ _ _ _ _ _ Hv), (bind_ok _ _ _ _ _ Hc).
  unfold tryCatch, bind. rewrite axiosGet_run.
  destruct (gw_projects ig _) as [error|projects]; eexists; split_and!;
    try done.
  - split; [eauto | done].
  - split; [done | by intros [? ?]].
  - intros [= ->]. unfold ret, resultText, projectsText. simpl text.
    do 7 apply includes_app_r. apply includes_refl.
Qed.

Lemma listProjects_contains_failures_witness :
  ∃ r,
    listProjects Fixture.platform Fixture.env (Tracker.tracker ["projects"])
      Tracker.detail ∅ emptyWorld
      = (Ok r, sent emptyWorld [projectsRequest Fixture.host Fixture.auth])
    ∧ isError r = true.
Proof.
  destruct (listProjects_contains_failures Fixture.platform Fixture.env
              (Tracker.tracker ["projects"]) Tracker.detail ∅
              (Fixture.validated ∅) Fixture.host Fixture.auth emptyWorld)
    as (r & Hrun & Herr & _).
  - vm_compute. reflexivity.
  - vm_compute. reflexivity.
  - exists r. split; [exact Hrun |]. apply Herr. eexists. vm_compute.
    reflexivity.
Defined.

(** X15. Once its arguments are validated and its credentials found,
    [getIssue] throws nothing and sends exactly one request. Its result is
    an error in two cases only: when that request is rejected, and when it
    resolves with a comment, an attachment, a work log or a change whose
    author is missing, which the report reads without a guard. A rejection
    with status 404 is reported as the issue not being found or not being
    visible, whatever the message and the body of the response. *)
Theorem getIssue_contains_failures (P : Platform) (env : ProcessEnv)
    (ig : IssueGateway) (detail : Js.Error → ErrorDetail) (args va : Args)
    (jiraHost authHeader : string) (w : World) :
  validate P JiraIssueRequestSchema args = inr va →
  handlerCredentials P env va w = (Ok (jiraHost, authHeader), w) →
  let issueKey := Js.template (va !! "issueKey") in
  let req := issueRequest jiraHost authHeader issueKey in
  ∃ r,
    getIssue P env ig detail args w = (Ok r, sent w [req])
    ∧ (isError r = true
       ↔ (∃ error, gw_issue ig req = inl error)
         ∨ (∃ issue author,
              gw_issue ig req = inr issue
              ∧ author ∈ authors issue ∧ isObject author = false))
    ∧ (∀ error body,
         gw_issue ig req = inl error →
         Js.response error = Some (404, body) →
         resultText r =
           "# Error" +:+ Js.nl +:+ Js.nl +:+ "Issue " +:+ issueKey
           +:+ " not found or you don't have permission to view it.")
    ∧ (∀ issue error,
         gw_issue ig req = inr issue →
         issueText P issue = inl error →
         resultText r = "# Error" +:+ Js.nl +:+ Js.nl +:+ Js.message error).
Proof.
  intros Hv Hc issueKey req. unfold getIssue.
  rewrite (validated_start _ _ _ _ _ _ Hv), (bind_ok _ _ _ _ _ Hc).
  unfold tryCatch, bind. fold issueKey. fold req. rewrite axiosGet_run.
  destruct (gw_issue ig req) as [error|issue].
  - eexists. split; [done |]. split; [| split].
    + split; [eauto | done].
    + intros ? body [= <-] Hr. unfold issueError, resultText. simpl text.
      by rewrite Hr.
    + done.
  - rewrite await_run.
    destruct (issueText P issue) as [error|text] eqn:Htext.
    + eexists. split; [done |]. split; [| split].
      * split; [| done]. intros _. right.
        destruct (proj1 (issueText_fails P issue) (ex_intro _ error Htext))
          as (author & Hin & Hobj).
        by exists issue, author.
      * done.
      * intros ? e [= <-] He. rewrite Htext in He. injection He as <-.
        by destruct (issueText_inl _ _ _ Htext) as [-> | ->].
    + eexists. split; [done |]. split; [| split].
      * split; [done |]. intros [[e He] | (i & a & [= <-] & Hin & Hobj)];
          [done |].
        destruct (proj2 (issueText_fails P issue) (ex_intro _ a (conj Hin Hobj)))
          as [e He].
        by rewrite He in Htext.
      * done.
      * intros ? e [= <-] He. by rewrite Htext in He.
Qed.

Lemma getIssue_contains_failures_witness :
  (∃ r,
     getIssue Fixture.platform Fixture.env (Tracker.tracker ["issue"])
       Tracker.detail Tracker.issueArgs emptyWorld
       = (Ok r,
          sent emptyWorld [issueRequest Fixture.host Fixture.auth "ABC-7"])
     ∧ resultText r =
         "# Error" +:+ Js.nl +:+ Js.nl +:+ "Issue ABC-7"
         +:+ " not found or you don't have permission to view it.")
  ∧ (∃ r,
       getIssue Fixture.platform Fixture.env (Tracker.tracker ["author"])
         Tracker.detail Tracker.issueArgs emptyWorld
         = (Ok r,
            sent emptyWorld [issueRequest Fixture.host Fixture.auth "ABC-7"])
       ∧ isError r = true).
Proof.
  split.
  - destruct (getIssue_contains_failures Fixture.platform Fixture.env
                (Tracker.tracker ["issue"]) Tracker.detail Tracker.issueArgs
                (Fixture.validated Tracker.issueArgs) Fixture.host Fixture.auth
                emptyWorld) as (r & Hrun & _ & Hnf & _).
    + vm_compute. reflexivity.
    + vm_compute. reflexivity.
    + exists r. split; [exact Hrun |].
      apply (Hnf Tracker.notFound "{}"); vm_compute; reflexivity.
  - destruct (getIssue_contains_failures Fixture.platform Fixture.env
                (Tracker.tracker ["author"]) Tracker.detail Tracker.issueArgs
                (Fixture.validated Tracker.issueArgs) Fixture.host Fixture.auth
                emptyWorld) as (r & Hrun & Herr & _).
    + vm_compute. reflexivity.
    + vm_compute. reflexivity.
    + exists r. split; [exact Hrun |]. apply Herr. right.
      exists Tracker.orphaned, AuthorNull. split; [vm_compute; reflexivity |].
      split; [| reflexivity]. apply list_elem_of_In. vm_compute. left.
      reflexivity.
Defined.

(** X16. [searchIssues] has no [try]: once its arguments are validated and
    its credentials found, it sends one search request, and a rejection of
    that request is thrown as it is. Through the dispatcher the client
    then gets the error result made of the message of the rejection
    alone. *)
Theorem search_failure_reaches_client (P : Platform) (env : ProcessEnv)
    (gw : Gateway) (ig : IssueGateway) (detail : Js.Error → ErrorDetail)
    (adfDescription : Args → option AdfDoc) (now : string) (args va : Args)
    (jiraHost authHeader : string) (error : Js.Error) (w : World) :
  validate P JiraSearchIssuesRequestSchema args = inr va →
  validate P JiraSearchIssuesRequestSchema va = inr va →
  handlerCredentials P env va w = (Ok (jiraHost, authHeader), w) →
  let req :=
    searchRequest jiraHost authHeader (Js.template (va !! "projectKey"))
      (va !! "assigneeName") in
  gw_search gw req = inl error →
  searchIssues P env gw va w = (Throw error, sent w [req])
  ∧ callTool P env gw ig detail adfDescription now "jira_search_issues" args w
    = (Ok (textResult ("Error: " +:+ Js.message error) true), sent w [req]).
Proof.
  intros Hv Hvv Hc req He.
  assert (searchIssues P env gw va w = (Throw error, sent w [req])) as Hrun.
  { unfold searchIssues.
    rewrite (validated_start _ _ _ _ _ _ Hvv), (bind_ok _ _ _ _ _ Hc).
    unfold bind. fold req. by rewrite axiosGet_run, He. }
  split; [exact Hrun |].
  destruct (credentials_truthy _ _ _ _ _ _ Hc) as (H1 & H2 & H3).
  unfold callTool.
  rewrite (handleCallTool_handler P env gw _ _ _ _ "jira_search_issues"
             {| schema := JiraSearchIssuesRequestSchema;
                handler := searchIssues P env gw |}
             args va w eq_refl Hv).
  - simpl handler. by rewrite Hrun.
  - unfold validateAndGetCredentials, validateCredentials.
    by rewrite H1, H2, H3.
Qed.

Lemma search_failure_reaches_client_witness :
  callTool Fixture.platform Fixture.env Scenario.searchDown
    (Tracker.tracker []) Tracker.detail Tracker.adfDescription Tracker.now
    "jira_search_issues" Tracker.searchArgs emptyWorld
  = (Ok (textResult "Error: Request failed with status code 503" true),
     sent emptyWorld
       [searchRequest Fixture.host Fixture.auth "ABC" None]).
Proof.
  refine (proj2 (search_failure_reaches_client Fixture.platform Fixture.env
                   Scenario.searchDown (Tracker.tracker []) Tracker.detail
                   Tracker.adfDescription Tracker.now Tracker.searchArgs
                   (Fixture.validated Tracker.searchArgs)
                   Fixture.host Fixture.auth Fixture.unavailable emptyWorld
                   _ _ _ _)); vm_compute; reflexivity.
Defined.

(** X17. The size of an attachment is shown in kilobytes rounded to the
    nearest whole number, a half going up: the size shown is at most 512
    bytes off, it never decreases when the size grows, and an attachment
    of less than 512 bytes is shown as 0 KB. *)
Theorem attachment_size_is_rounded (size size' : Z) :
  1024 * sizeInKb size - 512 ≤ size < 1024 * sizeInKb size + 512
  ∧ (size ≤ size' → sizeInKb size ≤ sizeInKb size')
  ∧ (0 ≤ size < 512 → sizeInKb size = 0).
Proof.
  unfold sizeInKb. split; [| split].
  - pose proof (Z.mul_div_le (size + 512) 1024 eq_refl).
    pose proof (Z.mul_succ_div_gt (size + 512) 1024 eq_refl). lia.
  - intros H. apply Z.div_le_mono; lia.
  - intros H. apply Z.div_small. lia.
Qed.

(** X18. Among the candidates of a user search, [createIssue] takes the
    first one whose display name is the name asked for, letter case apart;
    when no candidate has that name it takes the first candidate, whatever
    its name. *)
Theorem pickUser_prefers_exact_name (P : Platform) (name : string)
    (data : list JiraUser) :
  data ≠ [] →
  ∃ user,
    pickUser P name data = Some user
    ∧ user ∈ data
    ∧ ((∃ u, u ∈ data
             ∧ toLowerCase P (user_displayName u) = toLowerCase P name) →
       toLowerCase P (user_displayName user) = toLowerCase P name
       ∧ ∃ before after,
           data = (before ++ user :: after)%list
           ∧ ∀ u, u ∈ before →
                  toLowerCase P (user_displayName u) ≠ toLowerCase P name)
    ∧ ((∀ u, u ∈ data →
             toLowerCase P (user_displayName u) ≠ toLowerCase P name) →
       head data = Some user).
Proof.
  intros Hne. unfold pickUser.
  set (f := fun user : JiraUser =>
              String.eqb (toLowerCase P (user_displayName user))
                         (toLowerCase P name)).
  assert (∀ l user, find f l = Some user →
            ∃ before after, l = (before ++ user :: after)%list
              ∧ f user = true ∧ ∀ u, u ∈ before → f u = false) as Hfind.
  { induction l as [|x l IH]; intros user; simpl; [done |].
    destruct (f x) eqn:Hx.
    - intros [= <-]. exists [], l. split_and!; [done | done |].
      intros u Hu. by apply elem_of_nil in Hu.
    - intros Hf. destruct (IH _ Hf) as (before & after & -> & Hu & Hb).
      exists (x :: before), after. split_and!; [done | done |].
      intros u [-> | Hin]%elem_of_cons; [done | by apply Hb]. }
  destruct (find f data) as [user|] eqn:Hf.
  - destruct (Hfind _ _ Hf) as (before & after & -> & Hu & Hb).
    apply String.eqb_eq in Hu.
    exists user. split_and!; [done | set_solver | |].
    + intros _. split; [done |]. exists before, after. split; [done |].
      intros u Hin. specialize (Hb u Hin). by apply String.eqb_neq in Hb.
    + intros Hnone. exfalso. apply (Hnone user); [set_solver | done].
  - destruct data as [|first data]; [done |]. exists first.
    split_and!; [done | set_solver | | done].
    intros (u & Hin & Hu). exfalso.
    apply list_elem_of_In in Hin.
    pose proof (find_none f _ Hf u Hin) as Hfu. unfold f in Hfu.
    by apply String.eqb_neq in Hfu.
Qed.

Lemma pickUser_prefers_exact_name_witness :
  ∃ user,
    pickUser Fixture.platform "BOB" Tracker.users = Some user
    ∧ user ∈ Tracker.users.
Proof.
  destruct (pickUser_prefers_exact_name Fixture.platform "BOB" Tracker.users)
    as (user & Hpick & Hin & _).
  - discriminate.
  - exists user. split; [exact Hpick | exact Hin].
Defined.

Import JsFacts MonadFacts AuthFacts DispatchFacts IssueFacts.

(** X19. Once its arguments are validated and its credentials found,
    [createIssue] throws nothing: whatever the tracker answers, it returns
    a result. When the creation request is rejected the result is the
    error report of that rejection, and the creation request is the last
    request sent: nothing is added to a sprint and no issue is read
    back. *)
Theorem createIssue_contains_failures (P : Platform) (env : ProcessEnv)
    (ig : IssueGateway) (detail : Js.Error → ErrorDetail)
    (adfDescription : Args → option AdfDoc) (now : string) (args va : Args)
    (jiraHost authHeader : string) (w : World) :
  validate P JiraCreateIssueRequestSchema args = inr va →
  handlerCredentials P env va w = (Ok (jiraHost, authHeader), w) →
  (∃ r w',
     createIssue P env ig detail adfDescription now args w = (Ok r, w'))
  ∧ (∀ error,
       (∀ payload,
          gw_createIssue ig payload (createRequest jiraHost authHeader)
            = inl error) →
       ∃ w',
         createIssue P env ig detail adfDescription now args w
           = (Ok (createIssueError detail (va !! "projectKey") error), w')
         ∧ last (requests w') = Some (createRequest jiraHost authHeader)
         ∧ isError (createIssueError detail (va !! "projectKey") error) = true).
Proof.
  intros Hv Hc. unfold createIssue.
  rewrite (validated_start _ _ _ _ _ _ Hv), (bind_ok _ _ _ _ _ Hc).
  split; [apply tryCatch_returns |].
  intros error He. unfold tryCatch.
  destruct (lookupAccount_returns P ig jiraHost authHeader "assignee"
              (va !! "assigneeName") w) as (assignee & w1 & H1 & _).
  rewrite (bind_ok _ _ _ _ _ H1).
  destruct (lookupAccount_returns P ig jiraHost authHeader "reporter"
              (va !! "reporterName") w1) as (reporter & w2 & H2 & _).
  rewrite (bind_ok _ _ _ _ _ H2).
  unfold bind. rewrite axiosPost_run, He.
  eexists. split_and!; [done | apply last_snoc |].
  unfold createIssueError. by destruct (classifyError _ _ _) as [[[? ?] ?] ?].
Qed.

Lemma createIssue_contains_failures_witness :
  ∃ w',
    createIssue Fixture.platform Fixture.env (Tracker.tracker ["createIssue"])
      Tracker.detail Tracker.adfDescription Tracker.now Tracker.createArgs
      emptyWorld
    = (Ok (createIssueError Tracker.detail (Some "ABC") Fixture.unavailable), w')
    ∧ last (requests w') = Some (createRequest Fixture.host Fixture.auth).
Proof.
  destruct (createIssue_contains_failures Fixture.platform Fixture.env
              (Tracker.tracker ["createIssue"]) Tracker.detail
              Tracker.adfDescription Tracker.now Tracker.createArgs
              (Tracker.validatedCreate Tracker.createArgs) Fixture.host
              Fixture.auth emptyWorld)
    as [_ Hpost].
  - vm_compute. reflexivity.
  - vm_compute. reflexivity.
  - destruct (Hpost Fixture.unavailable) as (w' & Hrun & Hlast & _).
    + intros payload. vm_compute. reflexivity.
    + exists w'. split; [exact Hrun | exact Hlast].
Defined.

(** X20. The lookup of the assignee is best effort: when the user search
    is rejected, [createIssue] writes a warning, creates the issue without
    an assignee and goes on to a success; when the created issue has no
    assignee, the report shows the name asked for with the note that the
    assignee may not have been found. *)
Theorem failed_lookup_leaves_assignee_out (P : Platform) (env : ProcessEnv)
    (ig : IssueGateway) (detail : Js.Error → ErrorDetail)
    (adfDescription : Args → option AdfDoc) (now : string) (args va : Args)
    (jiraHost authHeader assignee : string) (error : Js.Error)
    (createdIssue : CreatedIssue) (issue : IssueDetail) (w : World) :
  validate P JiraCreateIssueRequestSchema args = inr va →
  handlerCredentials P env va w = (Ok (jiraHost, authHeader), w) →
  Js.asTruthy (va !! "assigneeName") = Some assignee →
  Js.asTruthy (va !! "reporterName") = None →
  Js.asTruthy (va !! "sprintId") = None →
  gw_userSearch ig (userSearchRequest jiraHost authHeader assignee)
    = inl error →
  gw_createIssue ig
    {| payload_project := va !! "projectKey";
       payload_summary := va !! "summary";
       payload_description := adfDescription va;
       payload_issuetype := Js.orLit (va !! "issueType") "Task";
       payload_assignee := None;
       payload_reporter := None |}
    (createRequest jiraHost authHeader) = inr createdIssue →
  gw_issue ig
    (createdIssueRequest jiraHost authHeader (created_key createdIssue))
    = inr issue →
  ∃ r,
    createIssue P env ig detail adfDescription now args w
      = (Ok r,
         warned
           (sent w [userSearchRequest jiraHost authHeader assignee;
                    createRequest jiraHost authHeader;
                    createdIssueRequest jiraHost authHeader
                      (created_key createdIssue)])
           ["Could not find assignee: " +:+ assignee])
    ∧ isError r = false
    ∧ (detail_assignee issue = None →
       Js.includes (resultText r)
         (assignee +:+ " (assignee may not have been found)") = true).
Proof.
  intros Hv Hc Ha Hr Hs Hu Hp Hi. unfold createIssue.
  rewrite (validated_start _ _ _ _ _ _ Hv), (bind_ok _ _ _ _ _ Hc).
  unfold tryCatch.
  erewrite bind_ok; [| by rewrite lookupAccount_run, Ha, Hu].
  erewrite bind_ok; [| by rewrite lookupAccount_run, Hr].
  erewrite bind_ok; [| by rewrite axiosPost_run, Hp].
  erewrite bind_ok; [| by rewrite attachToSprint_run, Hs].
  erewrite bind_ok; [| by rewrite axiosGet_run, Hi].
  eexists. split; [| split].
  - unfold ret. f_equal. rewrite !sent_warned, !sent_sent. reflexivity.
  - reflexivity.
  - intros Hnone. unfold resultText, createdText. simpl text.
    rewrite Hnone. unfold personRow at 1. rewrite Ha.
    includes_piece
      ltac:(do 3 apply includes_app_r; by apply includes_prefix_app).
Qed.

Lemma failed_lookup_leaves_assignee_out_witness :
  ∃ r,
    createIssue Fixture.platform Fixture.env (Tracker.tracker ["userSearch"])
      Tracker.detail Tracker.adfDescription Tracker.now Tracker.assigneeArgs
      emptyWorld
    = (Ok r,
       warned
         (sent emptyWorld
            [userSearchRequest Fixture.host Fixture.auth "BOB";
             createRequest Fixture.host Fixture.auth;
             createdIssueRequest Fixture.host Fixture.auth "ABC-7"])
         ["Could not find assignee: BOB"])
    ∧ isError r = false.
Proof.
  destruct (failed_lookup_leaves_assignee_out Fixture.platform Fixture.env
              (Tracker.tracker ["userSearch"]) Tracker.detail
              Tracker.adfDescription Tracker.now Tracker.assigneeArgs
              (Tracker.validatedCreate Tracker.assigneeArgs) Fixture.host
              Fixture.auth "BOB"
              Fixture.unavailable Tracker.created Tracker.issue emptyWorld)
    as (r & Hrun & Herr & _); try (vm_compute; reflexivity).
  exists r. split; [exact Hrun | exact Herr].
Defined.

(** X21. Adding the created issue to the sprint is best effort too: when
    that request is rejected, [createIssue] writes a warning and still
    returns a success, and the report lists the sprint all the same. *)
Theorem failed_sprint_is_still_listed (P : Platform) (env : ProcessEnv)
    (ig : IssueGateway) (detail : Js.Error → ErrorDetail)
    (adfDescription : Args → option AdfDoc) (now : string) (args va : Args)
    (jiraHost authHeader sprint id : string) (error : Js.Error)
    (createdIssue : CreatedIssue) (issue : IssueDetail) (w : World) :
  validate P JiraCreateIssueRequestSchema args = inr va →
  handlerCredentials P env va w = (Ok (jiraHost, authHeader), w) →
  Js.asTruthy (va !! "assigneeName") = None →
  Js.asTruthy (va !! "reporterName") = None →
  Js.asTruthy (va !! "sprintId") = Some sprint →
  gw_createIssue ig
    {| payload_project := va !! "projectKey";
       payload_summary := va !! "summary";
       payload_description := adfDescription va;
       payload_issuetype := Js.orLit (va !! "issueType") "Task";
       payload_assignee := None;
       payload_reporter := None |}
    (createRequest jiraHost authHeader) = inr createdIssue →
  Js.asTruthy (created_id createdIssue) = Some id →
  gw_addToSprint ig [id] (sprintAttachRequest jiraHost authHeader sprint)
    = inl error →
  gw_issue ig
    (createdIssueRequest jiraHost authHeader (created_key createdIssue))
    = inr issue →
  ∃ r,
    createIssue P env ig detail adfDescription now args w
      = (Ok r,
         warned
           (sent w [createRequest jiraHost authHeader;
                    sprintAttachRequest jiraHost authHeader sprint;
                    createdIssueRequest jiraHost authHeader
                      (created_key createdIssue)])
           ["Could not add issue to sprint: " +:+ sprint])
    ∧ isError r = false
    ∧ Js.includes (resultText r) ("| Sprint | " +:+ sprint +:+ " |") = true.
Proof.
  intros Hv Hc Ha Hr Hs Hp Hid Hadd Hi. unfold createIssue.
  rewrite (validated_start _ _ _ _ _ _ Hv), (bind_ok _ _ _ _ _ Hc).
  unfold tryCatch.
  erewrite bind_ok; [| by rewrite lookupAccount_run, Ha].
  erewrite bind_ok; [| by rewrite lookupAccount_run, Hr].
  erewrite bind_ok; [| by rewrite axiosPost_run, Hp].
  erewrite bind_ok; [| by rewrite attachToSprint_run, Hs, Hid, Hadd].
  erewrite bind_ok; [| by rewrite axiosGet_run, Hi].
  eexists. split; [| split].
  - unfold ret. f_equal. rewrite !sent_warned, !sent_sent. reflexivity.
  - reflexivity.
  - unfold resultText, createdText. simpl text. rewrite Hs.
    includes_piece ltac:(apply includes_prefix_app; by rewrite prefix_app).
Qed.

Lemma failed_sprint_is_still_listed_witness :
  ∃ r,
    createIssue Fixture.platform Fixture.env (Tracker.tracker ["addToSprint"])
      Tracker.detail Tracker.adfDescription Tracker.now
      Tracker.sprintIssueArgs emptyWorld
    = (Ok r,
       warned
         (sent emptyWorld
            [createRequest Fixture.host Fixture.auth;
             sprintAttachRequest Fixture.host Fixture.auth "12";
             createdIssueRequest Fixture.host Fixture.auth "ABC-7"])
         ["Could not add issue to sprint: 12"])
    ∧ Js.includes (resultText r) "| Sprint | 12 |" = true.
Proof.
  destruct (failed_sprint_is_still_listed Fixture.platform Fixture.env
              (Tracker.tracker ["addToSprint"]) Tracker.detail
              Tracker.adfDescription Tracker.now Tracker.sprintIssueArgs
              (Tracker.validatedCreate Tracker.sprintIssueArgs) Fixture.host
              Fixture.auth "12" "10007"
              Fixture.unavailable Tracker.created Tracker.issue emptyWorld)
    as (r & Hrun & _ & Hlisted); try (vm_compute; reflexivity).
  exists r. split; [exact Hrun | exact Hlisted].
Defined.

(** ** The reference schemas *)

Module SchemaFacts.
Import JsFacts MonadFacts AuthFacts.

Lemma notBlank_truthy (v : string) :
  Ref.notBlank v = true → Js.truthy (Some v) = true.
Proof. by destruct v. Qed.

Lemma credentialField_inv field envValue msg args a :
  Ref.credentialField field envValue msg args = inr a →
  ∃ v, Ref.notBlank v = true ∧ a = <[field := v]> args.
Proof.
  unfold Ref.credentialField.
  destruct (Ref.notBlank _) eqn:E; [| done]. intros [= <-]. eauto.
Qed.

Lemma credentialField_fixed field envValue msg a v :
  a !! field = Some v → Ref.notBlank v = true →
  Ref.credentialField field envValue msg a = inr a.
Proof.
  intros Hl Hv. unfold Ref.credentialField. rewrite Hl. simpl.
  rewrite Hv. f_equal. by apply insert_id.
Qed.

Lemma apiRequest_inv env args a :
  Ref.apiRequest env args = inr a →
  ∃ h n t,
    Ref.notBlank h = true ∧ Ref.notBlank n = true ∧ Ref.notBlank t = true
    ∧ a !! "jiraHost" = Some h ∧ a !! "loginName" = Some n
    ∧ a !! "loginToken" = Some t
    ∧ ∀ field, field ≠ "jiraHost" → field ≠ "loginName" →
               field ≠ "loginToken" → a !! field = args !! field.
Proof.
  unfold Ref.apiRequest, Ref.andThen.
  destruct (Ref.credentialField "jiraHost" _ _ _) as [|a1] eqn:E1; [done |].
  destruct (Ref.credentialField "loginName" _ _ _) as [|a2] eqn:E2; [done |].
  intros E3.
  apply credentialField_inv in E1 as (h & Hh & ->).
  apply credentialField_inv in E2 as (n & Hn & ->).
  apply credentialField_inv in E3 as (t & Ht & ->).
  exists h, n, t. split_and!; try done; try (intros field ? ? ?);
    rewrite ?lookup_insert_ne by done; by rewrite ?lookup_insert_eq.
Qed.

Lemma apiRequest_fixed env a h n t :
  Ref.notBlank h = true → Ref.notBlank n = true → Ref.notBlank t = true →
  a !! "jiraHost" = Some h → a !! "loginName" = Some n →
  a !! "loginToken" = Some t →
  Ref.apiRequest env a = inr a.
Proof.
  intros Hh Hn Ht Lh Ln Lt. unfold Ref.apiRequest, Ref.andThen.
  rewrite (credentialField_fixed _ _ _ _ _ Lh Hh).
  rewrite (credentialField_fixed _ _ _ _ _ Ln Hn).
  by rewrite (credentialField_fixed _ _ _ _ _ Lt Ht).
Qed.

Lemma credentialField_blank field envValue msg args :
  Ref.notBlank (credentialValue envValue (args !! field)) = false →
  Ref.credentialField field envValue msg args = Ref.invalid msg.
Proof. unfold Ref.credentialField, credentialValue. by intros ->. Qed.

Lemma apiRequest_blank env args :
  blankCredential env args → ∃ error, Ref.apiRequest env args = inl error.
Proof.
  intros Hblank. unfold Ref.apiRequest, Ref.andThen.
  destruct (Ref.credentialField "jiraHost" _ _ _) as [e|a1] eqn:E1; [eauto |].
  destruct (Ref.credentialField "loginName" _ _ _) as [e|a2] eqn:E2; [eauto |].
  destruct (Ref.credentialField "loginToken" _ _ _) as [e|a3] eqn:E3; [eauto |].
  exfalso.
  pose proof E1 as E1'. apply credentialField_inv in E1' as (h & _ & ->).
  pose proof E2 as E2'. apply credentialField_inv in E2' as (n & _ & ->).
  destruct Hblank as [H | [H | H]].
  - by rewrite (credentialField_blank _ _ _ _ H) in E1.
  - rewrite credentialField_blank in E2; [done |].
    by rewrite lookup_insert_ne.
  - rewrite credentialField_blank in E3; [done |].
    by rewrite !lookup_insert_ne.
Qed.

Lemma yupValidate_blank env schema args :
  blankCredential env args → ∃ error, Ref.yupValidate env schema args = inl error.
Proof.
  intros Hblank. unfold Ref.yupValidate.
  destruct (apiRequest_blank env args Hblank) as [error ->]. by exists error.
Qed.

(** The checks after the common fields keep the fields they do not
    default. *)
Lemma sprintFields_inv a va :
  Ref.sprintFields a = inr va →
  Ref.sprintFields va = inr va
  ∧ ∀ field, field ≠ "state" → va !! field = a !! field.
Proof.
  unfold Ref.sprintFields.
  destruct (negb _) eqn:Eb; [done |].
  destruct (negb match a !! "projectKey" with
                 | Some k => Ref.isProjectKey k | None => true end) eqn:Ek;
    [done |].
  destruct (a !! "state") as [s|] eqn:Es.
  - destruct (existsb _ _) eqn:Ex; [| done]. intros [= <-].
    rewrite Eb, Ek, Es, Ex. done.
  - intros [= <-]. split.
    + rewrite !lookup_insert_ne by done. rewrite Eb, Ek.
      by rewrite lookup_insert_eq.
    + intros field ?. by rewrite lookup_insert_ne.
Qed.

Lemma requiredProjectKey_inv a va :
  Ref.requiredProjectKey a = inr va →
  va = a ∧ Ref.requiredProjectKey va = inr va.
Proof.
  unfold Ref.requiredProjectKey.
  destruct (Js.asTruthy (a !! "projectKey")) as [k|] eqn:Ek; [| done].
  destruct (Ref.isProjectKey k) eqn:Ep; [| done].
  intros [= <-]. by rewrite Ek, Ep.
Qed.

Lemma requiredUserName_inv a va :
  Ref.requiredUserName a = inr va →
  va = a ∧ Ref.requiredUserName va = inr va.
Proof.
  unfold Ref.requiredUserName.
  destruct (Js.asTruthy (a !! "userName")) as [u|] eqn:Eu; [| done].
  destruct (2 <=? Ref.utf16Length u)%nat eqn:El; [| done].
  intros [= <-]. by rewrite Eu, El.
Qed.

Lemma requiredIssueKey_inv a va :
  Ref.requiredIssueKey a = inr va →
  va = a ∧ Ref.requiredIssueKey va = inr va.
Proof.
  unfold Ref.requiredIssueKey.
  destruct (Js.asTruthy (a !! "issueKey")) as [k|] eqn:Ek; [| done].
  destruct (Ref.isIssueKey k) eqn:Ep; [| done].
  intros [= <-]. by rewrite Ek, Ep.
Qed.

Lemma optionalName_inv field msg a va :
  Ref.optionalName field msg a = inr va →
  va = a ∧ Ref.optionalName field msg va = inr va.
Proof.
  unfold Ref.optionalName.
  destruct (a !! field) as [name|] eqn:En.
  - destruct (2 <=? Ref.utf16Length name)%nat eqn:El; [| done].
    intros [= <-]. by rewrite En, El.
  - intros [= <-]. by rewrite En.
Qed.

Lemma requiredSummary_inv a va : Ref.requiredSummary a = inr va → va = a.
Proof.
  unfold Ref.requiredSummary.
  destruct (Js.asTruthy (a !! "summary")) as [t|]; [| done].
  destruct (negb (3 <=? Ref.utf16Length t)%nat); [done |].
  destruct (negb (Ref.utf16Length t <=? 255)%nat); [done |].
  by intros [= <-].
Qed.

Lemma issueTypeField_inv a va :
  Ref.issueTypeField a = inr va →
  ∀ field, field ≠ "issueType" → va !! field = a !! field.
Proof.
  unfold Ref.issueTypeField. destruct (a !! "issueType") as [t|].
  - destruct (existsb _ _); [| done]. by intros [= <-].
  - intros [= <-] field ?. by rewrite lookup_insert_ne.
Qed.

Lemma optionalSprintId_inv a va : Ref.optionalSprintId a = inr va → va = a.
Proof.
  unfold Ref.optionalSprintId.
  destruct (Js.asTruthy (a !! "sprintId")) as [i|]; [| by intros [= <-]].
  destruct (Ref.isNumeric i); [| done]. by intros [= <-].
Qed.

Lemma createFields_inv a va :
  Ref.createFields a = inr va →
  ∀ field, field ≠ "issueType" → va !! field = a !! field.
Proof.
  unfold Ref.createFields, Ref.andThen.
  destruct (Ref.requiredProjectKey a) as [|a1] eqn:E1; [done |].
  apply requiredProjectKey_inv in E1 as [-> _].
  destruct (Ref.requiredSummary a) as [|a2] eqn:E2; [done |].
  apply requiredSummary_inv in E2 as ->.
  destruct (Ref.issueTypeField a) as [|a3] eqn:E3; [done |].
  pose proof (issueTypeField_inv _ _ E3) as Hsame.
  destruct (Ref.optionalName "assigneeName" _ a3) as [|a4] eqn:E4; [done |].
  apply optionalName_inv in E4 as [-> _].
  destruct (Ref.optionalName "reporterName" _ a3) as [|a5] eqn:E5; [done |].
  apply optionalName_inv in E5 as [-> _].
  intros ->%optionalSprintId_inv. exact Hsame.
Qed.

(** What the schema checks after the common fields. *)
Lemma yupValidate_tail env schema args va :
  Ref.yupValidate env schema args = inr va →
  ∃ a,
    Ref.apiRequest env args = inr a
    ∧ (∀ field, field ≠ "state" → field ≠ "issueType" →
                va !! field = a !! field)
    ∧ (schema ≠ JiraCreateIssueRequestSchema →
       ∀ b, (∀ field, field ≠ "jiraHost" → field ≠ "loginName" →
                      field ≠ "loginToken" → b !! field = va !! field) →
            Ref.apiRequest env b = inr b →
            Ref.yupValidate env schema b = inr b).
Proof.
  unfold Ref.yupValidate, Ref.andThen at 1.
  destruct (Ref.apiRequest env args) as [|a] eqn:Ea; [done |].
  intros Htail. exists a. split; [done |].
  destruct schema.
  - injection Htail as <-. split; [done |]. intros _ b _ Hb.
    unfold Ref.andThen. by rewrite Hb.
  - apply requiredIssueKey_inv in Htail as [-> Hfix]. split; [done |].
    intros _ b Hsame Hb. unfold Ref.andThen. rewrite Hb.
    unfold Ref.requiredIssueKey in *. rewrite Hsame by done.
    destruct (Js.asTruthy (a !! "issueKey")); [| done].
    by destruct (Ref.isIssueKey s).
  - unfold Ref.andThen in Htail.
    destruct (Ref.requiredProjectKey a) as [|a1] eqn:E1; [done |].
    apply requiredProjectKey_inv in E1 as [-> Hfix1].
    apply optionalName_inv in Htail as [-> Hfix2]. split; [done |].
    intros _ b Hsame Hb. unfold Ref.andThen. rewrite Hb.
    unfold Ref.requiredProjectKey, Ref.optionalName in *.
    rewrite Hsame by done.
    destruct (Js.asTruthy (a !! "projectKey")); [| done].
    destruct (Ref.isProjectKey s); [| done].
    rewrite Hsame by done.
    destruct (a !! "assigneeName"); [| done].
    by destruct (2 <=? Ref.utf16Length s0)%nat.
  - apply requiredProjectKey_inv in Htail as [-> Hfix]. split; [done |].
    intros _ b Hsame Hb. unfold Ref.andThen. rewrite Hb.
    unfold Ref.requiredProjectKey in *. rewrite Hsame by done.
    destruct (Js.asTruthy (a !! "projectKey")); [| done].
    by destruct (Ref.isProjectKey s).
  - unfold Ref.andThen in Htail.
    destruct (Ref.requiredProjectKey a) as [|a1] eqn:E1; [done |].
    apply requiredProjectKey_inv in E1 as [-> Hfix1].
    apply requiredUserName_inv in Htail as [-> Hfix2]. split; [done |].
    intros _ b Hsame Hb. unfold Ref.andThen. rewrite Hb.
    unfold Ref.requiredProjectKey, Ref.requiredUserName in *.
    rewrite Hsame by done.
    destruct (Js.asTruthy (a !! "projectKey")); [| done].
    destruct (Ref.isProjectKey s); [| done].
    rewrite Hsame by done.
    destruct (Js.asTruthy (a !! "userName")); [| done].
    by destruct (2 <=? Ref.utf16Length s0)%nat.
  - split; [| done]. intros field _ ?. by apply (createFields_inv a va).
  - apply sprintFields_inv in Htail as [Hfix Hkeep].
    split; [intros field ? _; by apply Hkeep |].
    intros _ b Hsame Hb. unfold Ref.andThen. rewrite Hb.
    unfold Ref.sprintFields in *. rewrite !Hsame by done.
    destruct (negb match Js.asTruthy (va !! "boardId") with
                   | Some b0 => Ref.isNumeric b0 | None => true end);
      [done |].
    destruct (negb match va !! "projectKey" with
                   | Some k => Ref.isProjectKey k | None => true end);
      [done |].
    destruct (va !! "state") as [st|] eqn:Est.
    + by destruct (existsb _ _).
    + injection Hfix as Hfix. exfalso.
      assert (va !! "state" = Some "active") as Hst
        by (by rewrite <- Hfix, lookup_insert_eq).
      by rewrite Est in Hst.
Qed.

Lemma yupValidate_inv env schema args va :
  Ref.yupValidate env schema args = inr va →
  ∃ h n t,
    Ref.notBlank h = true ∧ Ref.notBlank n = true ∧ Ref.notBlank t = true
    ∧ va !! "jiraHost" = Some h ∧ va !! "loginName" = Some n
    ∧ va !! "loginToken" = Some t.
Proof.
  intros (a & Ha & Hsame & _)%yupValidate_tail.
  apply apiRequest_inv in Ha as (h & n & t & Hh & Hn & Ht & Lh & Ln & Lt & _).
  exists h, n, t. by rewrite !Hsame.
Qed.

Lemma yupValidate_fixed env schema args va :
  schema ≠ JiraCreateIssueRequestSchema →
  Ref.yupValidate env schema args = inr va →
  Ref.yupValidate env schema va = inr va.
Proof.
  intros Hs Hv.
  destruct (yupValidate_inv _ _ _ _ Hv)
    as (h & n & t & Hh & Hn & Ht & Lh & Ln & Lt).
  destruct (yupValidate_tail _ _ _ _ Hv) as (a & _ & _ & Hfix).
  apply (Hfix Hs va); [done |]. by apply (apiRequest_fixed env va h n t).
Qed.

End SchemaFacts.

Import JsFacts MonadFacts AuthFacts DispatchFacts IssueFacts SchemaFacts.

(** X3. A missing credential ends the call before any upstream request,
    and it is the schema that ends it. When the host, the login name or the
    login token has no character that is not white space, in the arguments
    or, without the argument, in the process environment, the schema
    rejects the arguments, and [listProjectMembers], [checkUserIssues] and
    [listSprints] throw that rejection with the world unchanged.
    [listSprints] validates before its [try], so the rejection is thrown
    and not turned into a result. *)
Theorem missing_credentials_abort (env : ProcessEnv) (gw : Gateway)
    (schema : Schema) (handler : Args → M ToolResult) (args : Args)
    (w : World) :
  (schema = JiraProjectMembersRequestSchema
     ∧ handler = listProjectMembers (Ref.platform env) env gw)
  ∨ (schema = JiraCheckUserIssuesRequestSchema
     ∧ handler = checkUserIssues (Ref.platform env) env gw)
  ∨ (schema = JiraSprintRequestSchema
     ∧ handler = listSprints (Ref.platform env) env gw) →
  blankCredential env args →
  ∃ error,
    validate (Ref.platform env) schema args = inl error
    ∧ handler args w = (Throw error, w).
Proof.
  intros Hs Hblank.
  destruct (yupValidate_blank env schema args Hblank) as [error Hv].
  change (validate (Ref.platform env) schema args = inl error) in Hv.
  exists error. split; [exact Hv |].
  destruct Hs as [[-> ->] | [[-> ->] | [-> ->]]];
    [unfold listProjectMembers | unfold checkUserIssues | unfold listSprints];
    apply bind_throw; by rewrite await_run, Hv.
Qed.

Lemma missing_credentials_abort_witness :
  listSprints (Ref.platform Scenario.bare) Scenario.bare Fixture.gateway
    Scenario.noLogin emptyWorld
  = (Throw (Js.newError "Login name is required for Jira 8.1.0 authentication"),
     emptyWorld).
Proof.
  destruct (missing_credentials_abort Scenario.bare Fixture.gateway
              JiraSprintRequestSchema
              (listSprints (Ref.platform Scenario.bare) Scenario.bare
                 Fixture.gateway)
              Scenario.noLogin emptyWorld) as (error & Hv & Hrun).
  - right. right. split; reflexivity.
  - right. left. vm_compute. reflexivity.
  - vm_compute in Hv. injection Hv as <-. exact Hrun.
Defined.

(** X4. A registered tool called without a credential is refused by the
    dispatcher before it looks for the credentials itself: the schema
    rejects the arguments, and [handleCallTool] returns the error result
    made of the message of that rejection; it sends no request and the
    result does not depend on the handler. *)
Theorem dispatcher_refuses_missing_credentials (env : ProcessEnv) (gw : Gateway)
    (listProjects getIssue searchIssues createIssue : Args → M ToolResult)
    (name : string) (toolConfig : ToolConfig) (args : Args) (w : World) :
  Js.get (toolConfigs (Ref.platform env) env gw listProjects getIssue
            searchIssues createIssue) name = Some toolConfig →
  blankCredential env args →
  ∃ error,
    validate (Ref.platform env) (schema toolConfig) args = inl error
    ∧ handleCallTool (Ref.platform env) env gw listProjects getIssue
        searchIssues createIssue name args w
      = (Ok (textResult ("Error: " +:+ Js.message error) true), w).
Proof.
  intros Hget Hblank.
  destruct (yupValidate_blank env (schema toolConfig) args Hblank)
    as [error Hv].
  exists error. split; [exact Hv |].
  by apply (handleCallTool_invalid (Ref.platform env) env gw listProjects
              getIssue searchIssues createIssue name toolConfig).
Qed.

Lemma dispatcher_refuses_missing_credentials_witness :
  handleCallTool (Ref.platform Scenario.bare) Scenario.bare Fixture.gateway
    (fun _ => ret (textResult "" false)) (fun _ => ret (textResult "" false))
    (fun _ => ret (textResult "" false)) (fun _ => ret (textResult "" false))
    "jira_list_sprints" Scenario.noLogin emptyWorld
  = (Ok (textResult
           "Error: Login name is required for Jira 8.1.0 authentication" true),
     emptyWorld).
Proof.
  destruct (dispatcher_refuses_missing_credentials Scenario.bare
              Fixture.gateway
              (fun _ => ret (textResult "" false))
              (fun _ => ret (textResult "" false))
              (fun _ => ret (textResult "" false))
              (fun _ => ret (textResult "" false))
              "jira_list_sprints"
              {| schema := JiraSprintRequestSchema;
                 handler := listSprints (Ref.platform Scenario.bare)
                              Scenario.bare Fixture.gateway |}
              Scenario.noLogin emptyWorld) as (error & Hv & Hrun).
  - reflexivity.
  - right. left. vm_compute. reflexivity.
  - vm_compute in Hv. injection Hv as <-. exact Hrun.
Defined.

(** X22. [listProjects], [getIssue], [searchIssues] and [createIssue]
    validate their arguments before their [try]: a rejection of the schema
    is thrown as it is, and no request is sent. A missing credential is such
    a rejection. The branch of the error report of [createIssue] for
    validation errors is not reached this way. *)
Theorem plain_handlers_throw_before_requests (P : Platform) (env : ProcessEnv)
    (gw : Gateway) (ig : IssueGateway) (detail : Js.Error → ErrorDetail)
    (adfDescription : Args → option AdfDoc) (now : string)
    (schema : Schema) (handler : Args → M ToolResult) (args : Args)
    (w : World) :
  (schema = JiraApiRequestSchema ∧ handler = listProjects P env ig detail)
  ∨ (schema = JiraIssueRequestSchema ∧ handler = getIssue P env ig detail)
  ∨ (schema = JiraSearchIssuesRequestSchema
     ∧ handler = searchIssues P env gw)
  ∨ (schema = JiraCreateIssueRequestSchema
     ∧ handler = createIssue P env ig detail adfDescription now) →
  (∀ error,
     validate P schema args = inl error → handler args w = (Throw error, w))
  ∧ (P = Ref.platform env → blankCredential env args →
     ∃ error,
       validate P schema args = inl error
       ∧ handler args w = (Throw error, w)).
Proof.
  intros Hs.
  assert (∀ error, validate P schema args = inl error →
                   handler args w = (Throw error, w)) as Hthrow.
  { intros error Hv.
    destruct Hs as [[-> ->] | [[-> ->] | [[-> ->] | [-> ->]]]];
      [unfold listProjects | unfold getIssue | unfold searchIssues
       | unfold createIssue];
      apply bind_throw; by rewrite await_run, Hv. }
  split; [exact Hthrow |].
  intros -> Hblank.
  destruct (yupValidate_blank env schema args Hblank) as [error Hv].
  exists error. split; [exact Hv | by apply Hthrow].
Qed.

Lemma plain_handlers_throw_before_requests_witness :
  createIssue (Ref.platform Scenario.bare) Scenario.bare (Tracker.tracker [])
    Tracker.detail Tracker.adfDescription Tracker.now Scenario.noLogin
    emptyWorld
  = (Throw (Js.newError "Login name is required for Jira 8.1.0 authentication"),
     emptyWorld).
Proof.
  destruct (plain_handlers_throw_before_requests
              (Ref.platform Scenario.bare) Scenario.bare Fixture.gateway
              (Tracker.tracker []) Tracker.detail Tracker.adfDescription
              Tracker.now JiraCreateIssueRequestSchema
              (createIssue (Ref.platform Scenario.bare) Scenario.bare
                 (Tracker.tracker []) Tracker.detail Tracker.adfDescription
                 Tracker.now)
              Scenario.noLogin emptyWorld) as [_ Hblank].
  - right. right. right. split; reflexivity.
  - destruct (Hblank eq_refl) as (error & Hv & Hrun).
    + right. left. vm_compute. reflexivity.
    + vm_compute in Hv. injection Hv as <-. exact Hrun.
Defined.

(** X23. Arguments the schemas of [validators/index] accept always carry
    the host, the login name and the login token, each with a character
    that is not white space, whatever the process environment holds: the
    credential check of the dispatcher and the one every handler starts
    with cannot fail on them. *)
Theorem validated_arguments_carry_credentials (env : ProcessEnv)
    (schema : Schema) (args va : Args) (w : World) :
  Ref.yupValidate env schema args = inr va →
  validateAndGetCredentials env va w = (Ok va, w)
  ∧ ∃ jiraHost loginName loginToken,
      va !! "jiraHost" = Some jiraHost ∧ va !! "loginName" = Some loginName
      ∧ va !! "loginToken" = Some loginToken
      ∧ handlerCredentials (Ref.platform env) env va w
        = (Ok (jiraHost, createAuthHeader (Ref.platform env) loginName loginToken),
           w).
Proof.
  intros Hv.
  destruct (yupValidate_inv _ _ _ _ Hv)
    as (h & n & t & Hh & Hn & Ht & Lh & Ln & Lt).
  apply notBlank_truthy in Hh, Hn, Ht.
  assert (Js.or (va !! "jiraHost") (JIRA_HOST env) = Some h) as Eh
    by (unfold Js.or; by rewrite Lh, Hh).
  assert (Js.or (va !! "loginName") (JIRA_LOGIN_NAME env) = Some n) as En
    by (unfold Js.or; by rewrite Ln, Hn).
  assert (Js.or (va !! "loginToken") (JIRA_LOGIN_TOKEN env) = Some t) as Et
    by (unfold Js.or; by rewrite Lt, Ht).
  split.
  - unfold validateAndGetCredentials, validateCredentials.
    by rewrite Eh, En, Et, Hh, Hn, Ht.
  - exists h, n, t. split_and!; try done.
    rewrite credentials_present; rewrite ?Eh, ?En, ?Et; done.
Qed.

Lemma validated_arguments_carry_credentials_witness :
  validateAndGetCredentials Scenario.bare
    (<[ "state" := "active" ]> (<[ "loginName" := "agent" ]> Scenario.noLogin))
    emptyWorld
  = (Ok (<[ "state" := "active" ]>
           (<[ "loginName" := "agent" ]> Scenario.noLogin)),
     emptyWorld).
Proof.
  refine (proj1 (validated_arguments_carry_credentials Scenario.bare
                   JiraSprintRequestSchema
                   (<[ "loginName" := "agent" ]> Scenario.noLogin) _
                   emptyWorld _)).
  vm_compute. reflexivity.
Defined.

(** X24. Validation is idempotent for the schemas whose fields are all
    strings, that is all but the one of the issue creation: arguments such
    a schema has returned are accepted by the same schema and returned as
    they are. The dispatcher validates the arguments and each handler
    validates them again; the handler therefore works on the arguments the
    dispatcher passed. *)
Theorem validation_is_idempotent (env : ProcessEnv) (schema : Schema)
    (args va : Args) :
  schema ≠ JiraCreateIssueRequestSchema →
  Ref.yupValidate env schema args = inr va →
  Ref.yupValidate env schema va = inr va.
Proof. apply yupValidate_fixed. Qed.

Lemma validation_is_idempotent_witness :
  Ref.yupValidate Fixture.env JiraSearchIssuesRequestSchema
    (Fixture.validated Tracker.searchArgs)
  = inr (Fixture.validated Tracker.searchArgs).
Proof.
  apply (validation_is_idempotent Fixture.env JiraSearchIssuesRequestSchema
           Tracker.searchArgs).
  - discriminate.
  - vm_compute. reflexivity.
Defined.

(** X25. The tools [handleListTools] advertises are the tools the
    dispatcher has a handler for, in the same order: a name is advertised
    exactly when a call of it is not answered with "Unknown tool" or with
    the error of an inherited property. Every field a tool marks as
    required is one of its properties, and every tool has the three
    credential properties. *)
Theorem advertised_tools_are_registered (P : Platform) (env : ProcessEnv)
    (gw : Gateway)
    (listProjects getIssue searchIssues createIssue : Args → M ToolResult)
    (name : string) :
  tool_name <$> handleListTools
    = Js.keys (toolConfigs P env gw listProjects getIssue searchIssues
                 createIssue)
  ∧ (name ∈ tool_name <$> handleListTools
     ↔ ∃ toolConfig,
         toolConfigsAt P env gw listProjects getIssue searchIssues createIssue
           name = OwnConfig toolConfig)
  ∧ Forall (fun tool =>
              tool_required tool ⊆ tool_properties tool
              ∧ getCommonJiraProperties ⊆ tool_properties tool)
           handleListTools.
Proof.
  split; [reflexivity | split].
  - unfold toolConfigsAt. split.
    + intros Hin. simpl in Hin.
      repeat (apply elem_of_cons in Hin as [-> | Hin]; [by eexists |]).
      by apply elem_of_nil in Hin.
    + intros [toolConfig Hown].
      destruct (Js.get _ name) as [c|] eqn:Hget;
        [| by destruct (existsb _ _)].
      clear Hown. unfold toolConfigs in Hget. cbn [Js.get] in Hget.
      repeat match type of Hget with
             | context [String.eqb ?k name] =>
                 destruct (String.eqb_spec k name) as [<- | _];
                   [simpl; set_solver |]
             end.
      done.
  - unfold handleListTools, getCommonJiraProperties.
    repeat (apply Forall_cons; split; [split; set_solver |]).
    by apply Forall_nil.
Qed.
